(** * if_lre: the lowRISC Ethernet driver of FreeBSD/RISC-V

    A shallow embedding of [sys/dev/lowrisc/ether/if_lre.c] and the
    properties of its transmit and receive paths.

    The driver talks to three things it does not own: the Ethernet core
    behind the memory resource [sc_mem] (reached through [GETREG] and
    [SETREG]), the mbuf cluster zone ([m_getcl]) and the network stack
    ([if_input], [if_inc_counter], [m_freem], BPF).  The first two are
    interfaces here ([Platform]); calls into the third are recorded, in
    program order, in a trace of [event]s. *)

From stdpp Require Import gmap strings list.
From Stdlib Require Import ZArith Lia.

Local Open Scope Z_scope.

(** ** Machine integers *)

(** [uint16_t], [uint32_t] and [int] ([s32]): values are kept in [Z] and every
    assignment to a variable of the type reduces the value into its range.
    [u64] is the conversion to the [uint64_t] value argument of a register
    write. *)
Definition u16 (x : Z) : Z := x mod 2 ^ 16.
Definition u32 (x : Z) : Z := x mod 2 ^ 32.
Definition s32 (x : Z) : Z := (x + 2 ^ 31) mod 2 ^ 32 - 2 ^ 31.
Definition u64 (x : Z) : Z := x mod 2 ^ 64.

(** [__bswap16] and [__bswap32] of <sys/endian.h>. *)
Definition __bswap16 (x : Z) : Z :=
  let x := u16 x in
  Z.lor (Z.shiftl (Z.land x 0xff) 8) (Z.land (Z.shiftr x 8) 0xff).

Definition __bswap32 (x : Z) : Z :=
  let x := u32 x in
  Z.lor (Z.shiftl (Z.land x 0xff) 24)
    (Z.lor (Z.shiftl (Z.land (Z.shiftr x 8) 0xff) 16)
       (Z.lor (Z.shiftl (Z.land (Z.shiftr x 16) 0xff) 8)
          (Z.land (Z.shiftr x 24) 0xff))).

(** The object representation of an [n]-byte unsigned integer on the
    little-endian RISC-V target: least significant byte first. *)
Fixpoint le_bytes (n : nat) (x : Z) : list Z :=
  match n with
  | O => []
  | S n' => Z.land x 0xff :: le_bytes n' (Z.shiftr x 8)
  end.

(** Byte [k] of [x], counting from the least significant. *)
Definition byte_of (k x : Z) : Z := Z.land (Z.shiftr x (8 * k)) 0xff.

(** [memcpy (dst + off, src, length src)] on a byte array. *)
Definition memcpy (dst : list Z) (off : nat) (src : list Z) : list Z :=
  take off dst ++ src ++ drop (off + length src) dst.

(** ** Constants of headers outside this file *)

(** The register map of <dev/lowrisc/ether/lre_reg.h>. *)
Class lre_reg := {
  MACLO_OFFSET : Z;
  MACHI_OFFSET : Z;
  TPLR_OFFSET : Z;
  RSR_OFFSET : Z;
  RBAD_OFFSET : Z;
  RPLR_OFFSET : Z;
  TXBUFF_OFFSET : Z;
  RXBUFF_OFFSET : Z;
  MACHI_MACADDR_MASK : Z;
  MACHI_ALLPKTS_MASK : Z;
  MACHI_IRQ_EN : Z;
  RSR_RECV_FIRST_MASK : Z;
  RSR_RECV_DONE_MASK : Z;
  RPLR_LENGTH_MASK : Z
}.

(** Kernel constants (<sys/param.h>, <net/ethernet.h>, <net/if.h>,
    <sys/bus.h>) and the build option [LOWRISC_NET_POLL]. *)
Class kern_param := {
  MCLBYTES : Z;
  ETHER_ALIGN : Z;
  IFF_DRV_RUNNING : Z;
  IFCAP_RXCSUM : Z;
  FILTER_SCHEDULE_THREAD : Z;
  LOWRISC_NET_POLL : bool
}.

(** ** The platform *)

(** [bus_read_8] and [bus_write_8] on the device behind [sc_mem], and the
    cluster zone behind [m_getcl].  A read returns the register value and the
    device state after the access, so a device may change between any two
    accesses. *)
Class Platform := {
  dev : Type;
  bus_read_8 : dev -> Z -> Z * dev;
  bus_write_8 : dev -> Z -> Z -> dev;
  zone : Type;
  zone_getcl : zone -> bool * zone
}.

(** ** Data *)

(** An mbuf with its cluster.  [m_data] is the byte offset of the data
    pointer inside the cluster; [m_ext] holds the 64-bit words of the cluster,
    keyed by the byte offset they were stored at.  A word absent from [m_ext]
    is memory the driver never wrote.  Offsets are counted from the start of
    the cluster and are not cut off at its end: a store beyond the cluster
    shows in [m_ext] at the offset it went to (see [in_cluster]). *)
Record mbuf := {
  m_data : Z;
  m_len : Z;
  m_pkthdr_len : Z;
  m_pkthdr_rcvif : bool;
  m_ext : gmap Z Z
}.

Inductive ift_counter :=
| IFCOUNTER_IPACKETS
| IFCOUNTER_IERRORS
| IFCOUNTER_IQDROPS
| IFCOUNTER_OPACKETS
| IFCOUNTER_OBYTES.

(** The interface: its flags and the counters behind [if_inc_counter], which
    are not bounded here. *)
Record ifnet := {
  if_flags : Z;
  if_drv_flags : Z;
  if_ipackets : Z;
  if_ierrors : Z;
  if_iqdrops : Z;
  if_opackets : Z;
  if_obytes : Z
}.

Inductive event :=
| EvGetReg (off val : Z)
| EvSetReg (off val : Z)
| EvPrintf (msg : string)
| EvIncCounter (c : ift_counter) (n : Z)
| EvGetcl (ok : bool)
| EvInput (m : mbuf)
| EvBpfMtap (m : mbuf)
| EvFreem (m : mbuf).

Section Driver.
Context {R : lre_reg} {K : kern_param} {P : Platform}.

Record lre_softc := {
  sc_ifp : ifnet;
  sc_flags : Z;
  sc_cap : Z;
  sc_mem : dev
}.

(** What a driver entry point runs on: the softc, the cluster zone, and the
    trace of everything done so far. *)
Record machine := {
  sc : lre_softc;
  mb_zone : zone;
  trace : list event
}.

(** ** A state monad over [machine] *)

Definition M (A : Type) : Type := machine -> A * machine.

Definition ret {A} (a : A) : M A := fun w => (a, w).

Definition bind {A B} (c : M A) (k : A -> M B) : M B :=
  fun w => let (a, w') := c w in k a w'.

Notation "x <- c ;; k" := (bind c (fun x => k))
  (at level 62, c at next level, right associativity).
Notation "c ;;; k" := (bind c (fun _ => k))
  (at level 62, right associativity).

Definition emit (e : event) : M unit :=
  fun w => (tt, {| sc := sc w; mb_zone := mb_zone w; trace := trace w ++ [e] |}).

Definition get_sc : M lre_softc := fun w => (sc w, w).

Definition put_sc (s : lre_softc) : M unit :=
  fun w => (tt, {| sc := s; mb_zone := mb_zone w; trace := trace w |}).

Definition set_sc_mem (d : dev) (s : lre_softc) : lre_softc :=
  {| sc_ifp := sc_ifp s; sc_flags := sc_flags s; sc_cap := sc_cap s; sc_mem := d |}.

Definition set_sc_cap (c : Z) (s : lre_softc) : lre_softc :=
  {| sc_ifp := sc_ifp s; sc_flags := sc_flags s; sc_cap := c; sc_mem := sc_mem s |}.

Definition set_sc_ifp (i : ifnet) (s : lre_softc) : lre_softc :=
  {| sc_ifp := i; sc_flags := sc_flags s; sc_cap := sc_cap s; sc_mem := sc_mem s |}.

Definition set_if_drv_flags (f : Z) (i : ifnet) : ifnet :=
  {| if_flags := if_flags i; if_drv_flags := f;
     if_ipackets := if_ipackets i; if_ierrors := if_ierrors i;
     if_iqdrops := if_iqdrops i; if_opackets := if_opackets i;
     if_obytes := if_obytes i |}.

(** The counter update of [if_inc_counter]. *)
Definition ifnet_add (c : ift_counter) (n : Z) (i : ifnet) : ifnet :=
  {| if_flags := if_flags i; if_drv_flags := if_drv_flags i;
     if_ipackets := if_ipackets i + (if c is IFCOUNTER_IPACKETS then n else 0);
     if_ierrors := if_ierrors i + (if c is IFCOUNTER_IERRORS then n else 0);
     if_iqdrops := if_iqdrops i + (if c is IFCOUNTER_IQDROPS then n else 0);
     if_opackets := if_opackets i + (if c is IFCOUNTER_OPACKETS then n else 0);
     if_obytes := if_obytes i + (if c is IFCOUNTER_OBYTES then n else 0) |}.

(** ** Register access and kernel services *)

(** Modelled from the spec: the macro [GETREG] of
    <dev/lowrisc/ether/lre_reg.h>, which is not among the sources.
    [read(offset) -> word], executed unconditionally on the register window:
    an 8-byte bus read on [sc_mem]. *)
Definition GETREG (reg : Z) : M Z :=
  s <- get_sc ;;
  let (v, d) := bus_read_8 (sc_mem s) reg in
  put_sc (set_sc_mem d s) ;;;
  emit (EvGetReg reg v) ;;;
  ret v.

(** Modelled from the spec: the macro [SETREG] of
    <dev/lowrisc/ether/lre_reg.h>, which is not among the sources.
    [write(offset, word)], executed unconditionally on the register window:
    an 8-byte bus write on [sc_mem]. *)
Definition SETREG (reg val : Z) : M unit :=
  s <- get_sc ;;
  put_sc (set_sc_mem (bus_write_8 (sc_mem s) reg val) s) ;;;
  emit (EvSetReg reg val).

(** The kernel services below are outside this file; what the driver asks of
    them is recorded in the trace. *)

(** [device_printf (sc->sc_dev, msg)], without the newline. *)
Definition device_printf (msg : string) : M unit := emit (EvPrintf msg).

(** [if_inc_counter (ifp, c, n)]: the counter grows by [n]. *)
Definition if_inc_counter (c : ift_counter) (n : Z) : M unit :=
  s <- get_sc ;;
  put_sc (set_sc_ifp (ifnet_add c n (sc_ifp s)) s) ;;;
  emit (EvIncCounter c n).

(** [m_getcl (M_NOWAIT, MT_DATA, M_PKTHDR)]: [None] is the NULL return; the
    zone decides.  A new mbuf points at the start of its cluster. *)
Definition m_getcl : M (option mbuf) :=
  fun w =>
    let (ok, z) := zone_getcl (mb_zone w) in
    let w' := {| sc := sc w; mb_zone := z; trace := trace w ++ [EvGetcl ok] |} in
    if ok
    then (Some {| m_data := 0; m_len := 0; m_pkthdr_len := 0;
                  m_pkthdr_rcvif := false; m_ext := ∅ |}, w')
    else (None, w').

Definition m_freem (m : mbuf) : M unit := emit (EvFreem m).
Definition ETHER_BPF_MTAP (m : mbuf) : M unit := emit (EvBpfMtap m).

(** [( *sc->sc_ifp->if_input) (sc->sc_ifp, m)]. *)
Definition if_input (m : mbuf) : M unit := emit (EvInput m).

(** [((uint64_t * ) m->m_data)[k]], read and written.  Reading a word the
    model does not hold gives 0. *)
Definition mbuf_load64 (m : mbuf) (k : Z) : Z :=
  default 0 (m_ext m !! (m_data m + 8 * k)).

Definition mbuf_store64 (m : mbuf) (k v : Z) : mbuf :=
  {| m_data := m_data m; m_len := m_len m; m_pkthdr_len := m_pkthdr_len m;
     m_pkthdr_rcvif := m_pkthdr_rcvif m;
     m_ext := <[m_data m + 8 * k := v]> (m_ext m) |}.

Definition mbuf_adj (m : mbuf) (n : Z) : mbuf :=
  {| m_data := m_data m + n; m_len := m_len m; m_pkthdr_len := m_pkthdr_len m;
     m_pkthdr_rcvif := m_pkthdr_rcvif m; m_ext := m_ext m |}.

Definition mbuf_set_hdr (m : mbuf) (len : Z) : mbuf :=
  {| m_data := m_data m; m_len := len; m_pkthdr_len := len;
     m_pkthdr_rcvif := true; m_ext := m_ext m |}.

(** Receive interrupts on or off: the read-modify-write of the MAC-high
    register that [lre_init], [lre_rx_intr] and [lre_rx_thread] compile in
    unless [LOWRISC_NET_POLL] is defined. *)
Definition irq_enable : M unit :=
  if LOWRISC_NET_POLL then ret tt
  else v <- GETREG MACHI_OFFSET ;; SETREG MACHI_OFFSET (Z.lor MACHI_IRQ_EN v).

Definition irq_disable : M unit :=
  if LOWRISC_NET_POLL then ret tt
  else v <- GETREG MACHI_OFFSET ;;
       SETREG MACHI_OFFSET (Z.land (Z.lnot MACHI_IRQ_EN) v).

(** ** lre_attach: reading the MAC address *)

(** The four statements under "Read MAC address."; [mac] is the
    uninitialised [uint8_t mac[6]]. *)
Definition lre_attach_mac (mac : list Z) : M (list Z) :=
  lo <- GETREG MACLO_OFFSET ;;
  let macaddr_lo := u32 (__bswap32 lo) in
  hi <- GETREG MACHI_OFFSET ;;
  let macaddr_hi := u32 (__bswap16 (Z.land hi MACHI_MACADDR_MASK)) in
  let mac := memcpy mac 2 (le_bytes 4 macaddr_lo) in
  let mac := memcpy mac 0 (le_bytes 2 macaddr_hi) in
  ret mac.

(** ** lre_init *)

Definition lre_init : M unit :=
  s <- get_sc ;;
  let ifp := sc_ifp s in
  let f := if_drv_flags ifp in
  let f := if negb (Z.land f IFF_DRV_RUNNING =? 0)
           then Z.land f (Z.lnot IFF_DRV_RUNNING) else f in
  let f := Z.lor f IFF_DRV_RUNNING in
  put_sc (set_sc_ifp (set_if_drv_flags f ifp) s) ;;;
  device_printf "lre_init called" ;;;
  irq_enable ;;;
  s <- get_sc ;;
  put_sc (set_sc_cap IFCAP_RXCSUM s).

(** ** lre_transmit *)

(** [for (i = 0; i < words; i+=8) SETREG(sc, TXBUFF_OFFSET+i, alloc[i>>3]);]
    from the current value of [i].  The loop is entered with [words] units
    of fuel, eight times what its [words / 8] rounds need. *)
Fixpoint tx_copy (fuel : nat) (m : mbuf) (words i : Z) : M unit :=
  match fuel with
  | O => ret tt
  | S fuel' =>
      if i <? words then
        SETREG (TXBUFF_OFFSET + i) (mbuf_load64 m (Z.shiftr i 3)) ;;;
        tx_copy fuel' m words (s32 (i + 8))
      else ret tt
  end.

Definition lre_transmit (m : mbuf) : M Z :=
  s <- get_sc ;;
  if negb (Z.land (if_drv_flags (sc_ifp s)) IFF_DRV_RUNNING =? IFF_DRV_RUNNING)
  then
    m_freem m ;;;
    ret 0
  else
    let words := s32 (Z.lor (m_pkthdr_len m - 1) 7 + 1) in
    tx_copy (Z.to_nat words) m words 0 ;;;
    SETREG TPLR_OFFSET (u64 (m_pkthdr_len m)) ;;;
    ETHER_BPF_MTAP m ;;;
    if_inc_counter IFCOUNTER_OPACKETS 1 ;;;
    if_inc_counter IFCOUNTER_OBYTES (m_pkthdr_len m) ;;;
    m_freem m ;;;
    ret 0.

(** ** lre_rx_intr *)

Definition lre_rx_intr : M Z :=
  _status <- GETREG RSR_OFFSET ;;
  irq_disable ;;;
  ret FILTER_SCHEDULE_THREAD.

(** ** lre_rx_thread *)

(** The locals [buf], [errs] and [length] of one pass through the loop. *)
Record rx_slot := {
  rs_buf : Z;
  rs_errs : Z;
  rs_length : Z
}.

(** The head of the loop body, down to the checksum-trailer adjustment. *)
Definition lre_rx_slot (status : Z) : M rx_slot :=
  let buf := u32 (Z.land status RSR_RECV_FIRST_MASK) in
  e <- GETREG RBAD_OFFSET ;;
  let errs := u32 e in
  l <- GETREG (u32 (RPLR_OFFSET + Z.shiftl (Z.land buf 7) 3)) ;;
  let length := u32 (Z.land l RPLR_LENGTH_MASK) in
  s <- get_sc ;;
  let length := if negb (Z.land (sc_cap s) IFCAP_RXCSUM =? 0)
                then u32 (length - 4) else length in
  ret {| rs_buf := buf; rs_errs := errs; rs_length := length |}.

(** [(length > MCLBYTES - ETHER_ALIGN) || ((0x101<<(buf&7)) & errs)]: the
    comparison is between [uint32_t] and [int], hence unsigned. *)
Definition lre_rx_discard (d : rx_slot) : bool :=
  (u32 (MCLBYTES - ETHER_ALIGN) <? rs_length d)
  || negb (Z.land (Z.shiftl 0x101 (Z.land (rs_buf d) 7)) (rs_errs d) =? 0).

(** [for (i = 0; i < rnd; i+=8) alloc[i>>3] = GETREG(sc, start+i);] from the
    current value of [i] ([int] against [uint32_t]: compared unsigned).  The
    loop is entered with [rnd] units of fuel for its [rnd / 8] rounds. *)
Fixpoint rx_copy (fuel : nat) (start rnd i : Z) (m : mbuf) : M mbuf :=
  match fuel with
  | O => ret m
  | S fuel' =>
      if u32 i <? rnd then
        v <- GETREG (u32 (start + i)) ;;
        rx_copy fuel' start rnd (s32 (i + 8)) (mbuf_store64 m (Z.shiftr i 3) v)
      else ret m
  end.

(** The three ways out of the loop body: [continue] after a discarded frame,
    [return] when no mbuf could be had, and the end of the body after the
    frame was passed to [if_input].  The first and the last carry the status
    read for the next test of the loop condition. *)
Inductive rx_step :=
| RxDiscard (status : Z)
| RxNoMbuf
| RxInput (status : Z).

Definition lre_rx_iter (status : Z) : M rx_step :=
  d <- lre_rx_slot status ;;
  if lre_rx_discard d then
    device_printf "Receive discarded" ;;;
    if_inc_counter IFCOUNTER_IERRORS 1 ;;;
    SETREG RSR_OFFSET (u32 (rs_buf d + 1)) ;;;
    status <- GETREG RSR_OFFSET ;;
    ret (RxDiscard (u32 status))
  else
    om <- m_getcl ;;
    match om with
    | None =>
        device_printf "no memory for receive mbuf." ;;;
        if_inc_counter IFCOUNTER_IQDROPS 1 ;;;
        ret RxNoMbuf
    | Some m =>
        let m := mbuf_adj m ETHER_ALIGN in
        let start := u32 (RXBUFF_OFFSET + Z.shiftl (Z.land (rs_buf d) 7) 11) in
        let rnd := u32 (Z.lor (u32 (rs_length d - 1)) 7 + 1) in
        m <- rx_copy (Z.to_nat rnd) start rnd 0 m ;;
        SETREG RSR_OFFSET (u32 (rs_buf d + 1)) ;;;
        let m := mbuf_set_hdr m (s32 (rs_length d)) in
        if_inc_counter IFCOUNTER_IPACKETS 1 ;;;
        if_input m ;;;
        status <- GETREG RSR_OFFSET ;;
        ret (RxInput (u32 status))
    end.

(** How the [while] loop was left. *)
Inductive rx_exit :=
| RingEmpty
| NoMbuf.

(** [while (status & RSR_RECV_DONE_MASK) { ... }]; the hardware may keep the
    ring non-empty for ever, so the loop takes fuel, one unit per test of its
    condition, and answers [None] when the fuel is used up. *)
Fixpoint lre_rx_loop (fuel : nat) (status : Z) : M (option rx_exit) :=
  match fuel with
  | O => ret None
  | S fuel' =>
      if Z.land status RSR_RECV_DONE_MASK =? 0 then ret (Some RingEmpty)
      else
        r <- lre_rx_iter status ;;
        match r with
        | RxDiscard st => lre_rx_loop fuel' st
        | RxNoMbuf => ret (Some NoMbuf)
        | RxInput st => lre_rx_loop fuel' st
        end
  end.

(** The thread from the first test of the loop condition on: the loop, then
    the epilogue, which the [return] inside the loop skips. *)
Definition lre_rx_drain (fuel : nat) (status : Z) : M (option unit) :=
  r <- lre_rx_loop fuel status ;;
  match r with
  | None => ret None
  | Some NoMbuf => ret (Some tt)
  | Some RingEmpty => irq_enable ;;; ret (Some tt)
  end.

Definition lre_rx_thread (fuel : nat) : M (option unit) :=
  status <- GETREG RSR_OFFSET ;;
  lre_rx_drain fuel (u32 status).

(** ** net_timeout *)

(** The callout of the [LOWRISC_NET_POLL] build.  The result is the delay
    handed to [callout_reset], which arms the callout again; [polltime] is the
    static of that name. *)
Definition net_timeout (polltime : Z) : M Z :=
  s <- get_sc ;;
  (if Z.land (if_drv_flags (sc_ifp s)) IFF_DRV_RUNNING =? IFF_DRV_RUNNING
   then _r <- lre_rx_intr ;; ret tt
   else ret tt) ;;;
  ret polltime.

(** ** lre_attach: discarding what the boot loader left in the ring *)

(** [while (status & RSR_RECV_DONE_MASK) { ... }] of [lre_attach], where
    [status] is a [uint64_t] and [buf] a [uint32_t]; fuel as in
    [lre_rx_loop].  The result is the status that ended the loop. *)
Fixpoint lre_attach_discard_loop (fuel : nat) (status : Z) : M (option Z) :=
  match fuel with
  | O => ret None
  | S fuel' =>
      if Z.land status RSR_RECV_DONE_MASK =? 0 then ret (Some status)
      else
        let buf := u32 (Z.land status RSR_RECV_FIRST_MASK) in
        SETREG RSR_OFFSET (u32 (buf + 1)) ;;;
        status <- GETREG RSR_OFFSET ;;
        lre_attach_discard_loop fuel' status
  end.

Definition lre_attach_discard (fuel : nat) : M (option Z) :=
  status <- GETREG RSR_OFFSET ;;
  lre_attach_discard_loop fuel status.

(** ** Vocabulary of the properties *)




(** Reading a list of registers one after the other: the values, and the
    device after the last read. *)
Fixpoint read_all (d : dev) (offs : list Z) : list Z * dev :=
  match offs with
  | [] => ([], d)
  | o :: offs' =>
      let (v, d1) := bus_read_8 d o in
      let (vs, d2) := read_all d1 offs' in
      (v :: vs, d2)
  end.

Definition get_events (offs vs : list Z) : list event :=
  zip_with EvGetReg offs vs.

(** Byte offsets [base + 8j], [base + 8(j+1)], ...: [n] consecutive words. *)
Definition word_offs (base j n : Z) : list Z :=
  (fun k => base + 8 * k) <$> seqZ j n.

(** The length register of slot [s]. *)
Definition slot_rplr (s : Z) : Z := u32 (RPLR_OFFSET + Z.shiftl (Z.land s 7) 3).

(** The pass got past the validation of the frame: it did not leave through
    the discard branch. *)
Definition rx_validated (r : rx_step) : bool :=
  match r with
  | RxDiscard _ => false
  | RxNoMbuf => true
  | RxInput _ => true
  end.

(** The acceptance test in the words of the specification, with
    [BASE_ERR | (BASE_ERR << s)] as the error mask of slot [s]; to be compared
    with [lre_rx_discard]. *)
Definition spec_rx_accept (d : rx_slot) : bool :=
  (rs_length d <=? MCLBYTES - ETHER_ALIGN)
  && (Z.land (Z.lor 0x101 (Z.shiftl 0x101 (rs_buf d))) (rs_errs d) =? 0).

(** What the loop body takes for granted about the constants it uses: the
    slot index of a status word can be incremented within [uint32_t], the
    ceiling on the frame length is an [int] that can still be rounded up to a
    multiple of 8, and the receive window of each of the eight slots lies
    within 32-bit register offsets. *)
Definition rx_layout_ok : Prop :=
  0 <= RSR_RECV_FIRST_MASK < 2 ^ 32 - 1
  /\ 0 <= MCLBYTES - ETHER_ALIGN <= 2 ^ 31 - 8
  /\ 0 <= RXBUFF_OFFSET
  /\ RXBUFF_OFFSET + 7 * 2048 + (MCLBYTES - ETHER_ALIGN) + 7 <= 2 ^ 32.

(** The mbuf handed to [if_input]: data pointer [ETHER_ALIGN] into a fresh
    cluster, the words [vs] stored from there on, both lengths [L]. *)
Definition rx_mbuf (L : Z) (vs : list Z) : mbuf :=
  {| m_data := ETHER_ALIGN; m_len := L; m_pkthdr_len := L;
     m_pkthdr_rcvif := true;
     m_ext := list_to_map (zip (word_offs ETHER_ALIGN 0 (Z.of_nat (length vs))) vs) |}.

(** Events that leave the ring and the stack alone: register reads and
    cluster allocations. *)
Definition quiet (ev : event) : Prop :=
  match ev with
  | EvGetReg _ _ => True
  | EvGetcl _ => True
  | _ => False
  end.

(** What a trace holds of each kind: the mbufs passed to [if_input], the
    mbufs freed, and the register writes as (offset, value) pairs. *)
Definition inputs (t : list event) : list mbuf :=
  omap (fun ev => match ev with EvInput m => Some m | _ => None end) t.

Definition frees (t : list event) : list mbuf :=
  omap (fun ev => match ev with EvFreem m => Some m | _ => None end) t.

Definition writes (t : list event) : list (Z * Z) :=
  omap (fun ev => match ev with EvSetReg o v => Some (o, v) | _ => None end) t.

(** An access to the register at [off]. *)
Definition touches (off : Z) (ev : event) : Prop :=
  match ev with
  | EvGetReg o _ => o = off
  | EvSetReg o _ => o = off
  | _ => False
  end.

(** The configuration of the interface and the counters of its transmit
    side are the same in [w'] as in [w]. *)
Definition same_config (w w' : machine) : Prop :=
  sc_flags (sc w') = sc_flags (sc w)
  /\ sc_cap (sc w') = sc_cap (sc w)
  /\ if_flags (sc_ifp (sc w')) = if_flags (sc_ifp (sc w))
  /\ if_drv_flags (sc_ifp (sc w')) = if_drv_flags (sc_ifp (sc w))
  /\ if_opackets (sc_ifp (sc w')) = if_opackets (sc_ifp (sc w))
  /\ if_obytes (sc_ifp (sc w')) = if_obytes (sc_ifp (sc w)).

(** The counters of the receive side are the same in [w'] as in [w]. *)
Definition same_rx_counters (w w' : machine) : Prop :=
  if_ipackets (sc_ifp (sc w')) = if_ipackets (sc_ifp (sc w))
  /\ if_ierrors (sc_ifp (sc w')) = if_ierrors (sc_ifp (sc w))
  /\ if_iqdrops (sc_ifp (sc w')) = if_iqdrops (sc_ifp (sc w)).

(** An mbuf as [lre_rx_thread] hands it on: data pointer [ETHER_ALIGN] into
    the cluster, both lengths equal, the receiving interface set. *)
Definition rx_frame_ok (m : mbuf) : Prop :=
  m_data m = ETHER_ALIGN
  /\ m_len m = m_pkthdr_len m
  /\ m_pkthdr_rcvif m = true
  /\ exists L : Z, 0 <= L <= u32 (MCLBYTES - ETHER_ALIGN) /\ m_len m = s32 L.

(** The books of the receive loop between [w] and [w'], with [t] traced in
    between and [dq] frames dropped for want of an mbuf: the configuration is
    untouched, every frame passed to [if_input] is counted once and is well
    formed, every register write is an advance of the ring and there is one
    for each frame counted as received or as in error, and nothing is
    freed. *)
Definition rx_books (dq : Z) (w w' : machine) (t : list event) : Prop :=
  trace w' = trace w ++ t
  /\ same_config w w'
  /\ if_ipackets (sc_ifp (sc w'))
     = if_ipackets (sc_ifp (sc w)) + Z.of_nat (length (inputs t))
  /\ 0 <= if_ierrors (sc_ifp (sc w')) - if_ierrors (sc_ifp (sc w))
  /\ Z.of_nat (length (writes t))
     = (if_ipackets (sc_ifp (sc w')) - if_ipackets (sc_ifp (sc w)))
       + (if_ierrors (sc_ifp (sc w')) - if_ierrors (sc_ifp (sc w)))
  /\ Forall (fun ow => fst ow = RSR_OFFSET) (writes t)
  /\ Forall rx_frame_ok (inputs t)
  /\ frees t = []
  /\ if_iqdrops (sc_ifp (sc w')) = if_iqdrops (sc_ifp (sc w)) + dq.

(** The cluster that [m_getcl] attaches to an mbuf is one allocation unit,
    [MCLBYTES] bytes: it is for this that the validation holds the length of
    a frame to [MCLBYTES - ETHER_ALIGN].  An 8-byte store at byte [off] of
    the cluster stays inside the cluster when [in_cluster off]. *)
Definition in_cluster (off : Z) : bool :=
  (0 <=? off) && (off + 8 <=? MCLBYTES).

(** Every word stored in the cluster of [m] lies inside the cluster. *)
Definition mbuf_in_cluster (m : mbuf) : Prop :=
  forall off v : Z, m_ext m !! off = Some v -> in_cluster off = true.

End Driver.

(** ** lre_ioctl *)

(** Constants of <net/if.h>, <sys/socket.h> and <sys/errno.h> used by
    [lre_ioctl], and the kernel option [INET]. *)
Class ioctl_param := {
  IFF_UP : Z;
  IFF_PROMISC : Z;
  AF_INET : Z;
  ENOTSUP : Z;
  INET : bool
}.

(** The request: [cmd] together with the view of [data] that the case of
    [cmd] reads.  The cases that [lre_ioctl] names are constructors; any other
    command is [SIOC_other]. *)
Inductive ioctl_req :=
| SIOCSIFADDR (sa_family : Z)
| SIOCSIFFLAGS
| SIOCGIFFLAGS
| SIOCGIFCAP
| SIOCSIFCAP (ifr_reqcap : Z)
| SIOCSIFMTU (ifr_mtu : Z)
| SIOCSIFMEDIA
| SIOCGIFMEDIA
| SIOCGIFSTATUS
| SIOCGIFXMEDIA
| SIOCGTUNFIB
| SIOCGIFGENERIC
| SIOCGDRVSPEC
| SIOCGLANPCP
| SIOCGIFPSRCADDR
| SIOCADDMULTI
| SIOCDELMULTI
| SIOC_other (cmd : Z).

(** What the call stored through [data]. *)
Inductive ioctl_reply :=
| ReplyNone
| ReplyCurcap (ifr_curcap : Z)
| ReplyStatus (ascii : string).

(** The network stack as [lre_ioctl] meets it: the functions it hands
    requests on to, and [if_hdrlen], which [ether_ifattach] sets and the
    driver only reads. *)
Class Netstack {P : Platform} := {
  if_hdrlen : Z;
  ether_ioctl : ioctl_req -> M (Z * ioctl_reply);
  ifmedia_ioctl : ioctl_req -> M (Z * ioctl_reply);
  arp_ifinit : M unit
}.

Section Ioctl.
Context {R : lre_reg} {K : kern_param} {P : Platform}.
Context {I : ioctl_param} {N : Netstack}.

Notation "x <- c ;; k" := (bind c (fun x => k))
  (at level 62, c at next level, right associativity).
Notation "c ;;; k" := (bind c (fun _ => k))
  (at level 62, right associativity).

Definition set_sc_flags (f : Z) (s : lre_softc) : lre_softc :=
  {| sc_ifp := sc_ifp s; sc_flags := f; sc_cap := sc_cap s; sc_mem := sc_mem s |}.

Definition set_if_flags (f : Z) (i : ifnet) : ifnet :=
  {| if_flags := f; if_drv_flags := if_drv_flags i;
     if_ipackets := if_ipackets i; if_ierrors := if_ierrors i;
     if_iqdrops := if_iqdrops i; if_opackets := if_opackets i;
     if_obytes := if_obytes i |}.

Definition lre_medchange : Z := ENOTSUP.

Definition lre_ioctl (req : ioctl_req) : M (Z * ioctl_reply) :=
  match req with
  | SIOCSIFADDR sa_family =>
      if INET && (sa_family =? AF_INET) then
        s <- get_sc ;;
        put_sc (set_sc_ifp
                  (set_if_flags (Z.lor (if_flags (sc_ifp s)) IFF_UP) (sc_ifp s))
                  s) ;;;
        (if Z.land (if_drv_flags (sc_ifp s)) IFF_DRV_RUNNING =? 0
         then lre_init else ret tt) ;;;
        arp_ifinit ;;;
        ret (0, ReplyNone)
      else
        r <- ether_ioctl req ;;
        if negb (fst r =? 0) then ret (fst r, snd r) else ret (0, snd r)
  | SIOCSIFFLAGS =>
      s <- get_sc ;;
      if if_flags (sc_ifp s) =? sc_flags s then ret (0, ReplyNone)
      else
        (if negb (Z.land (if_flags (sc_ifp s)) IFF_UP =? 0) then lre_init
         else
           if negb (Z.land (if_drv_flags (sc_ifp s)) IFF_DRV_RUNNING =? 0)
           then put_sc (set_sc_ifp
                          (set_if_drv_flags
                             (Z.land (if_drv_flags (sc_ifp s))
                                (Z.lnot IFF_DRV_RUNNING))
                             (sc_ifp s))
                          s)
           else ret tt) ;;;
        s <- get_sc ;;
        put_sc (set_sc_flags (if_flags (sc_ifp s)) s) ;;;
        (if negb (Z.land (if_flags (sc_ifp s)) IFF_PROMISC =? 0)
         then v <- GETREG MACHI_OFFSET ;;
              SETREG MACHI_OFFSET (Z.lor MACHI_ALLPKTS_MASK v)
         else v <- GETREG MACHI_OFFSET ;;
              SETREG MACHI_OFFSET (Z.land (Z.lnot MACHI_ALLPKTS_MASK) v)) ;;;
        ret (0, ReplyNone)
  | SIOCGIFFLAGS =>
      v <- GETREG MACHI_OFFSET ;;
      s <- get_sc ;;
      let f := if negb (Z.land MACHI_ALLPKTS_MASK v =? 0)
               then Z.lor (sc_flags s) IFF_PROMISC
               else Z.land (sc_flags s) (Z.lnot IFF_PROMISC) in
      put_sc (set_sc_ifp (set_if_flags f (sc_ifp s)) (set_sc_flags f s)) ;;;
      ret (0, ReplyNone)
  | SIOCGIFCAP =>
      s <- get_sc ;;
      ret (0, ReplyCurcap (sc_cap s))
  | SIOCSIFCAP ifr_reqcap =>
      s <- get_sc ;;
      put_sc (set_sc_cap ifr_reqcap s) ;;;
      ret (0, ReplyNone)
  | SIOCSIFMTU ifr_mtu =>
      if 1536 <? s32 (ifr_mtu + if_hdrlen) then ret (ENOTSUP, ReplyNone)
      else ret (0, ReplyNone)
  | SIOCSIFMEDIA => ifmedia_ioctl req
  | SIOCGIFMEDIA => ifmedia_ioctl req
  | SIOCGIFSTATUS => ret (0, ReplyStatus "if_lre status")
  | SIOCGIFXMEDIA => ether_ioctl req
  | SIOCGTUNFIB => ether_ioctl req
  | SIOCGIFGENERIC => ether_ioctl req
  | SIOCGDRVSPEC => ether_ioctl req
  | SIOCGLANPCP => ether_ioctl req
  | SIOCGIFPSRCADDR => ether_ioctl req
  | SIOCADDMULTI => ether_ioctl req
  | SIOCDELMULTI => ether_ioctl req
  | SIOC_other _ =>
      device_printf "unknown ioctl %X" ;;;
      ether_ioctl req
  end.

(** [x] is a single bit. *)
Definition one_bit (x : Z) : Prop := exists k : Z, 0 <= k /\ x = 2 ^ k.

End Ioctl.

(** ** A mocked platform *)

(** A register map laid out like that of the lowRISC Ethernet core, the
    kernel constants of a stock FreeBSD/RISC-V build, a device that is a plain
    register file except for the receive-status register, and a cluster zone
    that counts its free clusters.  The concrete runs below use them. *)
Module Mock.

#[export] Instance reg : lre_reg := {|
  MACLO_OFFSET := 0x0800;
  MACHI_OFFSET := 0x0808;
  TPLR_OFFSET := 0x0810;
  RSR_OFFSET := 0x0830;
  RBAD_OFFSET := 0x0838;
  RPLR_OFFSET := 0x0840;
  TXBUFF_OFFSET := 0x1000;
  RXBUFF_OFFSET := 0x4000;
  MACHI_MACADDR_MASK := 0x0000FFFF;
  MACHI_ALLPKTS_MASK := 0x00400000;
  MACHI_IRQ_EN := 0x00800000;
  RSR_RECV_FIRST_MASK := 0x0000000F;
  RSR_RECV_DONE_MASK := 0x00001000;
  RPLR_LENGTH_MASK := 0x00000FFF
|}.

#[export] Instance kern : kern_param := {|
  MCLBYTES := 2048;
  ETHER_ALIGN := 2;
  IFF_DRV_RUNNING := 0x40;
  IFCAP_RXCSUM := 0x00001;
  FILTER_SCHEDULE_THREAD := 0x04;
  LOWRISC_NET_POLL := false
|}.

(** [md_ring] is what the receive-status register will read, one entry per
    ring advance; a write to the register moves to the next entry. *)
Record mock_dev := {
  md_regs : gmap Z Z;
  md_ring : list Z
}.

Definition mock_read (d : mock_dev) (off : Z) : Z * mock_dev :=
  if off =? RSR_OFFSET then (hd 0 (md_ring d), d) else (default 0 (md_regs d !! off), d).

Definition mock_write (d : mock_dev) (off v : Z) : mock_dev :=
  if off =? RSR_OFFSET then {| md_regs := md_regs d; md_ring := tl (md_ring d) |}
  else {| md_regs := <[off := v]> (md_regs d); md_ring := md_ring d |}.

Definition mock_getcl (free : nat) : bool * nat :=
  match free with
  | O => (false, O)
  | S n => (true, n)
  end.

#[export] Instance platform : Platform := {|
  dev := mock_dev;
  bus_read_8 := mock_read;
  bus_write_8 := mock_write;
  zone := nat;
  zone_getcl := mock_getcl
|}.

Definition ifnet0 (drv_flags : Z) : ifnet :=
  {| if_flags := 0; if_drv_flags := drv_flags;
     if_ipackets := 0; if_ierrors := 0; if_iqdrops := 0;
     if_opackets := 0; if_obytes := 0 |}.

Definition machine0 (drv_flags cap : Z) (regs : list (Z * Z)) (ring : list Z)
    (free : nat) : machine :=
  {| sc := {| sc_ifp := ifnet0 drv_flags; sc_flags := 0; sc_cap := cap;
              sc_mem := {| md_regs := list_to_map regs; md_ring := ring |} |};
     mb_zone := free;
     trace := [] |}.

(** A 13-byte frame to transmit: two words of data. *)
Definition frame13 : mbuf :=
  {| m_data := 0; m_len := 13; m_pkthdr_len := 13; m_pkthdr_rcvif := false;
     m_ext := list_to_map [(0, 0x1111); (8, 0x2222)] |}.

(** A running interface with [IFCAP_RXCSUM] set whose ring has slot 3 ready:
    the error register reads [errs], the length register of slot 3 reads
    [len], the receive window of slot 3 starts with two non-zero words, and
    the receive-status register reads [0x1003], then 0 once the ring has been
    advanced.  The cluster zone has [free] clusters. *)
Definition rx_machine (errs len : Z) (free : nat) : machine :=
  machine0 0x40 0x1
    [(0x0838, errs); (0x0858, len); (0x5800, 0xaaaa); (0x5808, 0xbbbb)]
    [0x1003; 0] free.

(** The device of [rx_machine], before and after the ring was advanced. *)
Definition rx_dev (errs len : Z) : mock_dev := sc_mem (sc (rx_machine errs len 0)).

Definition rx_dev_advanced (errs len : Z) : mock_dev :=
  {| md_regs := md_regs (rx_dev errs len); md_ring := [0] |}.

(** The constants of [lre_ioctl] in a stock build, and a stack that
    answers 0 to whatever is handed on to it. *)
#[export] Instance ioctl : ioctl_param := {|
  IFF_UP := 0x1;
  IFF_PROMISC := 0x100;
  AF_INET := 2;
  ENOTSUP := 45;
  INET := true
|}.

#[export] Instance netstack : Netstack := {|
  if_hdrlen := 14;
  ether_ioctl := fun _ => ret (0, ReplyNone);
  ifmedia_ioctl := fun _ => ret (0, ReplyNone);
  arp_ifinit := ret tt
|}.


(** An interface whose flags are [flags] while [sc_flags] still holds
    [old], with driver flags [drv_flags] and the MAC-high register reading
    [machi]. *)
Definition flags_machine (flags old drv_flags machi : Z) : machine :=
  {| sc := {| sc_ifp := {| if_flags := flags; if_drv_flags := drv_flags;
                           if_ipackets := 0; if_ierrors := 0; if_iqdrops := 0;
                           if_opackets := 0; if_obytes := 0 |};
              sc_flags := old; sc_cap := 0x1;
              sc_mem := {| md_regs := list_to_map [(0x0808, machi)];
                           md_ring := [] |} |};
     mb_zone := 0%nat;
     trace := [] |}.

(** The kernel constants of a [LOWRISC_NET_POLL] build. *)
Definition kern_poll : kern_param := {|
  MCLBYTES := 2048;
  ETHER_ALIGN := 2;
  IFF_DRV_RUNNING := 0x40;
  IFCAP_RXCSUM := 0x00001;
  FILTER_SCHEDULE_THREAD := 0x04;
  LOWRISC_NET_POLL := true
|}.

(** A frame with nothing in it. *)
Definition frame0 : mbuf :=
  {| m_data := 0; m_len := 0; m_pkthdr_len := 0; m_pkthdr_rcvif := false;
     m_ext := ∅ |}.

End Mock.

(** * Properties *)

(** ** Arithmetic of the fixed-width types *)

Lemma u32_small (x : Z) : 0 <= x < 2 ^ 32 -> u32 x = x.
Proof. intros H. unfold u32. apply Z.mod_small. exact H. Qed.

Lemma u32_range (x : Z) : 0 <= u32 x < 2 ^ 32.
Proof. unfold u32. apply Z.mod_pos_bound. lia. Qed.

Lemma s32_small (x : Z) : - 2 ^ 31 <= x < 2 ^ 31 -> s32 x = x.
Proof. intros H. unfold s32. rewrite Z.mod_small; lia. Qed.


(** [x | 7] sets the three low bits: it is the last value of [x]'s block of
    eight. *)
Lemma lor_7 (x : Z) : Z.lor x 7 = 8 * (x / 8) + 7.
Proof.
  pose proof (Z.add_lor_land x 7) as H.
  change 7 with (Z.ones 3) in H at 2.
  rewrite Z.land_ones in H by lia.
  change (2 ^ 3) with 8 in H.
  pose proof (Z.div_mod x 8). lia.
Qed.

(** [((L-1)|7)+1] is [L] rounded up to a multiple of 8. *)
Lemma round_up_8 (L : Z) : Z.lor (L - 1) 7 + 1 = 8 * ((L + 7) / 8).
Proof.
  rewrite lor_7.
  replace (L + 7) with (L - 1 + 1 * 8) by lia.
  rewrite Z.div_add by lia. lia.
Qed.

(** Masking with a non-negative mask lands between 0 and the mask. *)
Lemma land_mask_bound (a b : Z) : 0 <= b -> 0 <= Z.land a b <= b.
Proof.
  intros Hb. split; [apply Z.land_nonneg; lia|].
  assert (Hn : 0 <= Z.land (Z.lnot a) b) by (apply Z.land_nonneg; lia).
  pose proof (Z.add_lor_land (Z.land a b) (Z.land (Z.lnot a) b)) as H.
  assert (H1 : Z.lor (Z.land a b) (Z.land (Z.lnot a) b) = b).
  { apply Z.bits_inj'. intros n Hn'.
    rewrite Z.lor_spec, !Z.land_spec, Z.lnot_spec by lia.
    destruct (Z.testbit a n), (Z.testbit b n); reflexivity. }
  assert (H2 : Z.land (Z.land a b) (Z.land (Z.lnot a) b) = 0).
  { apply Z.bits_inj'. intros n Hn'.
    rewrite !Z.land_spec, Z.lnot_spec, Z.bits_0 by lia.
    destruct (Z.testbit a n), (Z.testbit b n); reflexivity. }
  lia.
Qed.

(** Pointwise proofs of identities between [Z.land], [Z.lor] and [Z.lnot]. *)
Ltac bitwise :=
  apply Z.bits_inj'; intros ?n ?Hn;
  repeat first
    [ rewrite Z.lor_spec | rewrite Z.land_spec | rewrite Z.lnot_spec by lia ];
  repeat match goal with
         | |- context [Z.testbit ?a ?n] => destruct (Z.testbit a n)
         end;
  reflexivity.

Lemma lor_clear_set (f r : Z) : Z.lor (Z.land f (Z.lnot r)) r = Z.lor f r.
Proof. bitwise. Qed.

Lemma land_lor_same (f r : Z) : Z.land (Z.lor f r) r = r.
Proof. bitwise. Qed.

Lemma land_lor_same_l (f r : Z) : Z.land (Z.lor r f) r = r.
Proof. bitwise. Qed.

Lemma lor_lor_same (f r : Z) : Z.lor (Z.lor f r) r = Z.lor f r.
Proof. bitwise. Qed.

Lemma lor_lor_same_l (f r : Z) : Z.lor r (Z.lor r f) = Z.lor r f.
Proof. bitwise. Qed.

Section Properties.
Context {R : lre_reg} {K : kern_param} {P : Platform}.

(** ** Running the kernel services *)

Lemma GETREG_run (w : machine) (reg v : Z) (d : dev) :
  bus_read_8 (sc_mem (sc w)) reg = (v, d) ->
  GETREG reg w =
    (v, {| sc := set_sc_mem d (sc w); mb_zone := mb_zone w;
           trace := trace w ++ [EvGetReg reg v] |}).
Proof. intros H. unfold GETREG, bind, get_sc. rewrite H. reflexivity. Qed.

Lemma SETREG_run (w : machine) (reg v : Z) :
  SETREG reg v w =
    (tt, {| sc := set_sc_mem (bus_write_8 (sc_mem (sc w)) reg v) (sc w);
            mb_zone := mb_zone w;
            trace := trace w ++ [EvSetReg reg v] |}).
Proof. reflexivity. Qed.

Lemma if_inc_counter_run (w : machine) (c : ift_counter) (n : Z) :
  if_inc_counter c n w =
    (tt, {| sc := set_sc_ifp (ifnet_add c n (sc_ifp (sc w))) (sc w);
            mb_zone := mb_zone w;
            trace := trace w ++ [EvIncCounter c n] |}).
Proof. reflexivity. Qed.

(** [lre_init] leaves [if_drv_flags | IFF_DRV_RUNNING] whichever branch the
    first test takes. *)
Lemma lre_init_drv_flags (f : Z) :
  Z.lor (if negb (Z.land f IFF_DRV_RUNNING =? 0)
         then Z.land f (Z.lnot IFF_DRV_RUNNING) else f) IFF_DRV_RUNNING
  = Z.lor f IFF_DRV_RUNNING.
Proof.
  destruct (Z.land f IFF_DRV_RUNNING =? 0); simpl;
    [reflexivity | apply lor_clear_set].
Qed.

(** ** lre_transmit on a stopped interface *)

(** C5.  A frame passed to [lre_transmit] while [IFF_DRV_RUNNING] is not set
    is freed and 0 is returned; the softc (the device behind [sc_mem] and
    the counters of the interface with it) and the cluster zone are as
    before, and [m_freem] is the only thing recorded in the trace: no
    register is read or written. *)
Theorem lre_transmit_stopped (m : mbuf) (w : machine) :
  Z.land (if_drv_flags (sc_ifp (sc w))) IFF_DRV_RUNNING <> IFF_DRV_RUNNING ->
  lre_transmit m w =
    (0, {| sc := sc w; mb_zone := mb_zone w; trace := trace w ++ [EvFreem m] |}).
Proof.
  intros Hstop. unfold lre_transmit, bind, get_sc.
  apply Z.eqb_neq in Hstop. rewrite Hstop. reflexivity.
Qed.

(** ** lre_init *)

Lemma irq_enable_poll (w : machine) :
  LOWRISC_NET_POLL = true -> irq_enable w = (tt, w).
Proof. intros H. unfold irq_enable. rewrite H. reflexivity. Qed.

Lemma irq_enable_intr (w : machine) (v : Z) (d : dev) :
  LOWRISC_NET_POLL = false ->
  bus_read_8 (sc_mem (sc w)) MACHI_OFFSET = (v, d) ->
  irq_enable w =
    (tt, {| sc := set_sc_mem (bus_write_8 d MACHI_OFFSET (Z.lor MACHI_IRQ_EN v)) (sc w);
            mb_zone := mb_zone w;
            trace := trace w ++ [EvGetReg MACHI_OFFSET v;
                                 EvSetReg MACHI_OFFSET (Z.lor MACHI_IRQ_EN v)] |}).
Proof.
  intros Hp H. unfold irq_enable. rewrite Hp. unfold bind.
  rewrite (GETREG_run _ _ _ _ H), SETREG_run. simpl.
  rewrite <- app_assoc. reflexivity.
Qed.

(** The softc after [lre_init], given what the MAC-high register reads. *)
Lemma lre_init_sc (w : machine) :
  sc (lre_init w).2 =
    {| sc_ifp := set_if_drv_flags
                   (Z.lor (if_drv_flags (sc_ifp (sc w))) IFF_DRV_RUNNING)
                   (sc_ifp (sc w));
       sc_flags := sc_flags (sc w);
       sc_cap := IFCAP_RXCSUM;
       sc_mem := if LOWRISC_NET_POLL then sc_mem (sc w)
                 else let (v, d) := bus_read_8 (sc_mem (sc w)) MACHI_OFFSET in
                      bus_write_8 d MACHI_OFFSET (Z.lor MACHI_IRQ_EN v) |}.
Proof.
  unfold lre_init, bind, get_sc, put_sc, device_printf, emit. simpl.
  rewrite lre_init_drv_flags.
  destruct LOWRISC_NET_POLL eqn:Hp.
  - rewrite irq_enable_poll by exact Hp. reflexivity.
  - destruct (bus_read_8 (sc_mem (sc w)) MACHI_OFFSET) as [v d] eqn:Hr.
    erewrite irq_enable_intr; [reflexivity | exact Hp | exact Hr].
Qed.

(** C9.  Provided the MAC-high register reads back what was last written to
    it (needed in interrupt mode only: in polling mode [lre_init] leaves the
    device alone), running [lre_init] a second time changes neither the
    interface ([if_flags], [if_drv_flags], the counters), nor [sc_flags], nor
    the capability flags [sc_cap], nor what the MAC-high register holds.
    After a run [IFF_DRV_RUNNING] is set, [MACHI_IRQ_EN] is set in the MAC-high
    register (interrupt mode) and [sc_cap] is [IFCAP_RXCSUM]. *)
Theorem lre_init_idempotent (w : machine) :
  (LOWRISC_NET_POLL = false ->
   forall (d : dev) (v : Z),
     (bus_read_8 (bus_write_8 d MACHI_OFFSET v) MACHI_OFFSET).1 = v) ->
  let w1 := (lre_init w).2 in
  let w2 := (lre_init w1).2 in
  (sc_ifp (sc w2) = sc_ifp (sc w1)
   /\ sc_flags (sc w2) = sc_flags (sc w1)
   /\ sc_cap (sc w2) = sc_cap (sc w1)
   /\ (bus_read_8 (sc_mem (sc w2)) MACHI_OFFSET).1
      = (bus_read_8 (sc_mem (sc w1)) MACHI_OFFSET).1)
  /\ Z.land (if_drv_flags (sc_ifp (sc w1))) IFF_DRV_RUNNING = IFF_DRV_RUNNING
  /\ (LOWRISC_NET_POLL = false ->
      Z.land (bus_read_8 (sc_mem (sc w1)) MACHI_OFFSET).1 MACHI_IRQ_EN
      = MACHI_IRQ_EN)
  /\ sc_cap (sc w1) = IFCAP_RXCSUM
  /\ Z.land (sc_cap (sc w1)) IFCAP_RXCSUM = IFCAP_RXCSUM.
Proof.
  intros Hback w1 w2. subst w2.
  rewrite (lre_init_sc w1). subst w1. rewrite (lre_init_sc w). simpl.
  repeat split.
  - unfold set_if_drv_flags. simpl. rewrite lor_lor_same. reflexivity.
  - destruct LOWRISC_NET_POLL; [reflexivity|].
    destruct (bus_read_8 (sc_mem (sc w)) MACHI_OFFSET) as [v d].
    destruct (bus_read_8 (bus_write_8 d MACHI_OFFSET (Z.lor MACHI_IRQ_EN v))
                MACHI_OFFSET) as [v' d'] eqn:Hr.
    pose proof (Hback eq_refl d (Z.lor MACHI_IRQ_EN v)) as Hv.
    rewrite Hr in Hv. simpl in Hv. subst v'.
    rewrite !Hback by reflexivity. apply lor_lor_same_l.
  - apply land_lor_same.
  - intros Hp. rewrite Hp.
    destruct (bus_read_8 (sc_mem (sc w)) MACHI_OFFSET) as [v d].
    rewrite Hback by exact Hp. apply land_lor_same_l.
  - apply Z.land_diag.
Qed.

(** ** lre_transmit on a running interface *)




(** ** lre_rx_thread: one pass through the loop *)

Lemma word_offs_cons (base j : Z) (n : nat) :
  word_offs base j (Z.of_nat (S n))
  = (base + 8 * j) :: word_offs base (j + 1) (Z.of_nat n).
Proof.
  unfold word_offs. rewrite (seqZ_cons j (Z.of_nat (S n))) by lia.
  replace (Z.pred (Z.of_nat (S n))) with (Z.of_nat n) by lia.
  replace (Z.succ j) with (j + 1) by lia. reflexivity.
Qed.

Lemma word_offs_fresh (base j k n : Z) : j < k -> base + 8 * j ∉ word_offs base k n.
Proof.
  intros Hjk Hin. unfold word_offs in Hin.
  apply list_elem_of_fmap in Hin as (i & Heq & Hi).
  apply elem_of_seqZ in Hi. lia.
Qed.

(** Storing a word at a key that none of the later stores uses commutes with
    them. *)
Lemma store_then_rest (e : gmap Z Z) (k v : Z) (ks vs : list Z) :
  k ∉ ks ->
  list_to_map (zip ks vs) ∪ <[k := v]> e
  = list_to_map (zip (k :: ks) (v :: vs)) ∪ e.
Proof.
  intros Hk. simpl. rewrite <- insert_union_l.
  symmetry. apply insert_union_r, not_elem_of_list_to_map_1.
  intros Hin. apply Hk.
  apply list_elem_of_fmap in Hin as ([k' v'] & -> & Hin).
  apply elem_of_zip_l in Hin. exact Hin.
Qed.

Lemma rx_copy_run (start rnd : Z) :
  forall (n : nat) (j : Z) (fuel : nat) (m : mbuf) (w : machine),
    (n <= fuel)%nat -> 0 <= j ->
    rnd = 8 * (j + Z.of_nat n) -> rnd <= 2 ^ 31 - 8 ->
    0 <= start -> start + rnd <= 2 ^ 32 ->
    let offs := word_offs start j (Z.of_nat n) in
    let vs := (read_all (sc_mem (sc w)) offs).1 in
    rx_copy fuel start rnd (8 * j) m w =
      ({| m_data := m_data m; m_len := m_len m; m_pkthdr_len := m_pkthdr_len m;
          m_pkthdr_rcvif := m_pkthdr_rcvif m;
          m_ext := list_to_map (zip (word_offs (m_data m) j (Z.of_nat n)) vs)
                   ∪ m_ext m |},
       {| sc := set_sc_mem (read_all (sc_mem (sc w)) offs).2 (sc w);
          mb_zone := mb_zone w;
          trace := trace w ++ get_events offs vs |}).
Proof.
  induction n as [|n IH]; intros j fuel m w Hfuel Hj Hrnd Hmax Hs Hfit.
  - assert (Hlt : (u32 (8 * j) <? rnd) = false)
      by (rewrite u32_small by lia; apply Z.ltb_ge; lia).
    destruct w as [[i f c d] z t], m as [md ml mp mr me].
    destruct fuel; simpl; rewrite ?Hlt; unfold ret, set_sc_mem, get_events; simpl;
      rewrite app_nil_r, (left_id_L ∅ (∪)); reflexivity.
  - destruct fuel as [|fuel]; [lia|].
    assert (Hlt : (u32 (8 * j) <? rnd) = true)
      by (rewrite u32_small by lia; apply Z.ltb_lt; lia).
    intros offs vs. subst offs vs.
    rewrite !word_offs_cons. simpl read_all.
    destruct (bus_read_8 (sc_mem (sc w)) (start + 8 * j)) as [v d1] eqn:Hr.
    simpl rx_copy. rewrite Hlt. unfold bind.
    rewrite (u32_small (start + 8 * j)) by lia.
    rewrite (GETREG_run _ _ _ _ Hr).
    rewrite s32_small by lia.
    replace (8 * j + 8) with (8 * (j + 1)) by lia.
    rewrite IH by (simpl; lia). simpl.
    destruct (read_all d1 (word_offs start (j + 1) (Z.of_nat n))) as [vs d2].
    rewrite Z.shiftr_div_pow2 by lia.
    replace (8 * j / 2 ^ 3) with j
      by (change (2 ^ 3) with 8; rewrite Z.mul_comm, Z.div_mul; lia).
    simpl. rewrite store_then_rest by (apply word_offs_fresh; lia).
    unfold set_sc_mem, get_events. simpl. rewrite <- app_assoc. reflexivity.
Qed.

Lemma lre_rx_slot_run (status : Z) (w : machine) (e l : Z) (d1 d2 : dev) :
  let s := u32 (Z.land status RSR_RECV_FIRST_MASK) in
  let ml := u32 (Z.land l RPLR_LENGTH_MASK) in
  bus_read_8 (sc_mem (sc w)) RBAD_OFFSET = (e, d1) ->
  bus_read_8 d1 (slot_rplr s) = (l, d2) ->
  lre_rx_slot status w =
    ({| rs_buf := s; rs_errs := u32 e;
        rs_length := if negb (Z.land (sc_cap (sc w)) IFCAP_RXCSUM =? 0)
                     then u32 (ml - 4) else ml |},
     {| sc := set_sc_mem d2 (sc w); mb_zone := mb_zone w;
        trace := trace w ++ [EvGetReg RBAD_OFFSET e; EvGetReg (slot_rplr s) l] |}).
Proof.
  intros s ml He Hl. unfold lre_rx_slot, bind.
  rewrite (GETREG_run _ _ _ _ He).
  fold s. fold (slot_rplr s).
  erewrite GETREG_run by (simpl; exact Hl).
  unfold get_sc, ret. simpl. rewrite <- app_assoc. reflexivity.
Qed.

Lemma lre_rx_slot_buf (status : Z) (w : machine) :
  rs_buf (lre_rx_slot status w).1 = u32 (Z.land status RSR_RECV_FIRST_MASK).
Proof.
  destruct (bus_read_8 (sc_mem (sc w)) RBAD_OFFSET) as [e d1] eqn:He.
  destruct (bus_read_8 d1 (slot_rplr (u32 (Z.land status RSR_RECV_FIRST_MASK))))
    as [l d2] eqn:Hl.
  rewrite (lre_rx_slot_run _ _ _ _ _ _ He Hl). reflexivity.
Qed.

Lemma lre_rx_slot_length_range (status : Z) (w : machine) :
  0 <= rs_length (lre_rx_slot status w).1 < 2 ^ 32.
Proof.
  destruct (bus_read_8 (sc_mem (sc w)) RBAD_OFFSET) as [e d1] eqn:He.
  destruct (bus_read_8 d1 (slot_rplr (u32 (Z.land status RSR_RECV_FIRST_MASK))))
    as [l d2] eqn:Hl.
  rewrite (lre_rx_slot_run _ _ _ _ _ _ He Hl). simpl.
  destruct (negb _); apply u32_range.
Qed.

Lemma slot_index_range (status : Z) :
  0 <= RSR_RECV_FIRST_MASK < 2 ^ 32 - 1 ->
  0 <= u32 (Z.land status RSR_RECV_FIRST_MASK) < 2 ^ 32 - 1.
Proof.
  intros Hm. pose proof (land_mask_bound status RSR_RECV_FIRST_MASK).
  rewrite u32_small; lia.
Qed.

(** The pass leaves through the discard branch exactly when
    [lre_rx_discard] says so. *)
Lemma lre_rx_iter_validated (status : Z) (w : machine) :
  rx_validated (lre_rx_iter status w).1
  = negb (lre_rx_discard (lre_rx_slot status w).1).
Proof.
  unfold lre_rx_iter, bind.
  destruct (lre_rx_slot status w) as [d w1]. simpl.
  destruct (lre_rx_discard d).
  - repeat match goal with
           | |- context [let (_, _) := ?c in _] => destruct c
           end.
    reflexivity.
  - destruct (m_getcl w1) as [[m|] w2].
    + repeat match goal with
             | |- context [let (_, _) := ?c in _] => destruct c
             end.
      reflexivity.
    + reflexivity.
Qed.

(** C1, as the code has it.  Whatever the status word of a pass through the
    loop, let [s] be the slot index, the low three bits [buf & 7] of its
    index field [buf] (so [s] is in 0..7, also when [buf] is 8 or more), [E]
    the error register value and [L] the length (masked, and with the 4-byte
    trailer taken off when [IFCAP_RXCSUM] is set).  The frame gets past the
    validation if and only if [L <= MCLBYTES - ETHER_ALIGN] and
    [(0x101 << s) & E] is 0.  The error mask of slot [s] is [0x101 << s], not
    [0x101 | (0x101 << s)]. *)
Theorem lre_rx_validation (status : Z) (w : machine) :
  let d := (lre_rx_slot status w).1 in
  let s := Z.land (rs_buf d) 7 in
  let E := rs_errs d in
  let L := rs_length d in
  0 <= MCLBYTES - ETHER_ALIGN < 2 ^ 32 ->
  0 <= s <= 7
  /\ (rx_validated (lre_rx_iter status w).1 = true
      <-> L <= MCLBYTES - ETHER_ALIGN /\ Z.land (Z.shiftl 0x101 s) E = 0).
Proof.
  intros d s E L Hmax.
  split; [apply land_mask_bound; lia|].
  rewrite lre_rx_iter_validated. fold d.
  unfold lre_rx_discard. fold s E L.
  rewrite (u32_small (MCLBYTES - ETHER_ALIGN)) by exact Hmax.
  rewrite negb_true_iff, orb_false_iff, negb_false_iff, Z.ltb_ge, Z.eqb_eq.
  reflexivity.
Qed.

(** *** A discarded frame *)

Lemma lre_rx_iter_discard_run (status : Z) (w : machine) (e l st : Z)
    (d1 d2 d3 : dev) :
  let s := u32 (Z.land status RSR_RECV_FIRST_MASK) in
  0 <= RSR_RECV_FIRST_MASK < 2 ^ 32 - 1 ->
  bus_read_8 (sc_mem (sc w)) RBAD_OFFSET = (e, d1) ->
  bus_read_8 d1 (slot_rplr s) = (l, d2) ->
  lre_rx_discard (lre_rx_slot status w).1 = true ->
  bus_read_8 (bus_write_8 d2 RSR_OFFSET (s + 1)) RSR_OFFSET = (st, d3) ->
  lre_rx_iter status w =
    (RxDiscard (u32 st),
     {| sc := {| sc_ifp := ifnet_add IFCOUNTER_IERRORS 1 (sc_ifp (sc w));
                 sc_flags := sc_flags (sc w);
                 sc_cap := sc_cap (sc w);
                 sc_mem := d3 |};
        mb_zone := mb_zone w;
        trace := trace w ++
                 [EvGetReg RBAD_OFFSET e; EvGetReg (slot_rplr s) l;
                  EvPrintf "Receive discarded";
                  EvIncCounter IFCOUNTER_IERRORS 1;
                  EvSetReg RSR_OFFSET (s + 1); EvGetReg RSR_OFFSET st] |}).
Proof.
  intros s Hmask He Hl Hdis Hst.
  pose proof (slot_index_range status Hmask) as Hs. fold s in Hs.
  unfold lre_rx_iter, bind.
  rewrite (lre_rx_slot_run _ _ _ _ _ _ He Hl) in *. fold s in Hdis |- *.
  simpl in Hdis. rewrite Hdis.
  unfold device_printf, emit. rewrite if_inc_counter_run, SETREG_run. simpl.
  rewrite (u32_small (s + 1)) by lia.
  erewrite GETREG_run by (simpl; exact Hst).
  unfold ret, set_sc_mem. simpl. rewrite <- !app_assoc. reflexivity.
Qed.

(** C2.  A pass through the loop whose frame fails the validation adds 1 to
    [IFCOUNTER_IERRORS], writes the slot index plus one to the receive-status
    register, reads that register again, and goes on to the next test of the
    loop condition with the value read.  Apart from the two reads that
    fetched the error flags and the length, nothing else happens: the cluster
    zone is not touched and nothing is passed to [if_input]. *)
Theorem lre_rx_iter_discards (status : Z) (w : machine) (e l st : Z)
    (d1 d2 d3 : dev) :
  let s := u32 (Z.land status RSR_RECV_FIRST_MASK) in
  let w' :=
    {| sc := {| sc_ifp := ifnet_add IFCOUNTER_IERRORS 1 (sc_ifp (sc w));
                sc_flags := sc_flags (sc w);
                sc_cap := sc_cap (sc w);
                sc_mem := d3 |};
       mb_zone := mb_zone w;
       trace := trace w ++
                [EvGetReg RBAD_OFFSET e; EvGetReg (slot_rplr s) l;
                 EvPrintf "Receive discarded";
                 EvIncCounter IFCOUNTER_IERRORS 1;
                 EvSetReg RSR_OFFSET (s + 1); EvGetReg RSR_OFFSET st] |} in
  0 <= RSR_RECV_FIRST_MASK < 2 ^ 32 - 1 ->
  bus_read_8 (sc_mem (sc w)) RBAD_OFFSET = (e, d1) ->
  bus_read_8 d1 (slot_rplr s) = (l, d2) ->
  lre_rx_discard (lre_rx_slot status w).1 = true ->
  bus_read_8 (bus_write_8 d2 RSR_OFFSET (s + 1)) RSR_OFFSET = (st, d3) ->
  rs_buf (lre_rx_slot status w).1 = s
  /\ lre_rx_iter status w = (RxDiscard (u32 st), w')
  /\ if_ierrors (sc_ifp (sc w')) = if_ierrors (sc_ifp (sc w)) + 1
  /\ (Z.land status RSR_RECV_DONE_MASK <> 0 ->
      forall fuel : nat,
        lre_rx_loop (S fuel) status w = lre_rx_loop fuel (u32 st) w').
Proof.
  intros s w' Hmask He Hl Hdis Hst.
  pose proof (lre_rx_iter_discard_run _ _ _ _ _ _ _ _ Hmask He Hl Hdis Hst) as Hrun.
  fold s in Hrun. fold w' in Hrun.
  split; [apply lre_rx_slot_buf|].
  split; [exact Hrun|].
  split; [reflexivity|].
  intros Hdone fuel. simpl lre_rx_loop.
  apply Z.eqb_neq in Hdone. rewrite Hdone.
  unfold bind. rewrite Hrun. reflexivity.
Qed.

(** *** No mbuf *)

Lemma lre_rx_iter_nombuf_run (status : Z) (w : machine) (e l : Z)
    (d1 d2 : dev) (z : zone) :
  let s := u32 (Z.land status RSR_RECV_FIRST_MASK) in
  bus_read_8 (sc_mem (sc w)) RBAD_OFFSET = (e, d1) ->
  bus_read_8 d1 (slot_rplr s) = (l, d2) ->
  lre_rx_discard (lre_rx_slot status w).1 = false ->
  zone_getcl (mb_zone w) = (false, z) ->
  lre_rx_iter status w =
    (RxNoMbuf,
     {| sc := {| sc_ifp := ifnet_add IFCOUNTER_IQDROPS 1 (sc_ifp (sc w));
                 sc_flags := sc_flags (sc w);
                 sc_cap := sc_cap (sc w);
                 sc_mem := d2 |};
        mb_zone := z;
        trace := trace w ++
                 [EvGetReg RBAD_OFFSET e; EvGetReg (slot_rplr s) l;
                  EvGetcl false;
                  EvPrintf "no memory for receive mbuf.";
                  EvIncCounter IFCOUNTER_IQDROPS 1] |}).
Proof.
  intros s He Hl Hdis Hz.
  unfold lre_rx_iter, bind.
  rewrite (lre_rx_slot_run _ _ _ _ _ _ He Hl) in *. fold s in Hdis |- *.
  simpl in Hdis. rewrite Hdis.
  unfold m_getcl. cbn [mb_zone]. rewrite Hz.
  unfold device_printf, emit. rewrite if_inc_counter_run. simpl.
  unfold ret, set_sc_mem. simpl. rewrite <- !app_assoc. reflexivity.
Qed.

(** C3.  When the frame of a pass got past the validation and [m_getcl]
    returns NULL, [IFCOUNTER_IQDROPS] grows by 1 and the thread is over, with
    whatever fuel: the loop is left by [return].  The trace of the pass holds
    the two register reads, the failed allocation, the message and the
    counter: the receive-status register is not written, nothing is passed to
    [if_input], and the MAC-high register is neither read nor written, so
    [MACHI_IRQ_EN] stays as [lre_rx_intr] left it.  The device is in the state
    the two reads left it in. *)
Theorem lre_rx_thread_no_mbuf (fuel : nat) (status : Z) (w : machine)
    (e l : Z) (d1 d2 : dev) (z : zone) :
  let s := u32 (Z.land status RSR_RECV_FIRST_MASK) in
  let w' :=
    {| sc := {| sc_ifp := ifnet_add IFCOUNTER_IQDROPS 1 (sc_ifp (sc w));
                sc_flags := sc_flags (sc w);
                sc_cap := sc_cap (sc w);
                sc_mem := d2 |};
       mb_zone := z;
       trace := trace w ++
                [EvGetReg RBAD_OFFSET e; EvGetReg (slot_rplr s) l;
                 EvGetcl false;
                 EvPrintf "no memory for receive mbuf.";
                 EvIncCounter IFCOUNTER_IQDROPS 1] |} in
  Z.land status RSR_RECV_DONE_MASK <> 0 ->
  bus_read_8 (sc_mem (sc w)) RBAD_OFFSET = (e, d1) ->
  bus_read_8 d1 (slot_rplr s) = (l, d2) ->
  lre_rx_discard (lre_rx_slot status w).1 = false ->
  zone_getcl (mb_zone w) = (false, z) ->
  lre_rx_iter status w = (RxNoMbuf, w')
  /\ lre_rx_loop (S fuel) status w = (Some NoMbuf, w')
  /\ lre_rx_drain (S fuel) status w = (Some tt, w')
  /\ if_iqdrops (sc_ifp (sc w')) = if_iqdrops (sc_ifp (sc w)) + 1.
Proof.
  intros s w' Hdone He Hl Hdis Hz.
  pose proof (lre_rx_iter_nombuf_run _ _ _ _ _ _ _ He Hl Hdis Hz) as Hrun.
  fold s in Hrun. fold w' in Hrun.
  assert (Hloop : lre_rx_loop (S fuel) status w = (Some NoMbuf, w')).
  { simpl lre_rx_loop. apply Z.eqb_neq in Hdone. rewrite Hdone.
    unfold bind. rewrite Hrun. reflexivity. }
  split; [exact Hrun|].
  split; [exact Hloop|].
  split; [|reflexivity].
  unfold lre_rx_drain, bind. rewrite Hloop. reflexivity.
Qed.

(** *** A frame passed to if_input *)

(** [rnd]: the length rounded up to a multiple of 8, in [uint32_t]
    arithmetic; a length of 0 gives 0, through two wrap-arounds. *)
Lemma rx_rnd (L : Z) :
  0 <= L <= 2 ^ 32 - 8 ->
  u32 (Z.lor (u32 (L - 1)) 7 + 1) = 8 * ((L + 7) / 8).
Proof.
  intros HL. destruct (Z.eq_dec L 0) as [->|Hnz]; [reflexivity|].
  rewrite (u32_small (L - 1)) by lia.
  rewrite round_up_8.
  assert (0 <= (L + 7) / 8) by (apply Z.div_pos; lia).
  assert ((L + 7) / 8 < 2 ^ 29) by (apply Z.div_lt_upper_bound; lia).
  apply u32_small. lia.
Qed.

Lemma read_all_length (offs : list Z) :
  forall d : dev, length (read_all d offs).1 = length offs.
Proof.
  induction offs as [|o offs IH]; intros d; [reflexivity|].
  simpl. destruct (bus_read_8 d o) as [v d1].
  specialize (IH d1). destruct (read_all d1 offs) as [vs d2].
  simpl in *. rewrite IH. reflexivity.
Qed.

Lemma lre_rx_iter_input_run (status : Z) (w : machine) (e l st : Z)
    (d1 d2 d3 d4 : dev) (z : zone) (vs : list Z) :
  let s := u32 (Z.land status RSR_RECV_FIRST_MASK) in
  let L := rs_length (lre_rx_slot status w).1 in
  let offs := word_offs (RXBUFF_OFFSET + 2048 * Z.land s 7) 0 ((L + 7) / 8) in
  rx_layout_ok ->
  bus_read_8 (sc_mem (sc w)) RBAD_OFFSET = (e, d1) ->
  bus_read_8 d1 (slot_rplr s) = (l, d2) ->
  lre_rx_discard (lre_rx_slot status w).1 = false ->
  zone_getcl (mb_zone w) = (true, z) ->
  read_all d2 offs = (vs, d3) ->
  bus_read_8 (bus_write_8 d3 RSR_OFFSET (s + 1)) RSR_OFFSET = (st, d4) ->
  lre_rx_iter status w =
    (RxInput (u32 st),
     {| sc := {| sc_ifp := ifnet_add IFCOUNTER_IPACKETS 1 (sc_ifp (sc w));
                 sc_flags := sc_flags (sc w);
                 sc_cap := sc_cap (sc w);
                 sc_mem := d4 |};
        mb_zone := z;
        trace := trace w ++
                 ([EvGetReg RBAD_OFFSET e; EvGetReg (slot_rplr s) l;
                   EvGetcl true] ++ get_events offs vs) ++
                 [EvSetReg RSR_OFFSET (s + 1);
                  EvIncCounter IFCOUNTER_IPACKETS 1;
                  EvInput (rx_mbuf L vs);
                  EvGetReg RSR_OFFSET st] |}).
Proof.
  intros s L offs (Hmask & Hmax & Hbase & Hwin) He Hl Hdis Hz Hreads Hst.
  pose proof (slot_index_range status Hmask) as Hs. fold s in Hs.
  pose proof (land_mask_bound s 7 ltac:(lia)) as Hs7.
  unfold lre_rx_iter, bind.
  subst offs L.
  rewrite (lre_rx_slot_run _ _ _ _ _ _ He Hl) in Hdis, Hreads |- *.
  fold s in Hdis, Hreads |- *.
  cbn [rs_buf rs_errs rs_length fst] in Hdis, Hreads |- *.
  rewrite Hdis.
  set (L := if negb (Z.land (sc_cap (sc w)) IFCAP_RXCSUM =? 0)
            then u32 (u32 (Z.land l RPLR_LENGTH_MASK) - 4)
            else u32 (Z.land l RPLR_LENGTH_MASK)) in *.
  assert (HL0 : 0 <= L < 2 ^ 32) by (unfold L; destruct (negb _); apply u32_range).
  assert (HL : L <= MCLBYTES - ETHER_ALIGN).
  { unfold lre_rx_discard in Hdis. cbn [rs_length] in Hdis.
    apply orb_false_iff in Hdis as [Hlen _].
    rewrite u32_small in Hlen by lia. apply Z.ltb_ge in Hlen. exact Hlen. }
  set (n := (L + 7) / 8) in *.
  set (offs := word_offs (RXBUFF_OFFSET + 2048 * Z.land s 7) 0 n) in *.
  assert (Hn : 0 <= n) by (apply Z.div_pos; lia).
  assert (Hn8 : 8 * n <= L + 7).
  { pose proof (Z.mul_div_le (L + 7) 8). lia. }
  assert (Hlen : length vs = Z.to_nat n).
  { pose proof (read_all_length offs d2) as Hlen. rewrite Hreads in Hlen.
    simpl in Hlen. rewrite Hlen. unfold offs, word_offs.
    rewrite length_fmap, length_seqZ. reflexivity. }
  unfold m_getcl. cbn [mb_zone]. rewrite Hz.
  rewrite rx_rnd by lia. fold n.
  rewrite Z.shiftl_mul_pow2 by lia. change (2 ^ 11) with 2048.
  rewrite (u32_small (RXBUFF_OFFSET + Z.land s 7 * 2048)) by lia.
  replace (Z.land s 7 * 2048) with (2048 * Z.land s 7) by lia.
  pose proof (rx_copy_run (RXBUFF_OFFSET + 2048 * Z.land s 7) (8 * n)
                (Z.to_nat n) 0 (Z.to_nat (8 * n))) as Hcopy.
  change (8 * 0) with 0 in Hcopy. rewrite Z2Nat.id in Hcopy by lia.
  rewrite Hcopy by lia. clear Hcopy.
  cbn [sc sc_mem set_sc_mem mb_zone trace].
  fold offs. rewrite Hreads. cbn [fst snd].
  rewrite SETREG_run, (u32_small (s + 1)) by lia.
  rewrite if_inc_counter_run.
  unfold if_input, emit.
  erewrite GETREG_run by (simpl; exact Hst).
  rewrite s32_small by lia.
  unfold ret, set_sc_mem, mbuf_set_hdr, mbuf_adj, rx_mbuf. simpl.
  rewrite (right_id_L ∅ (∪)), Hlen, Z2Nat.id by lia.
  rewrite <- !app_assoc. reflexivity.
Qed.

Lemma get_events_quiet (offs vs : list Z) : Forall quiet (get_events offs vs).
Proof.
  unfold get_events. revert vs.
  induction offs as [|o offs IH]; intros [|v vs]; simpl; constructor;
    [exact I | apply IH].
Qed.

(** C4.  In a pass that hands its frame to [if_input], everything done before
    the write of the slot index plus one to the receive-status register is a
    register read or the cluster allocation; the write comes next, then the
    packet counter, then the one call of [if_input], and last the read of the
    receive-status register whose value the next test of the loop condition
    uses.  So the ring is advanced exactly once, before the frame is
    delivered and before the status is read again. *)
Theorem lre_rx_advance_before_input (status : Z) (w : machine) (e l st : Z)
    (d1 d2 d3 d4 : dev) (z : zone) (vs : list Z) :
  let s := u32 (Z.land status RSR_RECV_FIRST_MASK) in
  let L := rs_length (lre_rx_slot status w).1 in
  let offs := word_offs (RXBUFF_OFFSET + 2048 * Z.land s 7) 0 ((L + 7) / 8) in
  let pre := [EvGetReg RBAD_OFFSET e; EvGetReg (slot_rplr s) l; EvGetcl true]
             ++ get_events offs vs in
  rx_layout_ok ->
  bus_read_8 (sc_mem (sc w)) RBAD_OFFSET = (e, d1) ->
  bus_read_8 d1 (slot_rplr s) = (l, d2) ->
  lre_rx_discard (lre_rx_slot status w).1 = false ->
  zone_getcl (mb_zone w) = (true, z) ->
  read_all d2 offs = (vs, d3) ->
  bus_read_8 (bus_write_8 d3 RSR_OFFSET (s + 1)) RSR_OFFSET = (st, d4) ->
  exists w' : machine,
    lre_rx_iter status w = (RxInput (u32 st), w')
    /\ trace w' =
         trace w ++ pre ++
         [EvSetReg RSR_OFFSET (s + 1);
          EvIncCounter IFCOUNTER_IPACKETS 1;
          EvInput (rx_mbuf L vs);
          EvGetReg RSR_OFFSET st]
    /\ Forall quiet pre
    /\ sc_mem (sc w') = d4
    /\ (Z.land status RSR_RECV_DONE_MASK <> 0 ->
        forall fuel : nat,
          lre_rx_loop (S fuel) status w = lre_rx_loop fuel (u32 st) w').
Proof.
  intros s L offs pre Hok He Hl Hdis Hz Hreads Hst.
  pose proof (lre_rx_iter_input_run _ _ _ _ _ _ _ _ _ _ _
                Hok He Hl Hdis Hz Hreads Hst) as Hrun.
  eexists. split; [exact Hrun|]. cbn [trace sc sc_mem].
  split; [reflexivity|].
  split; [repeat constructor; apply get_events_quiet|].
  split; [reflexivity|].
  intros Hdone fuel. simpl lre_rx_loop.
  apply Z.eqb_neq in Hdone. rewrite Hdone.
  unfold bind. rewrite Hrun. reflexivity.
Qed.

(** What the copy loop reads and where it stores it.  In a pass that hands
    its frame of length [L] at slot [s] to [if_input], the copy loop reads
    [n = ceil(L/8)] registers, at the offsets
    [RXBUFF_OFFSET + (s & 7) * 2048 + 8k] for [k = 0 .. n-1] and in that
    order, that is [((L-1)|7)+1] bytes; the word read [k]-th is stored at
    byte [ETHER_ALIGN + 8k] counted from the start of the cluster, and no
    other word is stored; the data pointer of the mbuf is [ETHER_ALIGN] and
    both its lengths are [L].  Whether byte [ETHER_ALIGN + 8k] is still
    inside the cluster is not said here. *)
Lemma lre_rx_copy_frame (status : Z) (w : machine) (e l st : Z)
    (d1 d2 d3 d4 : dev) (z : zone) (vs : list Z) :
  let s := u32 (Z.land status RSR_RECV_FIRST_MASK) in
  let L := rs_length (lre_rx_slot status w).1 in
  let n := (L + 7) / 8 in
  let offs := word_offs (RXBUFF_OFFSET + 2048 * Z.land s 7) 0 n in
  rx_layout_ok ->
  bus_read_8 (sc_mem (sc w)) RBAD_OFFSET = (e, d1) ->
  bus_read_8 d1 (slot_rplr s) = (l, d2) ->
  lre_rx_discard (lre_rx_slot status w).1 = false ->
  zone_getcl (mb_zone w) = (true, z) ->
  read_all d2 offs = (vs, d3) ->
  bus_read_8 (bus_write_8 d3 RSR_OFFSET (s + 1)) RSR_OFFSET = (st, d4) ->
  (0 <= L <= MCLBYTES - ETHER_ALIGN
   /\ u32 (Z.lor (u32 (L - 1)) 7 + 1) = 8 * n
   /\ Z.lor (L - 1) 7 + 1 = 8 * n)
  /\ (offs = (fun k => RXBUFF_OFFSET + 2048 * Z.land s 7 + 8 * k) <$> seqZ 0 n
      /\ length offs = Z.to_nat n
      /\ length vs = Z.to_nat n)
  /\ (exists w' : machine,
        lre_rx_iter status w = (RxInput (u32 st), w')
        /\ trace w' =
             trace w ++
             [EvGetReg RBAD_OFFSET e; EvGetReg (slot_rplr s) l; EvGetcl true]
             ++ get_events offs vs ++
             [EvSetReg RSR_OFFSET (s + 1);
              EvIncCounter IFCOUNTER_IPACKETS 1;
              EvInput (rx_mbuf L vs);
              EvGetReg RSR_OFFSET st])
  /\ (m_data (rx_mbuf L vs) = ETHER_ALIGN
      /\ m_len (rx_mbuf L vs) = L
      /\ m_pkthdr_len (rx_mbuf L vs) = L
      /\ m_ext (rx_mbuf L vs)
         = list_to_map (zip ((fun k => ETHER_ALIGN + 8 * k) <$> seqZ 0 n) vs)).
Proof.
  intros s L n offs Hok He Hl Hdis Hz Hreads Hst.
  pose proof (lre_rx_iter_input_run _ _ _ _ _ _ _ _ _ _ _
                Hok He Hl Hdis Hz Hreads Hst) as Hrun.
  destruct Hok as (Hmask & Hmax & Hbase & Hwin).
  pose proof (lre_rx_slot_length_range status w) as HL0. fold L in HL0.
  assert (HL : L <= MCLBYTES - ETHER_ALIGN).
  { unfold lre_rx_discard in Hdis. fold L in Hdis.
    apply orb_false_iff in Hdis as [Hlen _].
    rewrite u32_small in Hlen by lia. apply Z.ltb_ge in Hlen. exact Hlen. }
  assert (Hn : 0 <= n) by (apply Z.div_pos; lia).
  assert (Hoffs : length offs = Z.to_nat n)
    by (unfold offs, word_offs; rewrite length_fmap, length_seqZ; reflexivity).
  assert (Hlen : length vs = Z.to_nat n).
  { pose proof (read_all_length offs d2) as Hlen. rewrite Hreads in Hlen.
    simpl in Hlen. lia. }
  split; [split; [lia | split; [apply rx_rnd; lia | apply round_up_8]]|].
  split; [split; [reflexivity | split; assumption]|].
  split.
  - eexists. split; [exact Hrun|]. cbn [trace].
    rewrite <- !app_assoc. reflexivity.
  - unfold rx_mbuf. cbn [m_data m_len m_pkthdr_len m_ext].
    rewrite Hlen, Z2Nat.id by lia. repeat split; reflexivity.
Qed.

(** *** The checksum trailer on a short frame *)

(** C10.  With [IFCAP_RXCSUM] set, let [ml] be the masked value of the length
    register of the slot.  If [ml < 4], taking off the 4-byte trailer wraps
    around: the length becomes [ml - 4 + 2^32], which is above
    [MCLBYTES - ETHER_ALIGN], and the pass leaves through the discard branch
    ([IFCOUNTER_IERRORS] plus one, ring advanced), with no cluster allocated
    and no register of the receive window read; [IFCOUNTER_IERRORS] is one
    more than before.  If [ml = 4] the length is 0, which passes the length
    test whatever the ceiling, so that the frame gets past the validation if
    and only if the error flags of the slot are clear; when they are, and a
    cluster is there to be had, the copy loop reads nothing, an mbuf of
    length 0 with an empty cluster is handed to [if_input], and
    [IFCOUNTER_IPACKETS] is one more than before. *)
Theorem lre_rx_trailer_wrap (status : Z) (w : machine) (e l : Z) (d1 d2 : dev) :
  let s := u32 (Z.land status RSR_RECV_FIRST_MASK) in
  let ml := u32 (Z.land l RPLR_LENGTH_MASK) in
  let d := (lre_rx_slot status w).1 in
  rx_layout_ok ->
  Z.land (sc_cap (sc w)) IFCAP_RXCSUM <> 0 ->
  bus_read_8 (sc_mem (sc w)) RBAD_OFFSET = (e, d1) ->
  bus_read_8 d1 (slot_rplr s) = (l, d2) ->
  (ml < 4 ->
   rs_length d = ml - 4 + 2 ^ 32
   /\ MCLBYTES - ETHER_ALIGN < rs_length d
   /\ forall (st : Z) (d3 : dev),
        bus_read_8 (bus_write_8 d2 RSR_OFFSET (s + 1)) RSR_OFFSET = (st, d3) ->
        lre_rx_iter status w =
          (RxDiscard (u32 st),
           {| sc := {| sc_ifp := ifnet_add IFCOUNTER_IERRORS 1 (sc_ifp (sc w));
                       sc_flags := sc_flags (sc w);
                       sc_cap := sc_cap (sc w);
                       sc_mem := d3 |};
              mb_zone := mb_zone w;
              trace := trace w ++
                       [EvGetReg RBAD_OFFSET e; EvGetReg (slot_rplr s) l;
                        EvPrintf "Receive discarded";
                        EvIncCounter IFCOUNTER_IERRORS 1;
                        EvSetReg RSR_OFFSET (s + 1);
                        EvGetReg RSR_OFFSET st] |})
        /\ if_ierrors (sc_ifp (sc (lre_rx_iter status w).2))
           = if_ierrors (sc_ifp (sc w)) + 1
        /\ if_ipackets (sc_ifp (sc (lre_rx_iter status w).2))
           = if_ipackets (sc_ifp (sc w)))
  /\ (ml = 4 ->
      rs_length d = 0
      /\ (u32 (MCLBYTES - ETHER_ALIGN) <? rs_length d) = false
      /\ (rx_validated (lre_rx_iter status w).1 = true
          <-> Z.land (Z.shiftl 0x101 (Z.land s 7)) (u32 e) = 0)
      /\ forall (z : zone) (st : Z) (d3 : dev),
           Z.land (Z.shiftl 0x101 (Z.land s 7)) (u32 e) = 0 ->
           zone_getcl (mb_zone w) = (true, z) ->
           bus_read_8 (bus_write_8 d2 RSR_OFFSET (s + 1)) RSR_OFFSET = (st, d3) ->
           lre_rx_iter status w =
             (RxInput (u32 st),
              {| sc := {| sc_ifp := ifnet_add IFCOUNTER_IPACKETS 1 (sc_ifp (sc w));
                          sc_flags := sc_flags (sc w);
                          sc_cap := sc_cap (sc w);
                          sc_mem := d3 |};
                 mb_zone := z;
                 trace := trace w ++
                          [EvGetReg RBAD_OFFSET e; EvGetReg (slot_rplr s) l;
                           EvGetcl true;
                           EvSetReg RSR_OFFSET (s + 1);
                           EvIncCounter IFCOUNTER_IPACKETS 1;
                           EvInput {| m_data := ETHER_ALIGN; m_len := 0;
                                      m_pkthdr_len := 0;
                                      m_pkthdr_rcvif := true; m_ext := ∅ |};
                           EvGetReg RSR_OFFSET st] |})
           /\ if_ipackets (sc_ifp (sc (lre_rx_iter status w).2))
              = if_ipackets (sc_ifp (sc w)) + 1
           /\ if_ierrors (sc_ifp (sc (lre_rx_iter status w).2))
              = if_ierrors (sc_ifp (sc w))).
Proof.
  intros s ml d Hok Hcap He Hl.
  pose proof Hok as (Hmask & Hmax & Hbase & Hwin).
  pose proof (u32_range (Z.land l RPLR_LENGTH_MASK)) as Hml. fold ml in Hml.
  assert (Hd : d = {| rs_buf := s; rs_errs := u32 e; rs_length := u32 (ml - 4) |}).
  { unfold d. rewrite (lre_rx_slot_run _ _ _ _ _ _ He Hl). cbn [fst].
    apply Z.eqb_neq in Hcap. rewrite Hcap. reflexivity. }
  split.
  - intros Hshort.
    assert (Hlen : rs_length d = ml - 4 + 2 ^ 32).
    { rewrite Hd. cbn [rs_length]. unfold u32.
      rewrite <- (Z.mod_add (ml - 4) 1 (2 ^ 32)) by lia.
      rewrite Z.mod_small by lia. lia. }
    split; [exact Hlen|]. split; [lia|].
    intros st d3 Hst.
    assert (Hrun : lre_rx_iter status w =
                   (RxDiscard (u32 st),
                    {| sc := {| sc_ifp := ifnet_add IFCOUNTER_IERRORS 1 (sc_ifp (sc w));
                                sc_flags := sc_flags (sc w);
                                sc_cap := sc_cap (sc w);
                                sc_mem := d3 |};
                       mb_zone := mb_zone w;
                       trace := trace w ++
                                [EvGetReg RBAD_OFFSET e; EvGetReg (slot_rplr s) l;
                                 EvPrintf "Receive discarded";
                                 EvIncCounter IFCOUNTER_IERRORS 1;
                                 EvSetReg RSR_OFFSET (s + 1);
                                 EvGetReg RSR_OFFSET st] |})).
    { apply (lre_rx_iter_discard_run _ _ _ _ _ _ _ _ Hmask He Hl); [|exact Hst].
      fold d. unfold lre_rx_discard. rewrite Hlen.
      rewrite u32_small by lia.
      apply orb_true_iff. left. apply Z.ltb_lt. lia. }
    split; [exact Hrun|]. rewrite Hrun. simpl. lia.
  - intros Hfour.
    assert (Hlen : rs_length d = 0).
    { rewrite Hd. cbn [rs_length]. rewrite Hfour. reflexivity. }
    split; [exact Hlen|].
    split; [rewrite Hlen, u32_small by lia; apply Z.ltb_ge; lia|].
    split.
    { rewrite lre_rx_iter_validated. fold d. unfold lre_rx_discard.
      rewrite Hlen. rewrite Hd at 1 2. cbn [rs_buf rs_errs].
      rewrite u32_small by lia.
      assert (Hle : (MCLBYTES - ETHER_ALIGN <? 0) = false) by (apply Z.ltb_ge; lia).
      rewrite Hle. cbn [orb].
      rewrite negb_involutive. apply Z.eqb_eq. }
    intros z st d3 Herr Hz Hst.
    assert (Hdis : lre_rx_discard (lre_rx_slot status w).1 = false).
    { fold d. unfold lre_rx_discard. rewrite Hlen. rewrite Hd at 1 2.
      cbn [rs_buf rs_errs]. rewrite Herr. rewrite u32_small by lia.
      apply orb_false_iff. split; [apply Z.ltb_ge; lia | reflexivity]. }
    pose proof (lre_rx_iter_input_run status w e l st d1 d2 d2 d3 z []
                  Hok He Hl Hdis Hz) as Hrun.
    fold d in Hrun. rewrite Hlen in Hrun.
    change ((0 + 7) / 8) with 0 in Hrun.
    specialize (Hrun eq_refl Hst).
    split; [exact Hrun|]. rewrite Hrun. simpl. lia.
Qed.

(** ** The MAC address *)

Lemma tb_byte (a i : Z) :
  Z.testbit (Z.land a 0xff) i = (i <? 8) && Z.testbit a i.
Proof.
  change 0xff with (Z.ones 8).
  rewrite Z.land_spec, Z.testbit_ones by lia.
  destruct (Z.leb_spec 0 i) as [Hi|Hi]; simpl.
  - apply andb_comm.
  - rewrite (Z.testbit_neg_r a i) by lia. destruct (i <? 8); reflexivity.
Qed.

Lemma tb_shr (a k i : Z) :
  Z.testbit (Z.shiftr a k) i = (0 <=? i) && Z.testbit a (i + k).
Proof.
  destruct (Z.leb_spec 0 i) as [Hi|Hi]; simpl.
  - apply Z.shiftr_spec. exact Hi.
  - apply Z.testbit_neg_r. exact Hi.
Qed.

Lemma tb_shl (a k i : Z) :
  0 <= k -> Z.testbit (Z.shiftl a k) i = Z.testbit a (i - k).
Proof.
  intros Hk. destruct (Z.le_gt_cases 0 i) as [Hi|Hi].
  - apply Z.shiftl_spec. exact Hi.
  - rewrite !Z.testbit_neg_r by lia. reflexivity.
Qed.

Lemma tb_u32 (a i : Z) : Z.testbit (u32 a) i = (i <? 32) && Z.testbit a i.
Proof. unfold u32. apply Z.testbit_mod_pow2. lia. Qed.

Lemma tb_u16 (a i : Z) : Z.testbit (u16 a) i = (i <? 16) && Z.testbit a i.
Proof. unfold u16. apply Z.testbit_mod_pow2. lia. Qed.

(** Equalities between bytes cut out of a swapped word: bit by bit, for the
    eight bits of a byte. *)
Ltac byte_bits :=
  unfold byte_of, __bswap32, __bswap16;
  apply Z.bits_inj'; intros n Hn;
  rewrite !(tb_byte _ n);
  destruct (Z.ltb_spec n 8) as [Hlt|Hge]; [|reflexivity];
  cbn [andb];
  let Hc := fresh "Hc" in
  assert (Hc : n = 0 \/ n = 1 \/ n = 2 \/ n = 3 \/ n = 4 \/ n = 5 \/ n = 6 \/ n = 7)
    by lia;
  repeat (destruct Hc as [->|Hc]); [..|subst n];
  repeat first
    [ rewrite tb_byte | rewrite tb_shr | rewrite tb_u32 | rewrite tb_u16
    | rewrite Z.lor_spec | rewrite tb_shl by lia ];
  cbn; rewrite ?orb_false_r; reflexivity.

Lemma le_bytes_bswap32 (x : Z) :
  le_bytes 4 (u32 (__bswap32 x))
  = [byte_of 3 x; byte_of 2 x; byte_of 1 x; byte_of 0 x].
Proof.
  cbn [le_bytes].
  f_equal; [|f_equal; [|f_equal; [|f_equal]]]; byte_bits.
Qed.

Lemma le_bytes_bswap16 (x : Z) :
  le_bytes 2 (u32 (__bswap16 x)) = [byte_of 1 x; byte_of 0 x].
Proof.
  cbn [le_bytes].
  f_equal; [|f_equal]; byte_bits.
Qed.

(** C8.  The six bytes of the MAC address, from the values [lo] and [hi]
    read from the MAC-low and the MAC-high register: the first two are the
    in-memory bytes of the byte-swapped low 16 bits of [hi] masked with
    [MACHI_MACADDR_MASK], the last four those of the byte-swapped low 32 bits
    of [lo].  Written out, they are bytes 1 and 0 of the masked [hi] followed
    by bytes 3, 2, 1 and 0 of [lo]: the high 16 bits of the address first, then
    the low 32, each most significant byte first.  What [mac] held before does
    not matter. *)
Theorem lre_attach_mac_bytes (mac0 : list Z) (w : machine) (lo hi : Z)
    (d1 d2 : dev) :
  let hm := Z.land hi MACHI_MACADDR_MASK in
  length mac0 = 6%nat ->
  bus_read_8 (sc_mem (sc w)) MACLO_OFFSET = (lo, d1) ->
  bus_read_8 d1 MACHI_OFFSET = (hi, d2) ->
  (lre_attach_mac mac0 w).1
  = le_bytes 2 (__bswap16 hm) ++ le_bytes 4 (__bswap32 lo)
  /\ (lre_attach_mac mac0 w).1
     = [byte_of 1 hm; byte_of 0 hm;
        byte_of 3 lo; byte_of 2 lo; byte_of 1 lo; byte_of 0 lo]
  /\ trace (lre_attach_mac mac0 w).2
     = trace w ++ [EvGetReg MACLO_OFFSET lo; EvGetReg MACHI_OFFSET hi].
Proof.
  intros hm Hlen Hlo Hhi.
  assert (Hrun : lre_attach_mac mac0 w =
            (memcpy (memcpy mac0 2 (le_bytes 4 (u32 (__bswap32 lo)))) 0
               (le_bytes 2 (u32 (__bswap16 hm))),
             {| sc := set_sc_mem d2 (sc w); mb_zone := mb_zone w;
                trace := trace w ++ [EvGetReg MACLO_OFFSET lo;
                                     EvGetReg MACHI_OFFSET hi] |})).
  { unfold lre_attach_mac, bind. rewrite (GETREG_run _ _ _ _ Hlo).
    erewrite GETREG_run by (simpl; exact Hhi).
    unfold ret. simpl. rewrite <- app_assoc. reflexivity. }
  rewrite Hrun. cbn [fst snd trace].
  assert (Hmac : memcpy (memcpy mac0 2 (le_bytes 4 (u32 (__bswap32 lo)))) 0
                   (le_bytes 2 (u32 (__bswap16 hm)))
                 = le_bytes 2 (u32 (__bswap16 hm)) ++ le_bytes 4 (u32 (__bswap32 lo))).
  { destruct mac0 as [|b0 [|b1 [|b2 [|b3 [|b4 [|b5 [|]]]]]]]; try discriminate.
    reflexivity. }
  rewrite Hmac, le_bytes_bswap32, le_bytes_bswap16.
  split; [|split; reflexivity].
  rewrite <- le_bytes_bswap32, <- le_bytes_bswap16.
  f_equal.
  - cbn [le_bytes]. f_equal; [|f_equal]; byte_bits.
  - cbn [le_bytes]. f_equal; [|f_equal; [|f_equal; [|f_equal]]]; byte_bits.
Qed.

End Properties.

(** * The receive loop as a whole *)

Section RxLoop.
Context {R : lre_reg} {K : kern_param} {P : Platform}.

Lemma quiet_inputs (t : list event) : Forall quiet t -> inputs t = [].
Proof.
  induction 1 as [|ev t Hev _ IH]; [reflexivity|].
  unfold inputs in *. destruct ev; simpl in *; try contradiction; exact IH.
Qed.

Lemma quiet_writes (t : list event) : Forall quiet t -> writes t = [].
Proof.
  induction 1 as [|ev t Hev _ IH]; [reflexivity|].
  unfold writes in *. destruct ev; simpl in *; try contradiction; exact IH.
Qed.

Lemma quiet_frees (t : list event) : Forall quiet t -> frees t = [].
Proof.
  induction 1 as [|ev t Hev _ IH]; [reflexivity|].
  unfold frees in *. destruct ev; simpl in *; try contradiction; exact IH.
Qed.

Lemma inputs_app (t1 t2 : list event) : inputs (t1 ++ t2) = inputs t1 ++ inputs t2.
Proof. apply omap_app. Qed.

Lemma writes_app (t1 t2 : list event) : writes (t1 ++ t2) = writes t1 ++ writes t2.
Proof. apply omap_app. Qed.

Lemma frees_app (t1 t2 : list event) : frees (t1 ++ t2) = frees t1 ++ frees t2.
Proof. apply omap_app. Qed.

(** The copy loop only reads registers: whatever its arguments and its
    fuel, it leaves the interface, the flags and the zone alone, and the
    header fields of the mbuf as they were. *)
Lemma rx_copy_effect (start rnd : Z) :
  forall (fuel : nat) (i : Z) (m : mbuf) (w : machine),
    exists tc : list event,
      trace (rx_copy fuel start rnd i m w).2 = trace w ++ tc
      /\ Forall quiet tc
      /\ (sc_ifp (sc (rx_copy fuel start rnd i m w).2) = sc_ifp (sc w)
          /\ sc_flags (sc (rx_copy fuel start rnd i m w).2) = sc_flags (sc w)
          /\ sc_cap (sc (rx_copy fuel start rnd i m w).2) = sc_cap (sc w)
          /\ mb_zone (rx_copy fuel start rnd i m w).2 = mb_zone w)
      /\ (m_data (rx_copy fuel start rnd i m w).1 = m_data m
          /\ m_len (rx_copy fuel start rnd i m w).1 = m_len m
          /\ m_pkthdr_len (rx_copy fuel start rnd i m w).1 = m_pkthdr_len m
          /\ m_pkthdr_rcvif (rx_copy fuel start rnd i m w).1 = m_pkthdr_rcvif m).
Proof.
  induction fuel as [|fuel IH]; intros i m w.
  - exists []. simpl. rewrite app_nil_r. repeat split; constructor.
  - simpl. destruct (u32 i <? rnd).
    + unfold bind.
      rewrite (GETREG_run w _ _ _ (surjective_pairing _)).
      set (v := (bus_read_8 (sc_mem (sc w)) (u32 (start + i))).1).
      set (d := (bus_read_8 (sc_mem (sc w)) (u32 (start + i))).2).
      set (w1 := {| sc := set_sc_mem d (sc w); mb_zone := mb_zone w;
                    trace := trace w ++ [EvGetReg (u32 (start + i)) v] |}).
      destruct (IH (s32 (i + 8)) (mbuf_store64 m (i ≫ 3) v) w1)
        as (tc & Ht & Hq & Hsc & Hm).
      exists (EvGetReg (u32 (start + i)) v :: tc).
      split; [rewrite Ht; simpl; rewrite <- app_assoc; reflexivity|].
      split; [constructor; [exact I | exact Hq]|].
      split; [exact Hsc | exact Hm].
    + exists []. simpl. rewrite app_nil_r. repeat split; constructor.
Qed.

Lemma rx_books_refl (w : machine) : rx_books 0 w w [].
Proof.
  unfold rx_books, same_config. simpl. rewrite app_nil_r.
  repeat split; try constructor; lia.
Qed.

Lemma rx_books_trans (dq1 dq2 : Z) (w w1 w2 : machine) (t1 t2 : list event) :
  rx_books dq1 w w1 t1 -> rx_books dq2 w1 w2 t2 ->
  rx_books (dq1 + dq2) w w2 (t1 ++ t2).
Proof.
  unfold rx_books, same_config.
  intros (Ht1 & (Ha1 & Hb1 & Hc1 & Hd1 & He1 & Hf1) & Hi1 & Hp1 & Hw1 & Hr1 & Hok1 & Hfr1 & Hq1)
         (Ht2 & (Ha2 & Hb2 & Hc2 & Hd2 & He2 & Hf2) & Hi2 & Hp2 & Hw2 & Hr2 & Hok2 & Hfr2 & Hq2).
  rewrite inputs_app, writes_app, frees_app, !length_app, Hfr1, Hfr2.
  split; [rewrite Ht2, Ht1, app_assoc; reflexivity|].
  split; [repeat split; congruence|].
  repeat split; try lia; try (apply Forall_app; split; assumption).
Qed.

(** One pass through the loop keeps the books, whatever the device
    answers. *)
Lemma lre_rx_iter_books (status : Z) (w : machine) :
  exists t : list event,
    rx_books (if (lre_rx_iter status w).1 is RxNoMbuf then 1 else 0)
      w (lre_rx_iter status w).2 t.
Proof.
  pose proof (lre_rx_slot_run status w _ _ _ _
                (surjective_pairing _) (surjective_pairing _)) as Hslot.
  cbv zeta in Hslot.
  unfold lre_rx_iter, bind. rewrite Hslot. clear Hslot.
  set (s := u32 (Z.land status RSR_RECV_FIRST_MASK)).
  set (e := (bus_read_8 (sc_mem (sc w)) RBAD_OFFSET).1).
  set (d1 := (bus_read_8 (sc_mem (sc w)) RBAD_OFFSET).2).
  set (l := (bus_read_8 d1 (slot_rplr s)).1).
  set (d2 := (bus_read_8 d1 (slot_rplr s)).2).
  set (L := if negb (Z.land (sc_cap (sc w)) IFCAP_RXCSUM =? 0)
            then u32 (u32 (Z.land l RPLR_LENGTH_MASK) - 4)
            else u32 (Z.land l RPLR_LENGTH_MASK)).
  assert (HL0 : 0 <= L < 2 ^ 32) by (unfold L; destruct (negb _); apply u32_range).
  destruct (lre_rx_discard {| rs_buf := s; rs_errs := u32 e; rs_length := L |})
    eqn:Hdis.
  - unfold device_printf, emit. rewrite if_inc_counter_run, SETREG_run.
    cbn [sc sc_mem set_sc_mem set_sc_ifp mb_zone trace rs_buf].
    rewrite (GETREG_run _ _ _ _ (surjective_pairing _)).
    unfold ret. cbn [fst snd sc sc_ifp sc_flags sc_cap sc_mem set_sc_mem mb_zone trace].
    eexists. unfold rx_books, same_config.
    cbn [fst snd sc sc_ifp sc_flags sc_cap sc_mem set_sc_mem mb_zone trace
         ifnet_add if_flags if_drv_flags if_ipackets if_ierrors if_iqdrops
         if_opackets if_obytes].
    split; [rewrite <- !app_assoc; reflexivity|].
    simpl. repeat split; try lia; repeat constructor.
  - cbn [rs_buf rs_length].
    unfold m_getcl. cbn [mb_zone sc trace].
    destruct (zone_getcl (mb_zone w)) as [[|] z].
    + set (m0 := mbuf_adj _ ETHER_ALIGN).
      set (w2 := {| sc := set_sc_mem d2 (sc w); mb_zone := z; trace := _ |}).
      set (start := u32 (RXBUFF_OFFSET + Z.land s 7 ≪ 11)).
      set (rnd := u32 (Z.lor (u32 (L - 1)) 7 + 1)).
      destruct (rx_copy_effect start rnd (Z.to_nat rnd) 0 m0 w2)
        as (tc & Ht & Hq & (Hifp & Hfl & Hcap & Hz) & (Hmd & Hml & Hmp & Hmr)).
      destruct (rx_copy (Z.to_nat rnd) start rnd 0 m0 w2) as [m' w3].
      cbn [fst snd] in Ht, Hifp, Hfl, Hcap, Hz, Hmd, Hml, Hmp, Hmr.
      rewrite SETREG_run, if_inc_counter_run. unfold if_input, emit.
      cbn [sc sc_mem set_sc_mem set_sc_ifp mb_zone trace].
      rewrite (GETREG_run _ _ _ _ (surjective_pairing _)).
      unfold ret.
      cbn [fst snd sc sc_ifp sc_flags sc_cap sc_mem set_sc_mem set_sc_ifp
           mb_zone trace].
      eexists. unfold rx_books, same_config.
      cbn [fst snd sc sc_ifp sc_flags sc_cap sc_mem set_sc_mem set_sc_ifp
           mb_zone trace
           ifnet_add if_flags if_drv_flags if_ipackets if_ierrors if_iqdrops
           if_opackets if_obytes].
      rewrite Ht, Hifp, Hfl, Hcap. subst w2. cbn [trace sc set_sc_mem sc_ifp sc_flags sc_cap].
      split; [rewrite <- !app_assoc; reflexivity|].
      rewrite !inputs_app, !writes_app, !frees_app.
      rewrite (quiet_inputs tc Hq), (quiet_writes tc Hq), (quiet_frees tc Hq).
      simpl.
      assert (Hok : rx_frame_ok (mbuf_set_hdr m' (s32 L))).
      { unfold rx_frame_ok, mbuf_set_hdr. cbn [m_data m_len m_pkthdr_len m_pkthdr_rcvif].
        rewrite Hmd. subst m0. unfold mbuf_adj. cbn [m_data].
        repeat split. exists L. split; [|reflexivity].
        unfold lre_rx_discard in Hdis. cbn [rs_length] in Hdis.
        apply orb_false_iff in Hdis as [Hlen _]. apply Z.ltb_ge in Hlen. lia. }
      repeat split; try lia; try reflexivity;
        try (constructor; [reflexivity | constructor]);
        try (constructor; [exact Hok | constructor]).
    + unfold device_printf, emit. rewrite if_inc_counter_run. unfold ret.
      eexists. unfold rx_books, same_config.
      cbn [fst snd sc sc_ifp sc_flags sc_cap sc_mem set_sc_mem set_sc_ifp
           mb_zone trace
           ifnet_add if_flags if_drv_flags if_ipackets if_ierrors if_iqdrops
           if_opackets if_obytes].
      split; [rewrite <- !app_assoc; reflexivity|].
      simpl. repeat split; try lia; repeat constructor.
Qed.

(** The loop keeps the books: by induction on the fuel. *)
Lemma lre_rx_loop_books :
  forall (fuel : nat) (status : Z) (w : machine),
    exists t : list event,
      rx_books (if (lre_rx_loop fuel status w).1 is Some NoMbuf then 1 else 0)
        w (lre_rx_loop fuel status w).2 t.
Proof.
  induction fuel as [|fuel IH]; intros status w.
  - exists []. apply rx_books_refl.
  - simpl. destruct (Z.land status RSR_RECV_DONE_MASK =? 0).
    + exists []. apply rx_books_refl.
    + unfold bind.
      destruct (lre_rx_iter_books status w) as (t1 & H1).
      destruct (lre_rx_iter status w) as [[st| |st] w1]; cbn [fst snd] in H1.
      * destruct (IH st w1) as (t2 & H2). exists (t1 ++ t2).
        exact (rx_books_trans _ _ _ _ _ _ _ H1 H2).
      * exists t1. exact H1.
      * destruct (IH st w1) as (t2 & H2). exists (t1 ++ t2).
        exact (rx_books_trans _ _ _ _ _ _ _ H1 H2).
Qed.

(** X1.  Ring accounting.  Whatever the device answers and however long the
    loop of [lre_rx_thread] runs, every register write inside it is a write
    to the receive-status register and there is exactly one for each frame
    counted in [IFCOUNTER_IPACKETS] or [IFCOUNTER_IERRORS]; the packet counter
    grows by the number of calls of [if_input]; and [IFCOUNTER_IQDROPS] grows
    by 1 when the loop is left for want of an mbuf and not at all
    otherwise. *)
Theorem lre_rx_loop_accounting (fuel : nat) (status : Z) (w : machine) :
  let r := (lre_rx_loop fuel status w).1 in
  let w' := (lre_rx_loop fuel status w).2 in
  let ifp := sc_ifp (sc w) in
  let ifp' := sc_ifp (sc w') in
  exists t : list event,
    trace w' = trace w ++ t
    /\ if_ipackets ifp' = if_ipackets ifp + Z.of_nat (length (inputs t))
    /\ if_ierrors ifp <= if_ierrors ifp'
    /\ Z.of_nat (length (writes t))
       = (if_ipackets ifp' - if_ipackets ifp) + (if_ierrors ifp' - if_ierrors ifp)
    /\ Forall (fun ow => fst ow = RSR_OFFSET) (writes t)
    /\ if_iqdrops ifp' = if_iqdrops ifp + (if r is Some NoMbuf then 1 else 0).
Proof.
  intros r w' ifp ifp'.
  destruct (lre_rx_loop_books fuel status w)
    as (t & Ht & _ & Hi & He & Hw & Hr & _ & _ & Hq).
  exists t. subst r w' ifp ifp'. repeat split; try assumption; lia.
Qed.

Lemma irq_enable_effect (w : machine) :
  exists t : list event,
    trace (irq_enable w).2 = trace w ++ t
    /\ inputs t = [] /\ frees t = []
    /\ sc_ifp (sc (irq_enable w).2) = sc_ifp (sc w)
    /\ sc_flags (sc (irq_enable w).2) = sc_flags (sc w)
    /\ sc_cap (sc (irq_enable w).2) = sc_cap (sc w)
    /\ mb_zone (irq_enable w).2 = mb_zone w.
Proof.
  unfold irq_enable. destruct LOWRISC_NET_POLL.
  - exists []. simpl. rewrite app_nil_r. repeat split.
  - unfold bind. rewrite (GETREG_run w _ _ _ (surjective_pairing _)), SETREG_run.
    eexists. simpl. split; [rewrite <- app_assoc; reflexivity|].
    repeat split.
Qed.

(** X2.  What [lre_rx_thread] hands to [if_input].  Provided the frame
    ceiling [MCLBYTES - ETHER_ALIGN] is a non-negative [int], in every run of
    the thread, whatever the device answers, each mbuf passed to [if_input]
    has its data pointer [ETHER_ALIGN] into the cluster, the receiving
    interface set, [m_len = m_pkthdr.len], and a length between 0 and the
    ceiling; [IFCOUNTER_IPACKETS] grows by the number of such mbufs; nothing
    is freed; and the flags, the capabilities and the transmit counters are
    as before. *)
Theorem lre_rx_thread_frames (fuel : nat) (w : machine) :
  let w' := (lre_rx_thread fuel w).2 in
  0 <= MCLBYTES - ETHER_ALIGN < 2 ^ 31 ->
  exists t : list event,
    trace w' = trace w ++ t
    /\ Forall (fun m => m_data m = ETHER_ALIGN
                        /\ m_pkthdr_rcvif m = true
                        /\ m_len m = m_pkthdr_len m
                        /\ 0 <= m_len m <= MCLBYTES - ETHER_ALIGN) (inputs t)
    /\ if_ipackets (sc_ifp (sc w'))
       = if_ipackets (sc_ifp (sc w)) + Z.of_nat (length (inputs t))
    /\ frees t = []
    /\ same_config w w'.
Proof.
  intros w' Hmax. subst w'.
  unfold lre_rx_thread, lre_rx_drain, bind.
  rewrite (GETREG_run w _ _ _ (surjective_pairing _)).
  set (st := (bus_read_8 (sc_mem (sc w)) RSR_OFFSET).1).
  set (w1 := {| sc := _; mb_zone := mb_zone w; trace := _ |}).
  destruct (lre_rx_loop_books fuel (u32 st) w1)
    as (t & Ht & (Ha & Hb & Hc & Hd & He & Hf) & Hi & _ & _ & _ & Hok & Hfr & _).
  assert (Hframes : Forall (fun m => m_data m = ETHER_ALIGN
                        /\ m_pkthdr_rcvif m = true
                        /\ m_len m = m_pkthdr_len m
                        /\ 0 <= m_len m <= MCLBYTES - ETHER_ALIGN) (inputs t)).
  { eapply Forall_impl; [exact Hok|].
    intros m (Hd0 & Hl0 & Hr0 & L & HL & Hs).
    rewrite u32_small in HL by lia.
    rewrite s32_small in Hs by lia.
    repeat split; try assumption; lia. }
  destruct (lre_rx_loop fuel (u32 st) w1) as [[[|]|] w2];
    cbn [fst snd] in Ht, Ha, Hb, Hc, Hd, He, Hf, Hi.
  - destruct (irq_enable_effect w2) as (t2 & Ht2 & Hi2 & Hf2 & Hp2 & Hfl2 & Hc2 & _).
    destruct (irq_enable w2) as [[] w3]. unfold ret. cbn [fst snd] in *.
    exists ([EvGetReg RSR_OFFSET st] ++ t ++ t2).
    rewrite !inputs_app, !frees_app, Hi2, Hf2, Hfr, !app_nil_r.
    split; [rewrite Ht2, Ht; subst w1; simpl; rewrite <- !app_assoc; reflexivity|].
    split; [exact Hframes|].
    unfold same_config. rewrite Hp2, Hfl2, Hc2.
    subst w1. simpl in *. repeat split; assumption.
  - unfold ret. cbn [fst snd]. exists ([EvGetReg RSR_OFFSET st] ++ t).
    rewrite !inputs_app, !frees_app, Hfr.
    split; [rewrite Ht; subst w1; simpl; rewrite <- !app_assoc; reflexivity|].
    split; [exact Hframes|].
    unfold same_config. subst w1. simpl in *. repeat split; assumption.
  - unfold ret. cbn [fst snd]. exists ([EvGetReg RSR_OFFSET st] ++ t).
    rewrite !inputs_app, !frees_app, Hfr.
    split; [rewrite Ht; subst w1; simpl; rewrite <- !app_assoc; reflexivity|].
    split; [exact Hframes|].
    unfold same_config. subst w1. simpl in *. repeat split; assumption.
Qed.

(** A pass that finds no mbuf ends with the failed allocation, the message
    and the drop counter. *)
Lemma lre_rx_iter_nombuf_last (status : Z) (w : machine) :
  (lre_rx_iter status w).1 = RxNoMbuf ->
  exists t : list event,
    trace (lre_rx_iter status w).2 =
      trace w ++ t ++ [EvGetcl false; EvPrintf "no memory for receive mbuf.";
                       EvIncCounter IFCOUNTER_IQDROPS 1].
Proof.
  pose proof (lre_rx_slot_run status w _ _ _ _
                (surjective_pairing _) (surjective_pairing _)) as Hslot.
  cbv zeta in Hslot.
  unfold lre_rx_iter, bind. rewrite Hslot. clear Hslot.
  set (s := u32 (Z.land status RSR_RECV_FIRST_MASK)).
  set (e := (bus_read_8 (sc_mem (sc w)) RBAD_OFFSET).1).
  set (d1 := (bus_read_8 (sc_mem (sc w)) RBAD_OFFSET).2).
  set (l := (bus_read_8 d1 (slot_rplr s)).1).
  set (d2 := (bus_read_8 d1 (slot_rplr s)).2).
  set (L := if negb (Z.land (sc_cap (sc w)) IFCAP_RXCSUM =? 0)
            then u32 (u32 (Z.land l RPLR_LENGTH_MASK) - 4)
            else u32 (Z.land l RPLR_LENGTH_MASK)).
  destruct (lre_rx_discard {| rs_buf := s; rs_errs := u32 e; rs_length := L |}).
  - unfold device_printf, emit. rewrite if_inc_counter_run, SETREG_run.
    cbn [sc sc_mem set_sc_mem set_sc_ifp mb_zone trace rs_buf].
    rewrite (GETREG_run _ _ _ _ (surjective_pairing _)).
    unfold ret. cbn [fst]. intros H. discriminate H.
  - cbn [rs_buf rs_length].
    unfold m_getcl. cbn [mb_zone sc trace].
    destruct (zone_getcl (mb_zone w)) as [[|] z].
    + set (m0 := mbuf_adj _ ETHER_ALIGN).
      set (w2 := {| sc := set_sc_mem d2 (sc w); mb_zone := z; trace := _ |}).
      set (start := u32 (RXBUFF_OFFSET + Z.land s 7 ≪ 11)).
      set (rnd := u32 (Z.lor (u32 (L - 1)) 7 + 1)).
      destruct (rx_copy (Z.to_nat rnd) start rnd 0 m0 w2) as [m' w3].
      rewrite SETREG_run, if_inc_counter_run. unfold if_input, emit.
      cbn [sc sc_mem set_sc_mem set_sc_ifp mb_zone trace].
      rewrite (GETREG_run _ _ _ _ (surjective_pairing _)).
      unfold ret. cbn [fst]. intros H. discriminate H.
    + intros _. unfold device_printf, emit. rewrite if_inc_counter_run.
      unfold ret. cbn [snd trace].
      exists [EvGetReg RBAD_OFFSET e; EvGetReg (slot_rplr s) l].
      rewrite <- !app_assoc. reflexivity.
Qed.

Lemma lre_rx_loop_nombuf_last :
  forall (fuel : nat) (status : Z) (w : machine),
    (lre_rx_loop fuel status w).1 = Some NoMbuf ->
    exists t : list event,
      trace (lre_rx_loop fuel status w).2 =
        trace w ++ t ++ [EvGetcl false; EvPrintf "no memory for receive mbuf.";
                         EvIncCounter IFCOUNTER_IQDROPS 1].
Proof.
  induction fuel as [|fuel IH]; intros status w; simpl.
  - intros H. discriminate H.
  - destruct (Z.land status RSR_RECV_DONE_MASK =? 0); [intros H; discriminate H|].
    unfold bind.
    destruct (lre_rx_iter_books status w) as (t1 & Ht1 & _).
    pose proof (lre_rx_iter_nombuf_last status w) as Hlast.
    destruct (lre_rx_iter status w) as [[st| |st] w1]; cbn [fst snd] in *.
    + intros H. destruct (IH st w1 H) as (t & Ht).
      exists (t1 ++ t). rewrite Ht, Ht1, <- !app_assoc. reflexivity.
    + intros _. exact (Hlast eq_refl).
    + intros H. destruct (IH st w1 H) as (t & Ht).
      exists (t1 ++ t). rewrite Ht, Ht1, <- !app_assoc. reflexivity.
Qed.

(** X3.  How the thread ends (interrupt mode).  Whatever the device
    answers, a run of [lre_rx_thread] that comes to an end does so in one of
    two ways.  Either the loop found the ring empty, and the last two things
    traced are the read of the MAC-high register and its write-back with
    [MACHI_IRQ_EN] set, with [IFCOUNTER_IQDROPS] unchanged; or an allocation
    failed, at whatever pass, and the last things traced are that failure,
    the message and the drop counter, which is one more than before: nothing
    follows, so the MAC-high register is not written after the failure. *)
Theorem lre_rx_thread_ends (fuel : nat) (w : machine) :
  let w' := (lre_rx_thread fuel w).2 in
  LOWRISC_NET_POLL = false ->
  (lre_rx_thread fuel w).1 = Some tt ->
  (exists (t : list event) (v : Z),
     trace w' = trace w ++ t ++ [EvGetReg MACHI_OFFSET v;
                                 EvSetReg MACHI_OFFSET (Z.lor MACHI_IRQ_EN v)]
     /\ if_iqdrops (sc_ifp (sc w')) = if_iqdrops (sc_ifp (sc w)))
  \/ (exists t : list event,
        trace w' = trace w ++ t ++ [EvGetcl false;
                                    EvPrintf "no memory for receive mbuf.";
                                    EvIncCounter IFCOUNTER_IQDROPS 1]
        /\ if_iqdrops (sc_ifp (sc w')) = if_iqdrops (sc_ifp (sc w)) + 1).
Proof.
  intros w' Hmode. subst w'.
  unfold lre_rx_thread, lre_rx_drain, bind.
  rewrite (GETREG_run w _ _ _ (surjective_pairing _)).
  set (st := (bus_read_8 (sc_mem (sc w)) RSR_OFFSET).1).
  set (w1 := {| sc := _; mb_zone := mb_zone w; trace := _ |}).
  destruct (lre_rx_loop_books fuel (u32 st) w1)
    as (t & Ht & _ & _ & _ & _ & _ & _ & _ & Hq).
  pose proof (lre_rx_loop_nombuf_last fuel (u32 st) w1) as Hlast.
  destruct (lre_rx_loop fuel (u32 st) w1) as [[[|]|] w2];
    cbn [fst snd] in Ht, Hq, Hlast.
  - intros _. left.
    rewrite (irq_enable_intr w2 _ _ Hmode (surjective_pairing _)).
    unfold ret. cbn [snd trace sc sc_ifp set_sc_mem].
    exists ([EvGetReg RSR_OFFSET st] ++ t).
    exists (bus_read_8 (sc_mem (sc w2)) MACHI_OFFSET).1.
    split; [rewrite Ht; subst w1; cbn [trace]; rewrite <- !app_assoc; reflexivity|].
    rewrite Hq. subst w1. simpl. lia.
  - intros _. right. unfold ret. cbn [snd].
    destruct (Hlast eq_refl) as (t' & Ht').
    exists ([EvGetReg RSR_OFFSET st] ++ t').
    split; [rewrite Ht'; subst w1; cbn [trace]; rewrite <- !app_assoc; reflexivity|].
    rewrite Hq. subst w1. simpl. lia.
  - unfold ret. cbn [fst]. intros H. discriminate H.
Qed.

End RxLoop.

(** * The interrupt filter, the callout and the ring at attach time *)

Section Filter.
Context {R : lre_reg} {K : kern_param} {P : Platform}.

Lemma land_clear_bits (v r : Z) : Z.land (Z.land (Z.lnot r) v) r = 0.
Proof.
  apply Z.bits_inj'. intros n Hn.
  rewrite !Z.land_spec, Z.lnot_spec, Z.bits_0 by lia.
  destruct (Z.testbit r n), (Z.testbit v n); reflexivity.
Qed.

Lemma lor_clear_restore (v r : Z) : Z.lor (Z.land (Z.lnot r) v) (Z.land v r) = v.
Proof.
  apply Z.bits_inj'. intros n Hn.
  rewrite Z.lor_spec, !Z.land_spec, Z.lnot_spec by lia.
  destruct (Z.testbit r n), (Z.testbit v n); reflexivity.
Qed.

Lemma lor_set_cleared (v r : Z) : Z.lor r (Z.land (Z.lnot r) v) = Z.lor r v.
Proof.
  apply Z.bits_inj'. intros n Hn.
  rewrite !Z.lor_spec, Z.land_spec, Z.lnot_spec by lia.
  destruct (Z.testbit r n), (Z.testbit v n); reflexivity.
Qed.

(** X4.  The interrupt filter (interrupt mode).  [lre_rx_intr] reads the
    receive-status register, reads the MAC-high register and writes it back
    with the bits of [MACHI_IRQ_EN] cleared and every other bit as read; it
    answers [FILTER_SCHEDULE_THREAD].  It does nothing else: the ring is not
    advanced, no mbuf is allocated or handed on, no counter moves. *)
Theorem lre_rx_intr_masks (w : machine) (st v : Z) (d1 d2 : dev) :
  let x := Z.land (Z.lnot MACHI_IRQ_EN) v in
  LOWRISC_NET_POLL = false ->
  bus_read_8 (sc_mem (sc w)) RSR_OFFSET = (st, d1) ->
  bus_read_8 d1 MACHI_OFFSET = (v, d2) ->
  lre_rx_intr w =
    (FILTER_SCHEDULE_THREAD,
     {| sc := set_sc_mem (bus_write_8 d2 MACHI_OFFSET x) (sc w);
        mb_zone := mb_zone w;
        trace := trace w ++ [EvGetReg RSR_OFFSET st; EvGetReg MACHI_OFFSET v;
                             EvSetReg MACHI_OFFSET x] |})
  /\ Z.land x MACHI_IRQ_EN = 0
  /\ Z.lor x (Z.land v MACHI_IRQ_EN) = v.
Proof.
  intros x Hmode Hst Hv.
  split; [|split; [apply land_clear_bits | apply lor_clear_restore]].
  unfold lre_rx_intr, irq_disable, bind. rewrite Hmode.
  rewrite (GETREG_run _ _ _ _ Hst).
  erewrite GETREG_run by (simpl; exact Hv).
  rewrite SETREG_run. unfold ret, set_sc_mem. simpl.
  rewrite <- !app_assoc. reflexivity.
Qed.

(** X5.  An interrupt on a ring that is empty when the thread gets to it
    (interrupt mode): the filter masks the interrupt, the thread reads the
    status once, finds nothing, and writes to the MAC-high register the value
    [v] the filter had read, with [MACHI_IRQ_EN] set; this as long as the
    MAC-high register still reads what the filter wrote.  Filter and thread
    together change nothing else: counters, flags and zone are as before. *)
Theorem lre_rx_intr_thread_rearm (fuel : nat) (w : machine) (st0 v st : Z)
    (d1 d2 d4 d5 : dev) :
  let x := Z.land (Z.lnot MACHI_IRQ_EN) v in
  LOWRISC_NET_POLL = false ->
  bus_read_8 (sc_mem (sc w)) RSR_OFFSET = (st0, d1) ->
  bus_read_8 d1 MACHI_OFFSET = (v, d2) ->
  bus_read_8 (bus_write_8 d2 MACHI_OFFSET x) RSR_OFFSET = (st, d4) ->
  Z.land (u32 st) RSR_RECV_DONE_MASK = 0 ->
  bus_read_8 d4 MACHI_OFFSET = (x, d5) ->
  lre_rx_thread (S fuel) (lre_rx_intr w).2 =
    (Some tt,
     {| sc := set_sc_mem (bus_write_8 d5 MACHI_OFFSET (Z.lor MACHI_IRQ_EN v)) (sc w);
        mb_zone := mb_zone w;
        trace := trace w ++
                 [EvGetReg RSR_OFFSET st0; EvGetReg MACHI_OFFSET v;
                  EvSetReg MACHI_OFFSET x;
                  EvGetReg RSR_OFFSET st; EvGetReg MACHI_OFFSET x;
                  EvSetReg MACHI_OFFSET (Z.lor MACHI_IRQ_EN v)] |}).
Proof.
  intros x Hmode Hst0 Hv Hst Hdone Hx.
  assert (Hintr : lre_rx_intr w =
            (FILTER_SCHEDULE_THREAD,
             {| sc := set_sc_mem (bus_write_8 d2 MACHI_OFFSET x) (sc w);
                mb_zone := mb_zone w;
                trace := trace w ++ [EvGetReg RSR_OFFSET st0; EvGetReg MACHI_OFFSET v;
                                     EvSetReg MACHI_OFFSET x] |})).
  { unfold lre_rx_intr, irq_disable, bind. rewrite Hmode.
    rewrite (GETREG_run _ _ _ _ Hst0).
    erewrite GETREG_run by (simpl; exact Hv).
    rewrite SETREG_run. unfold ret, set_sc_mem. simpl.
    rewrite <- !app_assoc. reflexivity. }
  rewrite Hintr. cbn [snd].
  unfold lre_rx_thread, lre_rx_drain, bind.
  erewrite GETREG_run by (simpl; exact Hst).
  simpl lre_rx_loop. apply Z.eqb_eq in Hdone. rewrite Hdone.
  unfold ret at 1.
  erewrite irq_enable_intr; [|exact Hmode|simpl; exact Hx].
  unfold ret, set_sc_mem. simpl. subst x.
  rewrite lor_set_cleared, <- !app_assoc. reflexivity.
Qed.

(** X6.  The callout of the polling build looks and does not touch.
    [net_timeout] reads the receive-status register once when the interface
    is running and not at all when it is not; in neither case does it write a
    register, advance the ring, allocate an mbuf, hand anything to [if_input]
    or move a counter.  It asks to be called again after [polltime]. *)
Theorem net_timeout_only_looks (polltime : Z) (w : machine) :
  let w' := (net_timeout polltime w).2 in
  LOWRISC_NET_POLL = true ->
  (net_timeout polltime w).1 = polltime
  /\ (exists t : list event,
        trace w' = trace w ++ t
        /\ (Z.land (if_drv_flags (sc_ifp (sc w))) IFF_DRV_RUNNING = IFF_DRV_RUNNING ->
            t = [EvGetReg RSR_OFFSET (bus_read_8 (sc_mem (sc w)) RSR_OFFSET).1])
        /\ (Z.land (if_drv_flags (sc_ifp (sc w))) IFF_DRV_RUNNING <> IFF_DRV_RUNNING ->
            t = [])
        /\ writes t = [] /\ inputs t = [] /\ frees t = [])
  /\ sc_ifp (sc w') = sc_ifp (sc w)
  /\ sc_flags (sc w') = sc_flags (sc w)
  /\ sc_cap (sc w') = sc_cap (sc w)
  /\ mb_zone w' = mb_zone w.
Proof.
  intros w' Hmode. subst w'.
  unfold net_timeout, bind, get_sc.
  destruct (Z.eqb_spec (Z.land (if_drv_flags (sc_ifp (sc w))) IFF_DRV_RUNNING)
              IFF_DRV_RUNNING) as [Hrun|Hrun].
  - unfold lre_rx_intr, irq_disable, bind. rewrite Hmode.
    rewrite (GETREG_run w _ _ _ (surjective_pairing _)).
    unfold ret. simpl.
    split; [reflexivity|].
    split; [|repeat split].
    eexists. split; [reflexivity|].
    split; [reflexivity|]. split; [intros; contradiction|]. repeat split.
  - unfold ret. simpl.
    split; [reflexivity|].
    split; [|repeat split].
    exists []. rewrite app_nil_r. split; [reflexivity|].
    split; [intros; contradiction|]. repeat split.
Qed.

(** The loop of [lre_attach] on the ring: accesses to the receive-status
    register only, a write and a read for each round. *)
Lemma lre_attach_discard_loop_effect :
  forall (fuel : nat) (status : Z) (w : machine),
    let r := lre_attach_discard_loop fuel status w in
    exists t : list event,
      trace r.2 = trace w ++ t
      /\ Forall (touches RSR_OFFSET) t
      /\ length t = (2 * length (writes t))%nat
      /\ inputs t = []
      /\ (sc_ifp (sc r.2) = sc_ifp (sc w)
          /\ sc_flags (sc r.2) = sc_flags (sc w)
          /\ sc_cap (sc r.2) = sc_cap (sc w)
          /\ mb_zone r.2 = mb_zone w)
      /\ (forall st : Z, r.1 = Some st -> Z.land st RSR_RECV_DONE_MASK = 0).
Proof.
  induction fuel as [|fuel IH]; intros status w r; subst r.
  - exists []. simpl. rewrite app_nil_r. repeat split; try constructor.
    intros st H. discriminate H.
  - simpl. destruct (Z.eqb_spec (Z.land status RSR_RECV_DONE_MASK) 0) as [Hd|Hd].
    + exists []. simpl. rewrite app_nil_r. repeat split; try constructor.
      intros st H. injection H as <-. exact Hd.
    + unfold bind. rewrite SETREG_run.
      rewrite (GETREG_run _ _ _ _ (surjective_pairing _)).
      cbv beta iota.
      set (buf := u32 (Z.land status RSR_RECV_FIRST_MASK)).
      set (w2 := {| sc := _; mb_zone := mb_zone w; trace := _ |}).
      set (st := (bus_read_8 _ RSR_OFFSET).1).
      set (w3 := {| sc := _; mb_zone := mb_zone w2; trace := _ |}).
      destruct (IH st w3) as (t & Ht & Hall & Hlen & Hin & Hsc & Hend).
      exists ([EvSetReg RSR_OFFSET (u32 (buf + 1)); EvGetReg RSR_OFFSET st] ++ t).
      split; [rewrite Ht; subst w3 w2; simpl; rewrite <- !app_assoc; reflexivity|].
      split; [repeat constructor; exact Hall|].
      rewrite writes_app, inputs_app, Hin.
      split; [simpl; lia|].
      split; [reflexivity|].
      split; [subst w3 w2; simpl in *; exact Hsc | exact Hend].
Qed.

(** X7.  Emptying the ring at attach time.  Whatever the device answers,
    the loop by which [lre_attach] discards the packets the boot loader left
    touches the receive-status register and nothing else: one read to begin
    with, then a write and a read for each slot discarded.  No counter moves,
    nothing is allocated or handed on; and when the loop ends, the status last
    read has the done bit clear. *)
Theorem lre_attach_discard_ring (fuel : nat) (w : machine) :
  let r := lre_attach_discard fuel w in
  exists t : list event,
    trace r.2 = trace w ++ t
    /\ Forall (touches RSR_OFFSET) t
    /\ length t = (2 * length (writes t) + 1)%nat
    /\ inputs t = []
    /\ (sc_ifp (sc r.2) = sc_ifp (sc w)
        /\ sc_flags (sc r.2) = sc_flags (sc w)
        /\ sc_cap (sc r.2) = sc_cap (sc w)
        /\ mb_zone r.2 = mb_zone w)
    /\ (forall st : Z, r.1 = Some st -> Z.land st RSR_RECV_DONE_MASK = 0).
Proof.
  intros r. subst r. unfold lre_attach_discard, bind.
  rewrite (GETREG_run w _ _ _ (surjective_pairing _)).
  cbv beta iota.
  set (st0 := (bus_read_8 (sc_mem (sc w)) RSR_OFFSET).1).
  set (w1 := {| sc := _; mb_zone := _; trace := _ |}).
  destruct (lre_attach_discard_loop_effect fuel st0 w1)
    as (t & Ht & Hall & Hlen & Hin & Hsc & Hend).
  exists ([EvGetReg RSR_OFFSET st0] ++ t).
  split; [rewrite Ht; subst w1; simpl; rewrite <- !app_assoc; reflexivity|].
  split; [constructor; [reflexivity | exact Hall]|].
  rewrite writes_app, inputs_app, Hin.
  split; [simpl; lia|].
  split; [reflexivity|].
  split; [subst w1; simpl in *; exact Hsc | exact Hend].
Qed.

End Filter.

(** * More on the transmit path, and transmit against receive *)

Section Transmit.
Context {R : lre_reg} {K : kern_param} {P : Platform}.

(** The copy loop of [lre_transmit] only writes registers, whatever its
    arguments and its fuel. *)
Lemma tx_copy_effect (m : mbuf) (words : Z) :
  forall (fuel : nat) (i : Z) (w : machine),
    exists t : list event,
      trace (tx_copy fuel m words i w).2 = trace w ++ t
      /\ (inputs t = [] /\ frees t = [])
      /\ sc_ifp (sc (tx_copy fuel m words i w).2) = sc_ifp (sc w)
      /\ sc_flags (sc (tx_copy fuel m words i w).2) = sc_flags (sc w)
      /\ sc_cap (sc (tx_copy fuel m words i w).2) = sc_cap (sc w)
      /\ mb_zone (tx_copy fuel m words i w).2 = mb_zone w.
Proof.
  induction fuel as [|fuel IH]; intros i w.
  - exists []. simpl. rewrite app_nil_r. repeat split.
  - simpl. destruct (i <? words).
    + unfold bind. rewrite SETREG_run.
      set (w1 := {| sc := _; mb_zone := mb_zone w; trace := _ |}).
      destruct (IH (s32 (i + 8)) w1) as (t & Ht & (Hin & Hfr) & Hsc).
      exists (EvSetReg (TXBUFF_OFFSET + i) (mbuf_load64 m (i ≫ 3)) :: t).
      split; [rewrite Ht; subst w1; simpl; rewrite <- app_assoc; reflexivity|].
      split; [split; assumption|].
      subst w1. simpl in *. exact Hsc.
    + exists []. simpl. rewrite app_nil_r. repeat split.
Qed.

(** X8.  The frame is always freed, once, and last.  For every frame and
    every state of the interface, running or not, [lre_transmit] answers 0,
    its last action is [m_freem] on the frame, and it frees nothing before
    that.  It never hands anything to [if_input], and it leaves the receive
    counters, the flags, the capabilities and the cluster zone as they
    were. *)
Theorem lre_transmit_frees_once (m : mbuf) (w : machine) :
  let w' := (lre_transmit m w).2 in
  (lre_transmit m w).1 = 0
  /\ (exists t : list event,
        trace w' = trace w ++ t ++ [EvFreem m]
        /\ frees t = [] /\ inputs t = [])
  /\ same_rx_counters w w'
  /\ (sc_flags (sc w') = sc_flags (sc w)
      /\ sc_cap (sc w') = sc_cap (sc w)
      /\ if_flags (sc_ifp (sc w')) = if_flags (sc_ifp (sc w))
      /\ if_drv_flags (sc_ifp (sc w')) = if_drv_flags (sc_ifp (sc w)))
  /\ mb_zone w' = mb_zone w.
Proof.
  intros w'. subst w'. unfold lre_transmit, bind, get_sc, same_rx_counters.
  destruct (negb _).
  - unfold m_freem, emit, ret. simpl.
    split; [reflexivity|]. split; [|repeat split].
    exists []. repeat split.
  - set (words := s32 (Z.lor (m_pkthdr_len m - 1) 7 + 1)).
    destruct (tx_copy_effect m words (Z.to_nat words) 0 w)
      as (t & Ht & (Hin & Hfr) & Hifp & Hfl & Hcap & Hz).
    destruct (tx_copy (Z.to_nat words) m words 0 w) as [[] w1].
    cbn [fst snd] in Ht, Hifp, Hfl, Hcap, Hz.
    rewrite SETREG_run.
    unfold ETHER_BPF_MTAP, m_freem, if_inc_counter, bind, get_sc, put_sc, emit, ret.
    cbn [fst snd sc sc_ifp sc_flags sc_cap sc_mem set_sc_mem set_sc_ifp
         mb_zone trace ifnet_add if_flags if_drv_flags if_ipackets if_ierrors
         if_iqdrops if_opackets if_obytes].
    rewrite Ht, Hifp, Hfl, Hcap, Hz.
    split; [reflexivity|].
    split; [|repeat split; lia].
    exists (t ++ [EvSetReg TPLR_OFFSET (u64 (m_pkthdr_len m)); EvBpfMtap m;
                  EvIncCounter IFCOUNTER_OPACKETS 1;
                  EvIncCounter IFCOUNTER_OBYTES (m_pkthdr_len m)]).
    rewrite frees_app, inputs_app, Hin, Hfr.
    split; [rewrite <- !app_assoc; reflexivity|]. split; reflexivity.
Qed.

(** X9.  A frame of length 0 on a running interface.  [((0-1)|7)+1] is 0, so
    nothing is copied to the transmit buffer; the transmit-length register is
    still written, with 0, the frame is tapped and freed, and
    [IFCOUNTER_OPACKETS] still grows by 1 ([IFCOUNTER_OBYTES] by 0). *)
Theorem lre_transmit_empty_frame (m : mbuf) (w : machine) :
  Z.land (if_drv_flags (sc_ifp (sc w))) IFF_DRV_RUNNING = IFF_DRV_RUNNING ->
  m_pkthdr_len m = 0 ->
  lre_transmit m w =
    (0, {| sc := {| sc_ifp := ifnet_add IFCOUNTER_OBYTES 0
                                (ifnet_add IFCOUNTER_OPACKETS 1 (sc_ifp (sc w)));
                    sc_flags := sc_flags (sc w);
                    sc_cap := sc_cap (sc w);
                    sc_mem := bus_write_8 (sc_mem (sc w)) TPLR_OFFSET 0 |};
           mb_zone := mb_zone w;
           trace := trace w ++
                    [EvSetReg TPLR_OFFSET 0; EvBpfMtap m;
                     EvIncCounter IFCOUNTER_OPACKETS 1;
                     EvIncCounter IFCOUNTER_OBYTES 0; EvFreem m] |})
  /\ if_opackets (sc_ifp (sc (lre_transmit m w).2)) = if_opackets (sc_ifp (sc w)) + 1
  /\ if_obytes (sc_ifp (sc (lre_transmit m w).2)) = if_obytes (sc_ifp (sc w)).
Proof.
  intros Hrun Hlen.
  assert (Hgo : lre_transmit m w = (0, {| sc := {| sc_ifp := ifnet_add IFCOUNTER_OBYTES 0
                                (ifnet_add IFCOUNTER_OPACKETS 1 (sc_ifp (sc w)));
                    sc_flags := sc_flags (sc w);
                    sc_cap := sc_cap (sc w);
                    sc_mem := bus_write_8 (sc_mem (sc w)) TPLR_OFFSET 0 |};
           mb_zone := mb_zone w;
           trace := trace w ++
                    [EvSetReg TPLR_OFFSET 0; EvBpfMtap m;
                     EvIncCounter IFCOUNTER_OPACKETS 1;
                     EvIncCounter IFCOUNTER_OBYTES 0; EvFreem m] |})).
  { unfold lre_transmit, bind, get_sc.
    apply Z.eqb_eq in Hrun. rewrite Hrun, Hlen. cbn [negb].
    change (s32 (Z.lor (0 - 1) 7 + 1)) with 0.
    change (u64 0) with 0. cbn [Z.to_nat tx_copy].
    unfold SETREG, ETHER_BPF_MTAP, m_freem, if_inc_counter, bind, get_sc,
      put_sc, emit, ret.
    simpl. rewrite <- !app_assoc. reflexivity. }
  rewrite Hgo. simpl. repeat split; lia.
Qed.


(** Word [i] of a run of consecutive words stored from [base + 8j] on. *)
Lemma lookup_word_offs (base : Z) :
  forall (vs : list Z) (j : Z) (i : nat),
    (list_to_map (zip (word_offs base j (Z.of_nat (length vs))) vs) : gmap Z Z)
      !! (base + 8 * (j + Z.of_nat i))
    = vs !! i.
Proof.
  induction vs as [|v vs IH]; intros j i.
  - destruct i; reflexivity.
  - cbn [length]. rewrite word_offs_cons. cbn [zip zip_with].
    rewrite list_to_map_cons.
    destruct i as [|i].
    + replace (base + 8 * (j + Z.of_nat 0)) with (base + 8 * j) by lia.
      rewrite lookup_insert_eq. reflexivity.
    + rewrite lookup_insert_ne by lia.
      replace (j + Z.of_nat (S i)) with (j + 1 + Z.of_nat i) by lia.
      apply IH.
Qed.


(** The words of a delivered mbuf lie inside its cluster if and only if the
    last of them ends at or before byte [MCLBYTES]. *)
Lemma rx_mbuf_in_cluster (L : Z) (vs : list Z) :
  0 <= ETHER_ALIGN <= MCLBYTES ->
  mbuf_in_cluster (rx_mbuf L vs)
  <-> ETHER_ALIGN + 8 * Z.of_nat (length vs) <= MCLBYTES.
Proof.
  intros Ha. unfold mbuf_in_cluster, rx_mbuf. cbn [m_ext]. split.
  - intros Hin. destruct (length vs) as [|i] eqn:Hlen; [lia|].
    assert (Hsome : is_Some (vs !! i)) by (apply lookup_lt_is_Some; lia).
    destruct Hsome as [v Hv].
    pose proof (lookup_word_offs ETHER_ALIGN vs 0 i) as Hlk.
    rewrite Hlen, Hv in Hlk. apply Hin in Hlk.
    unfold in_cluster in Hlk. apply andb_true_iff in Hlk as [_ Hend].
    apply Z.leb_le in Hend. lia.
  - intros Hend off v Hlk.
    apply elem_of_list_to_map_2 in Hlk.
    apply elem_of_zip_l in Hlk.
    unfold word_offs in Hlk. apply list_elem_of_fmap in Hlk as (k & -> & Hk).
    apply elem_of_seqZ in Hk.
    unfold in_cluster. apply andb_true_iff.
    split; [apply Z.leb_le | apply Z.leb_le]; lia.
Qed.


End Transmit.

(** * The copy and the end of the cluster *)

Section Cluster.
Context {R : lre_reg} {K : kern_param} {P : Platform}.

(** C7, where the code misses it.  In a pass that hands its frame of length
    [L] to [if_input], the frame got past the validation because
    [L <= MCLBYTES - ETHER_ALIGN], but what the copy loop stores behind the
    alignment pad is [L] rounded up to a multiple of 8: [n = ceil(L/8)]
    words, at bytes [ETHER_ALIGN + 8k] of the cluster.  The words stored all
    lie inside the [MCLBYTES] bytes of the cluster if and only if
    [ETHER_ALIGN + 8n <= MCLBYTES]; when that fails, the last word, at byte
    [ETHER_ALIGN + 8(n-1)], is stored all the same and ends beyond the
    cluster. *)
Theorem lre_rx_copy_overruns_cluster (status : Z) (w : machine) (e l st : Z)
    (d1 d2 d3 d4 : dev) (z : zone) (vs : list Z) :
  let s := u32 (Z.land status RSR_RECV_FIRST_MASK) in
  let L := rs_length (lre_rx_slot status w).1 in
  let n := (L + 7) / 8 in
  let offs := word_offs (RXBUFF_OFFSET + 2048 * Z.land s 7) 0 n in
  rx_layout_ok ->
  0 <= ETHER_ALIGN ->
  bus_read_8 (sc_mem (sc w)) RBAD_OFFSET = (e, d1) ->
  bus_read_8 d1 (slot_rplr s) = (l, d2) ->
  lre_rx_discard (lre_rx_slot status w).1 = false ->
  zone_getcl (mb_zone w) = (true, z) ->
  read_all d2 offs = (vs, d3) ->
  bus_read_8 (bus_write_8 d3 RSR_OFFSET (s + 1)) RSR_OFFSET = (st, d4) ->
  exists (w' : machine) (t : list event),
    lre_rx_iter status w = (RxInput (u32 st), w')
    /\ trace w' = trace w ++ t
    /\ inputs t = [rx_mbuf L vs]
    /\ 0 <= L <= MCLBYTES - ETHER_ALIGN
    /\ (forall k : Z, 0 <= k < n ->
        m_ext (rx_mbuf L vs) !! (ETHER_ALIGN + 8 * k) = vs !! Z.to_nat k
        /\ is_Some (vs !! Z.to_nat k))
    /\ (mbuf_in_cluster (rx_mbuf L vs) <-> ETHER_ALIGN + 8 * n <= MCLBYTES)
    /\ (MCLBYTES < ETHER_ALIGN + 8 * n ->
        is_Some (m_ext (rx_mbuf L vs) !! (ETHER_ALIGN + 8 * (n - 1)))
        /\ in_cluster (ETHER_ALIGN + 8 * (n - 1)) = false
        /\ ~ mbuf_in_cluster (rx_mbuf L vs)).
Proof.
  intros s L n offs Hok Halign He Hl Hdis Hz Hreads Hst.
  pose proof (lre_rx_iter_input_run _ _ _ _ _ _ _ _ _ _ _
                Hok He Hl Hdis Hz Hreads Hst) as Hrun.
  fold s L in Hrun. fold n in Hrun. fold offs in Hrun.
  destruct Hok as (Hmask & Hmax & Hbase & Hwin).
  pose proof (lre_rx_slot_length_range status w) as HL0. fold L in HL0.
  assert (HL : L <= MCLBYTES - ETHER_ALIGN).
  { unfold lre_rx_discard in Hdis. fold L in Hdis.
    apply orb_false_iff in Hdis as [Hlen _].
    rewrite u32_small in Hlen by lia. apply Z.ltb_ge in Hlen. exact Hlen. }
  assert (Hn : 0 <= n) by (apply Z.div_pos; lia).
  assert (Hlen : length vs = Z.to_nat n).
  { pose proof (read_all_length offs d2) as Hlen. rewrite Hreads in Hlen.
    simpl in Hlen. rewrite Hlen. unfold offs, word_offs.
    rewrite length_fmap, length_seqZ. reflexivity. }
  assert (Hlk : forall k : Z, 0 <= k < n ->
            m_ext (rx_mbuf L vs) !! (ETHER_ALIGN + 8 * k) = vs !! Z.to_nat k
            /\ is_Some (vs !! Z.to_nat k)).
  { intros k Hk. split.
    - unfold rx_mbuf. cbn [m_ext].
      pose proof (lookup_word_offs ETHER_ALIGN vs 0 (Z.to_nat k)) as H.
      rewrite Z2Nat.id in H by lia. rewrite Z.add_0_l in H. exact H.
    - apply lookup_lt_is_Some. lia. }
  assert (Hiff : mbuf_in_cluster (rx_mbuf L vs) <-> ETHER_ALIGN + 8 * n <= MCLBYTES).
  { rewrite rx_mbuf_in_cluster by lia. rewrite Hlen, Z2Nat.id by lia. reflexivity. }
  eexists. eexists. split; [exact Hrun|]. cbn [trace].
  split; [reflexivity|].
  split.
  { rewrite !inputs_app.
    rewrite (quiet_inputs (get_events offs vs)) by apply get_events_quiet.
    reflexivity. }
  split; [lia|]. split; [exact Hlk|]. split; [exact Hiff|].
  intros Hover.
  assert (Hn1 : 1 <= n) by lia.
  destruct (Hlk (n - 1) ltac:(lia)) as [Heq Hsome].
  split; [rewrite Heq; exact Hsome|].
  split.
  - unfold in_cluster. apply andb_false_iff. right. apply Z.leb_gt. lia.
  - intros Hin. apply Hiff in Hin. lia.
Qed.

End Cluster.

(** * lre_ioctl *)

Section IoctlProps.
Context {R : lre_reg} {K : kern_param} {P : Platform}.
Context {I : ioctl_param} {N : Netstack}.

Lemma land_lnot_id (f r : Z) : Z.land f r = 0 -> Z.land f (Z.lnot r) = f.
Proof.
  intros H. apply Z.bits_inj'. intros n Hn.
  rewrite Z.land_spec, Z.lnot_spec by lia.
  assert (Hb : Z.testbit (Z.land f r) n = false) by (rewrite H; apply Z.bits_0).
  rewrite Z.land_spec in Hb.
  destruct (Z.testbit f n), (Z.testbit r n); try reflexivity; discriminate Hb.
Qed.

Lemma land_land_lnot (f r : Z) : Z.land (Z.land f (Z.lnot r)) r = 0.
Proof.
  apply Z.bits_inj'. intros n Hn.
  rewrite !Z.land_spec, Z.lnot_spec, Z.bits_0 by lia.
  destruct (Z.testbit r n), (Z.testbit f n); reflexivity.
Qed.

Lemma land_lnot_outside (a v : Z) :
  Z.land (Z.land (Z.lnot a) v) (Z.lnot a) = Z.land v (Z.lnot a).
Proof.
  apply Z.bits_inj'. intros n Hn.
  rewrite !Z.land_spec, Z.lnot_spec by lia.
  destruct (Z.testbit a n), (Z.testbit v n); reflexivity.
Qed.

Lemma lor_outside (a v : Z) :
  Z.land (Z.lor a v) (Z.lnot a) = Z.land v (Z.lnot a).
Proof.
  apply Z.bits_inj'. intros n Hn.
  rewrite !Z.land_spec, Z.lor_spec, Z.lnot_spec by lia.
  destruct (Z.testbit a n), (Z.testbit v n); reflexivity.
Qed.

(** A flag word either has a given single bit or does not. *)
Lemma one_bit_lor (f p : Z) : one_bit p -> Z.land f p <> 0 -> Z.lor f p = f.
Proof.
  intros (k & Hk & ->) Hne.
  assert (Hfk : Z.testbit f k = true).
  { destruct (Z.testbit f k) eqn:Hb; [reflexivity|].
    exfalso. apply Hne. apply Z.bits_inj'. intros n Hn.
    rewrite Z.land_spec, Z.pow2_bits_eqb, Z.bits_0 by lia.
    destruct (Z.eqb_spec k n) as [->|]; [rewrite Hb; reflexivity|].
    apply andb_false_r. }
  apply Z.bits_inj'. intros n Hn.
  rewrite Z.lor_spec, Z.pow2_bits_eqb by lia.
  destruct (Z.eqb_spec k n) as [->|]; [rewrite Hfk; reflexivity|].
  apply orb_false_r.
Qed.

(** [SIOCSIFFLAGS] on an interface whose flags changed and that is to be
    down. *)
Lemma lre_ioctl_setflags_down_run (w : machine) (v : Z) (d : dev) :
  let F := if_flags (sc_ifp (sc w)) in
  let x := if negb (Z.land F IFF_PROMISC =? 0)
           then Z.lor MACHI_ALLPKTS_MASK v
           else Z.land (Z.lnot MACHI_ALLPKTS_MASK) v in
  F <> sc_flags (sc w) ->
  Z.land F IFF_UP = 0 ->
  bus_read_8 (sc_mem (sc w)) MACHI_OFFSET = (v, d) ->
  lre_ioctl SIOCSIFFLAGS w =
    ((0, ReplyNone),
     {| sc := {| sc_ifp := set_if_drv_flags
                             (Z.land (if_drv_flags (sc_ifp (sc w)))
                                (Z.lnot IFF_DRV_RUNNING))
                             (sc_ifp (sc w));
                 sc_flags := F;
                 sc_cap := sc_cap (sc w);
                 sc_mem := bus_write_8 d MACHI_OFFSET x |};
        mb_zone := mb_zone w;
        trace := trace w ++ [EvGetReg MACHI_OFFSET v; EvSetReg MACHI_OFFSET x] |}).
Proof.
  intros F x Hchg Hup Hv. subst x F.
  destruct w as [[[f dr ip ie iq op ob] fl cap mem] zn tr].
  cbn [sc sc_ifp sc_flags sc_cap sc_mem if_flags if_drv_flags mb_zone trace] in *.
  unfold lre_ioctl, bind, get_sc.
  cbn [sc sc_ifp sc_flags sc_cap sc_mem if_flags if_drv_flags mb_zone trace fst snd].
  apply Z.eqb_neq in Hchg. rewrite Hchg.
  apply Z.eqb_eq in Hup. rewrite Hup. cbn [negb].
  destruct (Z.eqb_spec (Z.land dr IFF_DRV_RUNNING) 0) as [Hz|Hnz]; cbn [negb].
  - unfold ret at 1, put_sc.
    cbn [sc sc_ifp sc_flags sc_cap sc_mem if_flags if_drv_flags mb_zone trace fst snd].
    destruct (negb (Z.land f IFF_PROMISC =? 0)).
    + unfold GETREG, SETREG, bind, get_sc, put_sc, emit, ret. simpl. rewrite Hv.
      simpl. unfold set_if_drv_flags. simpl.
      rewrite (land_lnot_id dr IFF_DRV_RUNNING Hz), <- !app_assoc. reflexivity.
    + unfold GETREG, SETREG, bind, get_sc, put_sc, emit, ret. simpl. rewrite Hv.
      simpl. unfold set_if_drv_flags. simpl.
      rewrite (land_lnot_id dr IFF_DRV_RUNNING Hz), <- !app_assoc. reflexivity.
  - unfold put_sc.
    cbn [sc sc_ifp sc_flags sc_cap sc_mem if_flags if_drv_flags mb_zone trace fst snd
         set_sc_ifp set_if_drv_flags set_sc_flags].
    destruct (negb (Z.land f IFF_PROMISC =? 0)).
    + unfold GETREG, SETREG, bind, get_sc, put_sc, emit, ret. simpl. rewrite Hv.
      simpl. rewrite <- !app_assoc. reflexivity.
    + unfold GETREG, SETREG, bind, get_sc, put_sc, emit, ret. simpl. rewrite Hv.
      simpl. rewrite <- !app_assoc. reflexivity.
Qed.

(** X12.  Taking the interface down stops transmission.  After
    [SIOCSIFFLAGS] on an interface whose flags changed and have [IFF_UP]
    clear, [IFF_DRV_RUNNING] is clear, [sc_flags] holds the new flags, and
    every frame then given to [lre_transmit] is freed without a register
    being touched. *)
Theorem lre_ioctl_down_stops_transmit (w : machine) (m : mbuf) :
  let F := if_flags (sc_ifp (sc w)) in
  let w1 := (lre_ioctl SIOCSIFFLAGS w).2 in
  F <> sc_flags (sc w) ->
  Z.land F IFF_UP = 0 ->
  IFF_DRV_RUNNING <> 0 ->
  (lre_ioctl SIOCSIFFLAGS w).1 = (0, ReplyNone)
  /\ Z.land (if_drv_flags (sc_ifp (sc w1))) IFF_DRV_RUNNING = 0
  /\ sc_flags (sc w1) = F
  /\ lre_transmit m w1 =
       (0, {| sc := sc w1; mb_zone := mb_zone w1; trace := trace w1 ++ [EvFreem m] |}).
Proof.
  intros F w1 Hchg Hup Hrun. subst w1.
  rewrite (lre_ioctl_setflags_down_run w _ _ Hchg Hup (surjective_pairing _)).
  cbn [fst snd sc sc_ifp sc_flags if_drv_flags set_if_drv_flags].
  assert (Hclear : Z.land (Z.land (if_drv_flags (sc_ifp (sc w)))
                             (Z.lnot IFF_DRV_RUNNING)) IFF_DRV_RUNNING = 0)
    by apply land_land_lnot.
  split; [reflexivity|]. split; [exact Hclear|]. split; [reflexivity|].
  unfold lre_transmit, bind, get_sc.
  cbn [sc sc_ifp if_drv_flags set_if_drv_flags].
  rewrite Hclear.
  assert (Hne : (0 =? IFF_DRV_RUNNING) = false) by (apply Z.eqb_neq; lia).
  rewrite Hne. reflexivity.
Qed.

Lemma lre_init_trace (w : machine) :
  exists t : list event, trace (lre_init w).2 = trace w ++ t.
Proof.
  unfold lre_init, bind, get_sc, put_sc, device_printf, emit. simpl.
  destruct (irq_enable_effect
              {| sc := set_sc_ifp
                         (set_if_drv_flags
                            (Z.lor
                               (if negb (Z.land (if_drv_flags (sc_ifp (sc w)))
                                           IFF_DRV_RUNNING =? 0)
                                then Z.land (if_drv_flags (sc_ifp (sc w)))
                                       (Z.lnot IFF_DRV_RUNNING)
                                else if_drv_flags (sc_ifp (sc w)))
                               IFF_DRV_RUNNING)
                            (sc_ifp (sc w))) (sc w);
                 mb_zone := mb_zone w;
                 trace := trace w ++ [EvPrintf "lre_init called"] |})
    as (t & Ht & _).
  destruct (irq_enable _) as [[] w1]. simpl in *.
  exists ([EvPrintf "lre_init called"] ++ t).
  rewrite Ht, <- app_assoc. reflexivity.
Qed.

(** [SIOCSIFFLAGS] on an interface whose flags changed and that is to be
    up. *)
Lemma lre_ioctl_setflags_up_run (w : machine) (v : Z) (d : dev) :
  let F := if_flags (sc_ifp (sc w)) in
  let x := if negb (Z.land F IFF_PROMISC =? 0)
           then Z.lor MACHI_ALLPKTS_MASK v
           else Z.land (Z.lnot MACHI_ALLPKTS_MASK) v in
  let w1 := (lre_init w).2 in
  F <> sc_flags (sc w) ->
  Z.land F IFF_UP <> 0 ->
  bus_read_8 (sc_mem (sc w1)) MACHI_OFFSET = (v, d) ->
  lre_ioctl SIOCSIFFLAGS w =
    ((0, ReplyNone),
     {| sc := {| sc_ifp := sc_ifp (sc w1);
                 sc_flags := F;
                 sc_cap := sc_cap (sc w1);
                 sc_mem := bus_write_8 d MACHI_OFFSET x |};
        mb_zone := mb_zone w1;
        trace := trace w1 ++ [EvGetReg MACHI_OFFSET v; EvSetReg MACHI_OFFSET x] |}).
Proof.
  intros F x w1 Hchg Hup Hv. subst x w1.
  assert (HF : if_flags (sc_ifp (sc (lre_init w).2)) = F)
    by (rewrite lre_init_sc; reflexivity).
  unfold lre_ioctl, bind, get_sc.
  apply Z.eqb_neq in Hchg. fold F. rewrite Hchg.
  apply Z.eqb_neq in Hup. rewrite Hup. cbn [negb].
  destruct (lre_init w) as [[] w1]. cbn [snd] in *.
  unfold put_sc. cbn [sc sc_ifp sc_flags sc_cap sc_mem set_sc_flags mb_zone trace].
  rewrite HF.
  destruct (negb (Z.land F IFF_PROMISC =? 0)).
  - unfold GETREG, SETREG, bind, get_sc, put_sc, emit, ret. simpl. rewrite Hv.
    simpl. rewrite <- !app_assoc. reflexivity.
  - unfold GETREG, SETREG, bind, get_sc, put_sc, emit, ret. simpl. rewrite Hv.
    simpl. rewrite <- !app_assoc. reflexivity.
Qed.

(** What [SIOCSIFFLAGS] leaves behind when the flags changed, up or down. *)
Lemma lre_ioctl_setflags_shape (w : machine) :
  let F := if_flags (sc_ifp (sc w)) in
  let w' := (lre_ioctl SIOCSIFFLAGS w).2 in
  F <> sc_flags (sc w) ->
  exists (t : list event) (v : Z) (d : dev),
    trace w' = trace w ++ t
               ++ [EvGetReg MACHI_OFFSET v;
                   EvSetReg MACHI_OFFSET
                     (if negb (Z.land F IFF_PROMISC =? 0)
                      then Z.lor MACHI_ALLPKTS_MASK v
                      else Z.land (Z.lnot MACHI_ALLPKTS_MASK) v)]
    /\ sc_mem (sc w')
       = bus_write_8 d MACHI_OFFSET
           (if negb (Z.land F IFF_PROMISC =? 0)
            then Z.lor MACHI_ALLPKTS_MASK v
            else Z.land (Z.lnot MACHI_ALLPKTS_MASK) v)
    /\ sc_flags (sc w') = F
    /\ if_flags (sc_ifp (sc w')) = F
    /\ (lre_ioctl SIOCSIFFLAGS w).1 = (0, ReplyNone).
Proof.
  intros F w' Hchg. subst w'.
  destruct (Z.eq_dec (Z.land F IFF_UP) 0) as [Hup|Hup].
  - rewrite (lre_ioctl_setflags_down_run w _ _ Hchg Hup (surjective_pairing _)).
    exists [], (bus_read_8 (sc_mem (sc w)) MACHI_OFFSET).1,
           (bus_read_8 (sc_mem (sc w)) MACHI_OFFSET).2.
    simpl. repeat split.
  - rewrite (lre_ioctl_setflags_up_run w _ _ Hchg Hup (surjective_pairing _)).
    destruct (lre_init_trace w) as (t & Ht).
    exists t, (bus_read_8 (sc_mem (sc (lre_init w).2)) MACHI_OFFSET).1,
           (bus_read_8 (sc_mem (sc (lre_init w).2)) MACHI_OFFSET).2.
    cbn [fst snd sc sc_ifp sc_flags sc_mem trace].
    rewrite Ht, lre_init_sc. cbn [sc_ifp if_flags set_if_drv_flags].
    rewrite <- app_assoc. repeat split.
Qed.

(** X13.  [SIOCSIFFLAGS] brings the promiscuous bit of the device in line.
    When the interface flags changed, the last thing the call does is read
    the MAC-high register and write it back with [MACHI_ALLPKTS_MASK] set if
    [IFF_PROMISC] is among the new flags and cleared if not, every other bit
    as read; [sc_flags] then holds the new flags, and 0 is returned. *)
Theorem lre_ioctl_setflags_promisc (w : machine) :
  let F := if_flags (sc_ifp (sc w)) in
  let w' := (lre_ioctl SIOCSIFFLAGS w).2 in
  F <> sc_flags (sc w) ->
  exists (t : list event) (v x : Z),
    trace w' = trace w ++ t
               ++ [EvGetReg MACHI_OFFSET v; EvSetReg MACHI_OFFSET x]
    /\ Z.land x MACHI_ALLPKTS_MASK
       = (if Z.land F IFF_PROMISC =? 0 then 0 else MACHI_ALLPKTS_MASK)
    /\ Z.land x (Z.lnot MACHI_ALLPKTS_MASK) = Z.land v (Z.lnot MACHI_ALLPKTS_MASK)
    /\ sc_flags (sc w') = F
    /\ if_flags (sc_ifp (sc w')) = F
    /\ (lre_ioctl SIOCSIFFLAGS w).1 = (0, ReplyNone).
Proof.
  intros F w' Hchg.
  destruct (lre_ioctl_setflags_shape w Hchg) as (t & v & d & Ht & _ & Hsf & Hif & Hr).
  fold F in Ht. exists t, v. eexists. split; [exact Ht|].
  split; [|split; [|split; [exact Hsf | split; [exact Hif | exact Hr]]]].
  - destruct (Z.land F IFF_PROMISC =? 0); cbn [negb].
    + apply land_clear_bits.
    + apply land_lor_same_l.
  - destruct (Z.land F IFF_PROMISC =? 0); cbn [negb].
    + apply land_lnot_outside.
    + apply lor_outside.
Qed.

Lemma lre_ioctl_getflags_run (w : machine) (v : Z) (d : dev) :
  let f := if negb (Z.land MACHI_ALLPKTS_MASK v =? 0)
           then Z.lor (sc_flags (sc w)) IFF_PROMISC
           else Z.land (sc_flags (sc w)) (Z.lnot IFF_PROMISC) in
  bus_read_8 (sc_mem (sc w)) MACHI_OFFSET = (v, d) ->
  lre_ioctl SIOCGIFFLAGS w =
    ((0, ReplyNone),
     {| sc := {| sc_ifp := set_if_flags f (sc_ifp (sc w));
                 sc_flags := f;
                 sc_cap := sc_cap (sc w);
                 sc_mem := d |};
        mb_zone := mb_zone w;
        trace := trace w ++ [EvGetReg MACHI_OFFSET v] |}).
Proof.
  intros f Hv. unfold lre_ioctl, bind.
  rewrite (GETREG_run _ _ _ _ Hv). reflexivity.
Qed.

(** X14.  [SIOCGIFFLAGS] reports what the device does.  The call reads the
    MAC-high register once; afterwards [IFF_PROMISC] is set in [sc_flags] if
    any bit of [MACHI_ALLPKTS_MASK] was set in the value read and clear if
    not, the other bits of [sc_flags] are as before, and [if_flags] is a copy
    of [sc_flags]: what [if_flags] held is overwritten. *)
Theorem lre_ioctl_getflags_reports (w : machine) (v : Z) (d : dev) :
  let w' := (lre_ioctl SIOCGIFFLAGS w).2 in
  bus_read_8 (sc_mem (sc w)) MACHI_OFFSET = (v, d) ->
  (lre_ioctl SIOCGIFFLAGS w).1 = (0, ReplyNone)
  /\ trace w' = trace w ++ [EvGetReg MACHI_OFFSET v]
  /\ if_flags (sc_ifp (sc w')) = sc_flags (sc w')
  /\ Z.land (sc_flags (sc w')) IFF_PROMISC
     = (if Z.land MACHI_ALLPKTS_MASK v =? 0 then 0 else IFF_PROMISC)
  /\ Z.land (sc_flags (sc w')) (Z.lnot IFF_PROMISC)
     = Z.land (sc_flags (sc w)) (Z.lnot IFF_PROMISC).
Proof.
  intros w' Hv. subst w'.
  rewrite (lre_ioctl_getflags_run w v d Hv).
  cbn [fst snd sc sc_ifp sc_flags trace set_if_flags if_flags].
  repeat split.
  - destruct (Z.land MACHI_ALLPKTS_MASK v =? 0); cbn [negb].
    + apply land_land_lnot.
    + apply land_lor_same.
  - destruct (Z.land MACHI_ALLPKTS_MASK v =? 0); cbn [negb].
    + rewrite <- Z.land_assoc, Z.land_diag. reflexivity.
    + rewrite Z.lor_comm. apply lor_outside.
Qed.

(** X15.  Flags set are the flags got.  On a device whose MAC-high register
    reads back what was written to it, with [IFF_PROMISC] a single bit and
    [MACHI_ALLPKTS_MASK] not 0: after a [SIOCSIFFLAGS] that found the flags
    changed, a [SIOCGIFFLAGS] leaves [if_flags] and [sc_flags] at the flags
    that were set. *)
Theorem lre_ioctl_flags_round_trip (w : machine) :
  let F := if_flags (sc_ifp (sc w)) in
  let w1 := (lre_ioctl SIOCSIFFLAGS w).2 in
  let w2 := (lre_ioctl SIOCGIFFLAGS w1).2 in
  (forall (d : dev) (v : Z),
     (bus_read_8 (bus_write_8 d MACHI_OFFSET v) MACHI_OFFSET).1 = v) ->
  F <> sc_flags (sc w) ->
  one_bit IFF_PROMISC ->
  MACHI_ALLPKTS_MASK <> 0 ->
  (lre_ioctl SIOCGIFFLAGS w1).1 = (0, ReplyNone)
  /\ if_flags (sc_ifp (sc w2)) = F
  /\ sc_flags (sc w2) = F.
Proof.
  intros F w1 w2 Hback Hchg Hbit Hmask. subst w2.
  destruct (lre_ioctl_setflags_shape w Hchg) as (t & v & d & _ & Hmem & Hsf & _ & _).
  fold F w1 in Hmem, Hsf.
  rewrite (lre_ioctl_getflags_run w1 _ _ (surjective_pairing _)).
  cbn [fst snd sc sc_ifp sc_flags set_if_flags if_flags].
  rewrite Hmem, Hback, Hsf.
  assert (Hf : (if negb (Z.land MACHI_ALLPKTS_MASK
                      (if negb (Z.land F IFF_PROMISC =? 0)
                       then Z.lor MACHI_ALLPKTS_MASK v
                       else Z.land (Z.lnot MACHI_ALLPKTS_MASK) v) =? 0)
                then Z.lor F IFF_PROMISC
                else Z.land F (Z.lnot IFF_PROMISC)) = F).
  { destruct (Z.eqb_spec (Z.land F IFF_PROMISC) 0) as [Hp|Hp]; cbn [negb].
    - rewrite Z.land_comm, land_clear_bits. cbn. apply land_lnot_id. exact Hp.
    - rewrite Z.land_comm, land_lor_same_l.
      apply Z.eqb_neq in Hmask. rewrite Hmask. cbn [negb].
      apply one_bit_lor; assumption. }
  rewrite Hf. repeat split.
Qed.

(** X16.  The capability word is whatever was last set, and decides the
    trimming.  [SIOCSIFCAP] stores the requested capabilities unexamined and
    does nothing else; [SIOCGIFCAP] then answers exactly them; and from then on
    the receive path takes the 4-byte trailer off the masked length of a slot
    if and only if [IFCAP_RXCSUM] is among them. *)
Theorem lre_ioctl_cap_controls_trim (c status : Z) (w : machine) (e l : Z)
    (d1 d2 : dev) :
  let w1 := (lre_ioctl (SIOCSIFCAP c) w).2 in
  let s := u32 (Z.land status RSR_RECV_FIRST_MASK) in
  let ml := u32 (Z.land l RPLR_LENGTH_MASK) in
  bus_read_8 (sc_mem (sc w)) RBAD_OFFSET = (e, d1) ->
  bus_read_8 d1 (slot_rplr s) = (l, d2) ->
  lre_ioctl (SIOCSIFCAP c) w = ((0, ReplyNone),
                                {| sc := set_sc_cap c (sc w);
                                   mb_zone := mb_zone w; trace := trace w |})
  /\ lre_ioctl SIOCGIFCAP w1 = ((0, ReplyCurcap c), w1)
  /\ rs_length (lre_rx_slot status w1).1
     = (if Z.land c IFCAP_RXCSUM =? 0 then ml else u32 (ml - 4)).
Proof.
  intros w1 s ml He Hl. subst w1.
  split; [reflexivity|]. split; [reflexivity|].
  assert (Hrun := lre_rx_slot_run status
                    {| sc := set_sc_cap c (sc w); mb_zone := mb_zone w;
                       trace := trace w |} e l d1 d2 He Hl).
  cbv zeta in Hrun.
  change ((lre_ioctl (SIOCSIFCAP c) w).2)
    with {| sc := set_sc_cap c (sc w); mb_zone := mb_zone w; trace := trace w |}.
  rewrite Hrun. cbn [fst rs_length sc sc_cap set_sc_cap].
  fold ml. destruct (Z.land c IFCAP_RXCSUM =? 0); reflexivity.
Qed.

(** X17.  [lre_init] forgets the capabilities that were set.  Whatever
    capabilities [SIOCSIFCAP] stored, once [lre_init] has run [SIOCGIFCAP]
    answers [IFCAP_RXCSUM] and nothing else. *)
Theorem lre_init_resets_cap (c : Z) (w : machine) :
  let w1 := (lre_ioctl (SIOCSIFCAP c) w).2 in
  let w2 := (lre_init w1).2 in
  (lre_ioctl SIOCGIFCAP w1).1 = (0, ReplyCurcap c)
  /\ (lre_ioctl SIOCGIFCAP w2).1 = (0, ReplyCurcap IFCAP_RXCSUM).
Proof.
  intros w1 w2. split; [reflexivity|].
  unfold lre_ioctl, bind, get_sc, ret. cbn [fst].
  subst w2. rewrite lre_init_sc. reflexivity.
Qed.

(** X18.  [SIOCSIFMTU] only answers.  With [ifr_mtu + if_hdrlen] an [int],
    the call answers [ENOTSUP] when the sum is above 1536 and 0 when it is
    not, and in neither case changes anything: the driver keeps no MTU. *)
Theorem lre_ioctl_mtu (mtu : Z) (w : machine) :
  - 2 ^ 31 <= mtu + if_hdrlen < 2 ^ 31 ->
  (lre_ioctl (SIOCSIFMTU mtu) w).2 = w
  /\ (1536 < mtu + if_hdrlen ->
      (lre_ioctl (SIOCSIFMTU mtu) w).1 = (ENOTSUP, ReplyNone))
  /\ (mtu + if_hdrlen <= 1536 ->
      (lre_ioctl (SIOCSIFMTU mtu) w).1 = (0, ReplyNone)).
Proof.
  intros Hint. unfold lre_ioctl. rewrite s32_small by exact Hint.
  destruct (Z.ltb_spec 1536 (mtu + if_hdrlen)) as [Hbig|Hok]; unfold ret.
  - split; [reflexivity|]. split; [reflexivity | intros; lia].
  - split; [reflexivity|]. split; [intros; lia | reflexivity].
Qed.

(** X19.  [SIOCSIFADDR] for an Internet address (kernels with [INET]).  By
    the time [arp_ifinit] is called, [IFF_UP] is set and the interface is
    running; 0 is returned.  [lre_init] runs only if the interface was not
    running: on an interface that was, nothing is traced before
    [arp_ifinit], and the device and the capabilities are left as they
    were. *)
Theorem lre_ioctl_setaddr_inet (w : machine) :
  let drv := if_drv_flags (sc_ifp (sc w)) in
  let w0 := {| sc := set_sc_ifp
                       (set_if_flags (Z.lor (if_flags (sc_ifp (sc w))) IFF_UP)
                          (sc_ifp (sc w)))
                       (sc w);
               mb_zone := mb_zone w; trace := trace w |} in
  let w1 := if Z.land drv IFF_DRV_RUNNING =? 0 then (lre_init w0).2 else w0 in
  INET = true ->
  IFF_DRV_RUNNING <> 0 ->
  lre_ioctl (SIOCSIFADDR AF_INET) w = ((0, ReplyNone), (arp_ifinit w1).2)
  /\ Z.land (if_flags (sc_ifp (sc w1))) IFF_UP = IFF_UP
  /\ Z.land (if_drv_flags (sc_ifp (sc w1))) IFF_DRV_RUNNING <> 0
  /\ (Z.land drv IFF_DRV_RUNNING <> 0 ->
      trace w1 = trace w
      /\ sc_mem (sc w1) = sc_mem (sc w)
      /\ sc_cap (sc w1) = sc_cap (sc w)).
Proof.
  intros drv w0 w1 Hinet Hrun.
  split.
  - unfold lre_ioctl, bind, get_sc, put_sc. rewrite Hinet, Z.eqb_refl.
    cbn [andb sc]. fold drv. subst w1. fold w0.
    destruct (Z.land drv IFF_DRV_RUNNING =? 0).
    + destruct (lre_init w0) as [[] w1]. cbn [snd].
      destruct (arp_ifinit w1) as [[] w2]. reflexivity.
    + unfold ret at 1. destruct (arp_ifinit w0) as [[] w2]. reflexivity.
  - subst w1. destruct (Z.eqb_spec (Z.land drv IFF_DRV_RUNNING) 0) as [Hz|Hnz].
    + rewrite lre_init_sc. subst w0.
      cbn [sc sc_ifp set_sc_ifp set_if_flags set_if_drv_flags if_flags if_drv_flags].
      split; [apply land_lor_same|].
      split; [rewrite land_lor_same; exact Hrun|].
      fold drv. intros Hc. contradiction.
    + subst w0. cbn [sc sc_ifp set_sc_ifp set_if_flags if_flags if_drv_flags
                      sc_mem sc_cap trace].
      split; [apply land_lor_same|].
      split; [exact Hnz|]. intros _. repeat split.
Qed.

End IoctlProps.

(** * Concrete runs on the mocked platform *)

Import Mock.

Lemma mock_layout_ok : rx_layout_ok.
Proof. unfold rx_layout_ok. simpl. lia. Defined.

Lemma lre_transmit_stopped_witness :
  let w := machine0 0 1 [] [] 0 in
  Z.land (if_drv_flags (sc_ifp (sc w))) IFF_DRV_RUNNING <> IFF_DRV_RUNNING
  /\ lre_transmit frame13 w =
       (0, {| sc := sc w; mb_zone := mb_zone w;
              trace := trace w ++ [EvFreem frame13] |}).
Proof.
  intros w.
  assert (H : Z.land (if_drv_flags (sc_ifp (sc w))) IFF_DRV_RUNNING
              <> IFF_DRV_RUNNING) by (vm_compute; discriminate).
  exact (conj H (lre_transmit_stopped frame13 w H)).
Defined.


Lemma lre_init_idempotent_witness :
  let w := machine0 0 0 [(0x0808, 0x1122)] [] 0 in
  let w1 := (lre_init w).2 in
  let w2 := (lre_init w1).2 in
  (forall (d : mock_dev) (v : Z),
     (bus_read_8 (bus_write_8 d MACHI_OFFSET v) MACHI_OFFSET).1 = v)
  /\ (sc_ifp (sc w2) = sc_ifp (sc w1)
      /\ sc_flags (sc w2) = sc_flags (sc w1)
      /\ sc_cap (sc w2) = sc_cap (sc w1)
      /\ (bus_read_8 (sc_mem (sc w2)) MACHI_OFFSET).1
         = (bus_read_8 (sc_mem (sc w1)) MACHI_OFFSET).1)
  /\ if_drv_flags (sc_ifp (sc w1)) = 0x40
  /\ (bus_read_8 (sc_mem (sc w1)) MACHI_OFFSET).1 = 0x801122.
Proof.
  intros w w1 w2.
  assert (Hback : forall (d : mock_dev) (v : Z),
             (bus_read_8 (bus_write_8 d MACHI_OFFSET v) MACHI_OFFSET).1 = v).
  { intros d v. unfold bus_read_8, bus_write_8, platform, mock_read, mock_write.
    simpl. rewrite lookup_insert_eq. reflexivity. }
  split; [exact Hback|].
  split; [exact (proj1 (lre_init_idempotent w (fun _ => Hback)))|].
  split; reflexivity.
Defined.

Lemma lre_attach_mac_bytes_witness :
  let w := machine0 0 0 [(0x0800, 0x33445566); (0x0808, 0x801122)] [] 0 in
  let mac0 := [0; 0; 0; 0; 0; 0] in
  (length mac0 = 6%nat
   /\ bus_read_8 (sc_mem (sc w)) MACLO_OFFSET = (0x33445566, sc_mem (sc w))
   /\ bus_read_8 (sc_mem (sc w)) MACHI_OFFSET = (0x801122, sc_mem (sc w)))
  /\ (lre_attach_mac mac0 w).1 = [0x11; 0x22; 0x33; 0x44; 0x55; 0x66].
Proof.
  intros w mac0.
  assert (H1 : length mac0 = 6%nat) by reflexivity.
  assert (H2 : bus_read_8 (sc_mem (sc w)) MACLO_OFFSET
               = (0x33445566, sc_mem (sc w))) by reflexivity.
  assert (H3 : bus_read_8 (sc_mem (sc w)) MACHI_OFFSET
               = (0x801122, sc_mem (sc w))) by reflexivity.
  split; [exact (conj H1 (conj H2 H3))|].
  exact (proj1 (proj2 (lre_attach_mac_bytes mac0 w _ _ _ _ H1 H2 H3))).
Defined.

(** A status word whose index field holds 11: the slot is [11 & 7 = 3], and
    with bit 3 of the error register set the frame is discarded. *)
Lemma lre_rx_validation_witness :
  let w := rx_machine 0x008 68 1 in
  let d := (lre_rx_slot 0x100B w).1 in
  0 <= MCLBYTES - ETHER_ALIGN < 2 ^ 32
  /\ (rs_buf d = 11 /\ rs_errs d = 0x008 /\ rs_length d = 64)
  /\ 0 <= Z.land (rs_buf d) 7 <= 7
  /\ (rx_validated (lre_rx_iter 0x100B w).1 = true
      <-> rs_length d <= MCLBYTES - ETHER_ALIGN
          /\ Z.land (Z.shiftl 0x101 (Z.land (rs_buf d) 7)) (rs_errs d) = 0)
  /\ rx_validated (lre_rx_iter 0x100B w).1 = false.
Proof.
  intros w d.
  assert (H : 0 <= MCLBYTES - ETHER_ALIGN < 2 ^ 32) by (simpl; lia).
  destruct (lre_rx_validation 0x100B w H) as [Hs Hiff].
  split; [exact H|].
  split; [repeat split; reflexivity|].
  split; [exact Hs|].
  split; [exact Hiff | reflexivity].
Defined.

(** C1, as the specification words it, fails on slot 3 when only bit 0 of the
    error register is set: [0x101 << 3] is [0x808], which misses the bit, so
    the 64-byte frame is handed to [if_input]; the mask
    [0x101 | (0x101 << 3)] would have caught it. *)
Lemma lre_rx_validation_spec_mask_counterexample :
  let w := rx_machine 0x001 68 1 in
  let d := (lre_rx_slot 0x1003 w).1 in
  (rs_buf d = 3 /\ rs_errs d = 0x001 /\ rs_length d = 64)
  /\ (lre_rx_iter 0x1003 w).1 = RxInput 0
  /\ spec_rx_accept d = false
  /\ ~ (rx_validated (lre_rx_iter 0x1003 w).1 = true
        <-> rs_length d <= MCLBYTES - ETHER_ALIGN
            /\ Z.land (Z.lor 0x101 (Z.shiftl 0x101 (rs_buf d))) (rs_errs d) = 0).
Proof.
  intros w d.
  split; [repeat split; reflexivity|].
  split; [reflexivity|].
  split; [reflexivity|].
  intros [Hacc _].
  assert (Hval : rx_validated (lre_rx_iter 0x1003 w).1 = true) by reflexivity.
  destruct (Hacc Hval) as [_ Hmask].
  vm_compute in Hmask. discriminate Hmask.
Qed.

Lemma lre_rx_iter_discards_witness :
  let w := rx_machine 0x108 68 1 in
  let d2 := rx_dev 0x108 68 in
  let d3 := rx_dev_advanced 0x108 68 in
  (0 <= RSR_RECV_FIRST_MASK < 2 ^ 32 - 1
   /\ bus_read_8 (sc_mem (sc w)) RBAD_OFFSET = (0x108, d2)
   /\ bus_read_8 d2 (slot_rplr 3) = (68, d2)
   /\ lre_rx_discard (lre_rx_slot 0x1003 w).1 = true
   /\ bus_read_8 (bus_write_8 d2 RSR_OFFSET (3 + 1)) RSR_OFFSET = (0, d3))
  /\ (lre_rx_iter 0x1003 w).1 = RxDiscard 0
  /\ trace (lre_rx_iter 0x1003 w).2 =
       [EvGetReg 0x0838 0x108; EvGetReg 0x0858 68;
        EvPrintf "Receive discarded"; EvIncCounter IFCOUNTER_IERRORS 1;
        EvSetReg 0x0830 4; EvGetReg 0x0830 0]
  /\ if_ierrors (sc_ifp (sc (lre_rx_iter 0x1003 w).2)) = 1.
Proof.
  intros w d2 d3.
  assert (H1 : 0 <= RSR_RECV_FIRST_MASK < 2 ^ 32 - 1) by (simpl; lia).
  assert (H2 : bus_read_8 (sc_mem (sc w)) RBAD_OFFSET = (0x108, d2)) by reflexivity.
  assert (H3 : bus_read_8 d2 (slot_rplr 3) = (68, d2)) by reflexivity.
  assert (H4 : lre_rx_discard (lre_rx_slot 0x1003 w).1 = true) by reflexivity.
  assert (H5 : bus_read_8 (bus_write_8 d2 RSR_OFFSET (3 + 1)) RSR_OFFSET = (0, d3))
    by reflexivity.
  split; [exact (conj H1 (conj H2 (conj H3 (conj H4 H5))))|].
  destruct (lre_rx_iter_discards 0x1003 w _ _ _ _ _ _ H1 H2 H3 H4 H5)
    as (_ & Hrun & _).
  rewrite Hrun. repeat split; reflexivity.
Defined.

Lemma lre_rx_thread_no_mbuf_witness :
  let w := rx_machine 0 68 0 in
  let d2 := rx_dev 0 68 in
  (Z.land 0x1003 RSR_RECV_DONE_MASK <> 0
   /\ bus_read_8 (sc_mem (sc w)) RBAD_OFFSET = (0, d2)
   /\ bus_read_8 d2 (slot_rplr 3) = (68, d2)
   /\ lre_rx_discard (lre_rx_slot 0x1003 w).1 = false
   /\ zone_getcl (mb_zone w) = (false, 0%nat))
  /\ (lre_rx_drain 1 0x1003 w).1 = Some tt
  /\ trace (lre_rx_drain 1 0x1003 w).2 =
       [EvGetReg 0x0838 0; EvGetReg 0x0858 68; EvGetcl false;
        EvPrintf "no memory for receive mbuf.";
        EvIncCounter IFCOUNTER_IQDROPS 1]
  /\ if_iqdrops (sc_ifp (sc (lre_rx_drain 1 0x1003 w).2)) = 1.
Proof.
  intros w d2.
  assert (H1 : Z.land 0x1003 RSR_RECV_DONE_MASK <> 0) by (vm_compute; discriminate).
  assert (H2 : bus_read_8 (sc_mem (sc w)) RBAD_OFFSET = (0, d2)) by reflexivity.
  assert (H3 : bus_read_8 d2 (slot_rplr 3) = (68, d2)) by reflexivity.
  assert (H4 : lre_rx_discard (lre_rx_slot 0x1003 w).1 = false) by reflexivity.
  assert (H5 : zone_getcl (mb_zone w) = (false, 0%nat)) by reflexivity.
  split; [exact (conj H1 (conj H2 (conj H3 (conj H4 H5))))|].
  destruct (lre_rx_thread_no_mbuf 0 0x1003 w _ _ _ _ _ H1 H2 H3 H4 H5)
    as (_ & _ & Hrun & _).
  rewrite Hrun. repeat split; reflexivity.
Defined.

Lemma lre_rx_advance_before_input_witness :
  let w := rx_machine 0 68 1 in
  let d := rx_dev 0 68 in
  let d4 := rx_dev_advanced 0 68 in
  let vs := [0xaaaa; 0xbbbb; 0; 0; 0; 0; 0; 0] in
  let offs := word_offs (RXBUFF_OFFSET + 2048 * 3) 0 8 in
  (rx_layout_ok
   /\ bus_read_8 (sc_mem (sc w)) RBAD_OFFSET = (0, d)
   /\ bus_read_8 d (slot_rplr 3) = (68, d)
   /\ lre_rx_discard (lre_rx_slot 0x1003 w).1 = false
   /\ zone_getcl (mb_zone w) = (true, 0%nat)
   /\ read_all d offs = (vs, d)
   /\ bus_read_8 (bus_write_8 d RSR_OFFSET (3 + 1)) RSR_OFFSET = (0, d4))
  /\ (lre_rx_iter 0x1003 w).1 = RxInput 0
  /\ trace (lre_rx_iter 0x1003 w).2 =
       [EvGetReg 0x0838 0; EvGetReg 0x0858 68; EvGetcl true;
        EvGetReg 0x5800 0xaaaa; EvGetReg 0x5808 0xbbbb; EvGetReg 0x5810 0;
        EvGetReg 0x5818 0; EvGetReg 0x5820 0; EvGetReg 0x5828 0;
        EvGetReg 0x5830 0; EvGetReg 0x5838 0;
        EvSetReg 0x0830 4; EvIncCounter IFCOUNTER_IPACKETS 1;
        EvInput (rx_mbuf 64 vs); EvGetReg 0x0830 0].
Proof.
  intros w d d4 vs offs.
  assert (H2 : bus_read_8 (sc_mem (sc w)) RBAD_OFFSET = (0, d)) by reflexivity.
  assert (H3 : bus_read_8 d (slot_rplr 3) = (68, d)) by reflexivity.
  assert (H4 : lre_rx_discard (lre_rx_slot 0x1003 w).1 = false) by reflexivity.
  assert (H5 : zone_getcl (mb_zone w) = (true, 0%nat)) by reflexivity.
  assert (H6 : read_all d offs = (vs, d)) by reflexivity.
  assert (H7 : bus_read_8 (bus_write_8 d RSR_OFFSET (3 + 1)) RSR_OFFSET = (0, d4))
    by reflexivity.
  split; [exact (conj mock_layout_ok (conj H2 (conj H3 (conj H4 (conj H5 (conj H6 H7))))))|].
  destruct (lre_rx_advance_before_input 0x1003 w _ _ _ _ _ _ _ _ _
              mock_layout_ok H2 H3 H4 H5 H6 H7)
    as (w' & Hrun & Htrace & _).
  rewrite Hrun. split; [reflexivity | exact Htrace].
Defined.

Lemma lre_rx_trailer_wrap_witness :
  let w := rx_machine 0 2 1 in
  let d := rx_dev 0 2 in
  let w4 := rx_machine 0 4 1 in
  let d4 := rx_dev 0 4 in
  (rx_layout_ok
   /\ Z.land (sc_cap (sc w)) IFCAP_RXCSUM <> 0
   /\ bus_read_8 (sc_mem (sc w)) RBAD_OFFSET = (0, d)
   /\ bus_read_8 d (slot_rplr 3) = (2, d)
   /\ bus_read_8 (sc_mem (sc w4)) RBAD_OFFSET = (0, d4)
   /\ bus_read_8 d4 (slot_rplr 3) = (4, d4))
  /\ rs_length (lre_rx_slot 0x1003 w).1 = 2 ^ 32 - 2
  /\ (lre_rx_iter 0x1003 w).1 = RxDiscard 0
  /\ rs_length (lre_rx_slot 0x1003 w4).1 = 0
  /\ trace (lre_rx_iter 0x1003 w4).2 =
       [EvGetReg 0x0838 0; EvGetReg 0x0858 4; EvGetcl true;
        EvSetReg 0x0830 4; EvIncCounter IFCOUNTER_IPACKETS 1;
        EvInput {| m_data := 2; m_len := 0; m_pkthdr_len := 0;
                   m_pkthdr_rcvif := true; m_ext := ∅ |};
        EvGetReg 0x0830 0].
Proof.
  intros w d w4 d4.
  assert (H1 : Z.land (sc_cap (sc w)) IFCAP_RXCSUM <> 0) by (vm_compute; discriminate).
  assert (H2 : bus_read_8 (sc_mem (sc w)) RBAD_OFFSET = (0, d)) by reflexivity.
  assert (H3 : bus_read_8 d (slot_rplr 3) = (2, d)) by reflexivity.
  assert (H4 : bus_read_8 (sc_mem (sc w4)) RBAD_OFFSET = (0, d4)) by reflexivity.
  assert (H5 : bus_read_8 d4 (slot_rplr 3) = (4, d4)) by reflexivity.
  split; [exact (conj mock_layout_ok (conj H1 (conj H2 (conj H3 (conj H4 H5)))))|].
  destruct (lre_rx_trailer_wrap 0x1003 w _ _ _ _ mock_layout_ok H1 H2 H3)
    as [Hshort _].
  destruct (Hshort ltac:(vm_compute; reflexivity)) as (Hlen & _ & Hrun).
  destruct (lre_rx_trailer_wrap 0x1003 w4 _ _ _ _ mock_layout_ok H1 H4 H5)
    as [_ Hfour].
  destruct (Hfour eq_refl) as (Hlen4 & _ & _ & Hrun4).
  split; [exact Hlen|].
  split; [rewrite (proj1 (Hrun 0 (rx_dev_advanced 0 2) eq_refl)); reflexivity|].
  split; [exact Hlen4|].
  rewrite (proj1 (Hrun4 0%nat 0 (rx_dev_advanced 0 4) eq_refl eq_refl eq_refl)).
  reflexivity.
Defined.

(** C10, as the specification words it, fails on a slot whose masked length
    is exactly 4 when an error flag of the slot is set: the length is 0 and
    passes the length test, but bit 3 of the error register makes the pass
    leave through the discard branch, so the frame is not accepted and
    nothing is handed to [if_input].  With the error flags clear and no
    cluster to be had, the frame is dropped and not delivered either. *)
Lemma lre_rx_trailer_wrap_gates_counterexample :
  let w := rx_machine 0x008 4 1 in
  let w0 := rx_machine 0 4 0 in
  (Z.land (sc_cap (sc w)) IFCAP_RXCSUM <> 0
   /\ u32 (Z.land (bus_read_8 (sc_mem (sc w)) (slot_rplr 3)).1 RPLR_LENGTH_MASK) = 4
   /\ rs_length (lre_rx_slot 0x1003 w).1 = 0)
  /\ (rx_validated (lre_rx_iter 0x1003 w).1 = false
      /\ (lre_rx_iter 0x1003 w).1 = RxDiscard 0
      /\ inputs (trace (lre_rx_iter 0x1003 w).2) = []
      /\ if_ierrors (sc_ifp (sc (lre_rx_iter 0x1003 w).2)) = 1)
  /\ (rs_length (lre_rx_slot 0x1003 w0).1 = 0
      /\ (lre_rx_iter 0x1003 w0).1 = RxNoMbuf
      /\ inputs (trace (lre_rx_iter 0x1003 w0).2) = []
      /\ if_iqdrops (sc_ifp (sc (lre_rx_iter 0x1003 w0).2)) = 1)
  /\ ~ (rs_length (lre_rx_slot 0x1003 w).1 = 0 ->
        exists m : mbuf,
          m_len m = 0 /\ inputs (trace (lre_rx_iter 0x1003 w).2) = [m]).
Proof.
  intros w w0.
  split; [split; [vm_compute; discriminate | split; reflexivity]|].
  split; [repeat split; reflexivity|].
  split; [repeat split; reflexivity|].
  intros H. destruct (H eq_refl) as (m & _ & Hin).
  vm_compute in Hin. discriminate Hin.
Qed.

(** ** Runs of the interrupt filter, the callout and the attach loop *)

Lemma lre_rx_intr_masks_witness :
  let w := flags_machine 0 0 0x40 0x801122 in
  let d := sc_mem (sc w) in
  (LOWRISC_NET_POLL = false
   /\ bus_read_8 d RSR_OFFSET = (0, d)
   /\ bus_read_8 d MACHI_OFFSET = (0x801122, d))
  /\ (lre_rx_intr w).1 = FILTER_SCHEDULE_THREAD
  /\ trace (lre_rx_intr w).2 =
       [EvGetReg 0x0830 0; EvGetReg 0x0808 0x801122; EvSetReg 0x0808 0x001122].
Proof.
  intros w d.
  assert (H1 : LOWRISC_NET_POLL = false) by reflexivity.
  assert (H2 : bus_read_8 (sc_mem (sc w)) RSR_OFFSET = (0, d)) by reflexivity.
  assert (H3 : bus_read_8 d MACHI_OFFSET = (0x801122, d)) by reflexivity.
  split; [exact (conj H1 (conj H2 H3))|].
  destruct (lre_rx_intr_masks w _ _ _ _ H1 H2 H3) as (Hrun & _).
  rewrite Hrun. split; reflexivity.
Defined.

Lemma lre_rx_intr_thread_rearm_witness :
  let w := flags_machine 0 0 0x40 0x801122 in
  let d := sc_mem (sc w) in
  let d4 := bus_write_8 d MACHI_OFFSET 0x001122 in
  (LOWRISC_NET_POLL = false
   /\ bus_read_8 d RSR_OFFSET = (0, d)
   /\ bus_read_8 d MACHI_OFFSET = (0x801122, d)
   /\ bus_read_8 d4 RSR_OFFSET = (0, d4)
   /\ Z.land (u32 0) RSR_RECV_DONE_MASK = 0
   /\ bus_read_8 d4 MACHI_OFFSET = (0x001122, d4))
  /\ trace (lre_rx_thread 1 (lre_rx_intr w).2).2 =
       [EvGetReg 0x0830 0; EvGetReg 0x0808 0x801122; EvSetReg 0x0808 0x001122;
        EvGetReg 0x0830 0; EvGetReg 0x0808 0x001122; EvSetReg 0x0808 0x801122].
Proof.
  intros w d d4.
  assert (H1 : LOWRISC_NET_POLL = false) by reflexivity.
  assert (H2 : bus_read_8 (sc_mem (sc w)) RSR_OFFSET = (0, d)) by reflexivity.
  assert (H3 : bus_read_8 d MACHI_OFFSET = (0x801122, d)) by reflexivity.
  assert (H4 : bus_read_8 (bus_write_8 d MACHI_OFFSET
                             (Z.land (Z.lnot MACHI_IRQ_EN) 0x801122)) RSR_OFFSET
               = (0, d4)) by reflexivity.
  assert (H5 : Z.land (u32 0) RSR_RECV_DONE_MASK = 0) by reflexivity.
  assert (H6 : bus_read_8 d4 MACHI_OFFSET
               = (Z.land (Z.lnot MACHI_IRQ_EN) 0x801122, d4)) by reflexivity.
  split; [exact (conj H1 (conj H2 (conj H3 (conj H4 (conj H5 H6)))))|].
  rewrite (lre_rx_intr_thread_rearm 0 w _ _ _ _ _ _ _ H1 H2 H3 H4 H5 H6).
  reflexivity.
Defined.

Lemma net_timeout_only_looks_witness :
  let w := machine0 0x40 1 [] [0x1003] 0 in
  @LOWRISC_NET_POLL kern_poll = true
  /\ (@net_timeout reg kern_poll platform 1 w).1 = 1
  /\ sc_ifp (sc (@net_timeout reg kern_poll platform 1 w).2) = sc_ifp (sc w)
  /\ trace (@net_timeout reg kern_poll platform 1 w).2 = [EvGetReg 0x0830 0x1003].
Proof.
  intros w.
  assert (H1 : @LOWRISC_NET_POLL kern_poll = true) by reflexivity.
  destruct (@net_timeout_only_looks reg kern_poll platform 1 w H1)
    as (Hret & _ & Hifp & _).
  split; [exact H1|]. split; [exact Hret|]. split; [exact Hifp | reflexivity].
Defined.

Lemma lre_attach_discard_ring_witness :
  let w := machine0 0 0 [] [0x1003; 0x1004; 0] 0 in
  (lre_attach_discard 3 w).1 = Some 0
  /\ exists t : list event,
       trace (lre_attach_discard 3 w).2 = trace w ++ t
       /\ Forall (touches RSR_OFFSET) t
       /\ length t = 5%nat.
Proof.
  intros w. split; [reflexivity|].
  destruct (lre_attach_discard_ring 3 w) as (t & Ht & Hall & Hlen & _).
  exists t. split; [exact Ht|]. split; [exact Hall|].
  assert (Hlt : t = [EvGetReg 0x0830 0x1003; EvSetReg 0x0830 4;
                     EvGetReg 0x0830 0x1004; EvSetReg 0x0830 5;
                     EvGetReg 0x0830 0]).
  { apply (app_inv_head (trace w)). rewrite <- Ht. reflexivity. }
  rewrite Hlt. reflexivity.
Defined.

Lemma lre_rx_thread_frames_witness :
  let w := rx_machine 0 68 1 in
  0 <= MCLBYTES - ETHER_ALIGN < 2 ^ 31
  /\ exists t : list event,
       trace (lre_rx_thread 3 w).2 = trace w ++ t
       /\ Forall (fun m => 0 <= m_len m <= 2046) (inputs t)
       /\ if_ipackets (sc_ifp (sc (lre_rx_thread 3 w).2)) = Z.of_nat (length (inputs t)).
Proof.
  intros w.
  assert (H : 0 <= MCLBYTES - ETHER_ALIGN < 2 ^ 31) by (simpl; lia).
  split; [exact H|].
  destruct (lre_rx_thread_frames 3 w H) as (t & Ht & Hok & Hcnt & _).
  exists t. split; [exact Ht|]. split; [|exact Hcnt].
  eapply Forall_impl; [exact Hok|]. intros m (_ & _ & _ & Hlen). exact Hlen.
Defined.

(** ** Runs of the transmit path *)

Lemma lre_transmit_empty_frame_witness :
  let w := machine0 0x40 1 [] [] 0 in
  (Z.land (if_drv_flags (sc_ifp (sc w))) IFF_DRV_RUNNING = IFF_DRV_RUNNING
   /\ m_pkthdr_len frame0 = 0)
  /\ trace (lre_transmit frame0 w).2 =
       [EvSetReg 0x0810 0; EvBpfMtap frame0; EvIncCounter IFCOUNTER_OPACKETS 1;
        EvIncCounter IFCOUNTER_OBYTES 0; EvFreem frame0]
  /\ if_opackets (sc_ifp (sc (lre_transmit frame0 w).2)) = 1.
Proof.
  intros w.
  assert (H1 : Z.land (if_drv_flags (sc_ifp (sc w))) IFF_DRV_RUNNING
               = IFF_DRV_RUNNING) by reflexivity.
  assert (H2 : m_pkthdr_len frame0 = 0) by reflexivity.
  split; [exact (conj H1 H2)|].
  destruct (lre_transmit_empty_frame frame0 w H1 H2) as (Hrun & Hop & _).
  split; [rewrite Hrun; reflexivity | exact Hop].
Defined.



(** ** A frame of 2046 bytes: the copy runs past the cluster *)

(** Slot 3 of the ring is ready, its length register reads 2050 and no
    error flag is set: with the 4-byte trailer taken off, the length is 2046,
    which is [MCLBYTES - ETHER_ALIGN], and the frame is accepted.  The copy is
    of 2048 bytes from byte 2 of the cluster: its last word is stored at byte
    2042 and ends at byte 2050 of a cluster of 2048. *)
Lemma lre_rx_copy_overruns_cluster_witness :
  let w := rx_machine 0 2050 1 in
  let d := rx_dev 0 2050 in
  let d4 := rx_dev_advanced 0 2050 in
  let L := rs_length (lre_rx_slot 0x1003 w).1 in
  let offs := word_offs (RXBUFF_OFFSET + 2048 * 3) 0 256 in
  let vs := (read_all d offs).1 in
  (rx_layout_ok
   /\ 0 <= ETHER_ALIGN
   /\ bus_read_8 (sc_mem (sc w)) RBAD_OFFSET = (0, d)
   /\ bus_read_8 d (slot_rplr 3) = (2050, d)
   /\ lre_rx_discard (lre_rx_slot 0x1003 w).1 = false
   /\ zone_getcl (mb_zone w) = (true, 0%nat)
   /\ read_all d offs = (vs, d)
   /\ bus_read_8 (bus_write_8 d RSR_OFFSET (3 + 1)) RSR_OFFSET = (0, d4))
  /\ (L = 2046 /\ MCLBYTES = 2048 /\ ETHER_ALIGN = 2)
  /\ (exists t : list event,
        trace (lre_rx_iter 0x1003 w).2 = trace w ++ t
        /\ inputs t = [rx_mbuf L vs])
  /\ m_len (rx_mbuf L vs) = 2046
  /\ is_Some (m_ext (rx_mbuf L vs) !! 2042)
  /\ in_cluster 2042 = false
  /\ ~ mbuf_in_cluster (rx_mbuf L vs).
Proof.
  intros w d d4 L offs vs.
  assert (Ha : 0 <= ETHER_ALIGN) by (simpl; lia).
  assert (H2 : bus_read_8 (sc_mem (sc w)) RBAD_OFFSET = (0, d)) by reflexivity.
  assert (H3 : bus_read_8 d (slot_rplr 3) = (2050, d)) by reflexivity.
  assert (H4 : lre_rx_discard (lre_rx_slot 0x1003 w).1 = false) by reflexivity.
  assert (H5 : zone_getcl (mb_zone w) = (true, 0%nat)) by reflexivity.
  assert (H6 : read_all d offs = (vs, d)) by (vm_compute; reflexivity).
  assert (H7 : bus_read_8 (bus_write_8 d RSR_OFFSET (3 + 1)) RSR_OFFSET = (0, d4))
    by reflexivity.
  assert (HL : L = 2046) by reflexivity.
  split; [exact (conj mock_layout_ok (conj Ha (conj H2 (conj H3 (conj H4
                   (conj H5 (conj H6 H7)))))))|].
  split; [repeat split; reflexivity|].
  destruct (lre_rx_copy_overruns_cluster 0x1003 w _ _ _ _ _ _ _ _ _
              mock_layout_ok Ha H2 H3 H4 H5 H6 H7)
    as (w' & t & Hrun & Ht & Hin & _ & _ & _ & Hover).
  destruct (Hover ltac:(vm_compute; reflexivity)) as (Hsome & Hout & Hnot).
  split.
  { exists t. rewrite Hrun. split; [exact Ht | exact Hin]. }
  split; [exact HL|].
  split; [exact Hsome|]. split; [exact Hout | exact Hnot].
Defined.

(** ** Runs of lre_ioctl *)

Lemma mock_machi_reads_back :
  forall (d : mock_dev) (v : Z),
    (bus_read_8 (bus_write_8 d MACHI_OFFSET v) MACHI_OFFSET).1 = v.
Proof.
  intros d v. unfold bus_read_8, bus_write_8, platform, mock_read, mock_write.
  simpl. rewrite lookup_insert_eq. reflexivity.
Defined.

Lemma lre_ioctl_down_stops_transmit_witness :
  let w := flags_machine 0x8802 0x8843 0x40 0x801122 in
  let w1 := (lre_ioctl SIOCSIFFLAGS w).2 in
  (if_flags (sc_ifp (sc w)) <> sc_flags (sc w)
   /\ Z.land (if_flags (sc_ifp (sc w))) IFF_UP = 0
   /\ IFF_DRV_RUNNING <> 0)
  /\ if_drv_flags (sc_ifp (sc w1)) = 0
  /\ trace (lre_transmit frame13 w1).2 =
       [EvGetReg 0x0808 0x801122; EvSetReg 0x0808 0x801122; EvFreem frame13].
Proof.
  intros w w1.
  assert (H1 : if_flags (sc_ifp (sc w)) <> sc_flags (sc w))
    by (vm_compute; discriminate).
  assert (H2 : Z.land (if_flags (sc_ifp (sc w))) IFF_UP = 0) by reflexivity.
  assert (H3 : IFF_DRV_RUNNING <> 0) by (vm_compute; discriminate).
  split; [exact (conj H1 (conj H2 H3))|].
  destruct (lre_ioctl_down_stops_transmit w frame13 H1 H2 H3)
    as (_ & _ & _ & Htx).
  split; [reflexivity|]. fold w1 in Htx. rewrite Htx. reflexivity.
Defined.

Lemma lre_ioctl_setflags_promisc_witness :
  let w := flags_machine 0x8902 0x8843 0x40 0x801122 in
  let w' := (lre_ioctl SIOCSIFFLAGS w).2 in
  if_flags (sc_ifp (sc w)) <> sc_flags (sc w)
  /\ sc_flags (sc w') = 0x8902
  /\ exists (t : list event) (v x : Z),
       trace w' = trace w ++ t ++ [EvGetReg MACHI_OFFSET v; EvSetReg MACHI_OFFSET x]
       /\ Z.land x MACHI_ALLPKTS_MASK = MACHI_ALLPKTS_MASK.
Proof.
  intros w w'.
  assert (H1 : if_flags (sc_ifp (sc w)) <> sc_flags (sc w))
    by (vm_compute; discriminate).
  split; [exact H1|].
  destruct (lre_ioctl_setflags_promisc w H1)
    as (t & v & x & Ht & Hset & _ & Hsf & _).
  split; [exact Hsf|].
  exists t, v, x. split; [exact Ht | exact Hset].
Defined.

Lemma lre_ioctl_getflags_reports_witness :
  let w := flags_machine 0 0x8843 0x40 0xC01122 in
  let w' := (lre_ioctl SIOCGIFFLAGS w).2 in
  bus_read_8 (sc_mem (sc w)) MACHI_OFFSET = (0xC01122, sc_mem (sc w))
  /\ sc_flags (sc w') = 0x8943
  /\ if_flags (sc_ifp (sc w')) = sc_flags (sc w')
  /\ Z.land (sc_flags (sc w')) IFF_PROMISC = IFF_PROMISC.
Proof.
  intros w w'.
  assert (H1 : bus_read_8 (sc_mem (sc w)) MACHI_OFFSET = (0xC01122, sc_mem (sc w)))
    by reflexivity.
  split; [exact H1|].
  destruct (lre_ioctl_getflags_reports w _ _ H1) as (_ & _ & Hcopy & Hp & _).
  split; [reflexivity|]. split; [exact Hcopy | exact Hp].
Defined.

Lemma lre_ioctl_flags_round_trip_witness :
  let w := flags_machine 0x8902 0x8843 0x40 0x801122 in
  let w1 := (lre_ioctl SIOCSIFFLAGS w).2 in
  let w2 := (lre_ioctl SIOCGIFFLAGS w1).2 in
  ((forall (d : mock_dev) (v : Z),
      (bus_read_8 (bus_write_8 d MACHI_OFFSET v) MACHI_OFFSET).1 = v)
   /\ if_flags (sc_ifp (sc w)) <> sc_flags (sc w)
   /\ one_bit IFF_PROMISC
   /\ MACHI_ALLPKTS_MASK <> 0)
  /\ if_flags (sc_ifp (sc w2)) = 0x8902
  /\ sc_flags (sc w2) = 0x8902.
Proof.
  intros w w1 w2.
  assert (H1 : if_flags (sc_ifp (sc w)) <> sc_flags (sc w))
    by (vm_compute; discriminate).
  assert (H2 : one_bit IFF_PROMISC) by (exists 8; split; [lia | reflexivity]).
  assert (H3 : MACHI_ALLPKTS_MASK <> 0) by (vm_compute; discriminate).
  split; [exact (conj mock_machi_reads_back (conj H1 (conj H2 H3)))|].
  exact (proj2 (lre_ioctl_flags_round_trip w mock_machi_reads_back H1 H2 H3)).
Defined.

Lemma lre_ioctl_cap_controls_trim_witness :
  let w := rx_machine 0 68 1 in
  let d := rx_dev 0 68 in
  (bus_read_8 (sc_mem (sc w)) RBAD_OFFSET = (0, d)
   /\ bus_read_8 d (slot_rplr 3) = (68, d))
  /\ rs_length (lre_rx_slot 0x1003 w).1 = 64
  /\ rs_length (lre_rx_slot 0x1003 (lre_ioctl (SIOCSIFCAP 0) w).2).1 = 68
  /\ rs_length (lre_rx_slot 0x1003 (lre_ioctl (SIOCSIFCAP 0x9) w).2).1 = 64.
Proof.
  intros w d.
  assert (H1 : bus_read_8 (sc_mem (sc w)) RBAD_OFFSET = (0, d)) by reflexivity.
  assert (H2 : bus_read_8 d (slot_rplr 3) = (68, d)) by reflexivity.
  split; [exact (conj H1 H2)|]. split; [reflexivity|].
  split.
  - exact (proj2 (proj2 (lre_ioctl_cap_controls_trim 0 0x1003 w _ _ _ _ H1 H2))).
  - exact (proj2 (proj2 (lre_ioctl_cap_controls_trim 0x9 0x1003 w _ _ _ _ H1 H2))).
Defined.

Lemma lre_ioctl_mtu_witness :
  let w := machine0 0x40 1 [] [] 0 in
  (- 2 ^ 31 <= 1500 + if_hdrlen < 2 ^ 31
   /\ - 2 ^ 31 <= 1523 + if_hdrlen < 2 ^ 31)
  /\ lre_ioctl (SIOCSIFMTU 1500) w = ((0, ReplyNone), w)
  /\ lre_ioctl (SIOCSIFMTU 1523) w = ((ENOTSUP, ReplyNone), w).
Proof.
  intros w.
  assert (H1 : - 2 ^ 31 <= 1500 + if_hdrlen < 2 ^ 31) by (simpl; lia).
  assert (H2 : - 2 ^ 31 <= 1523 + if_hdrlen < 2 ^ 31) by (simpl; lia).
  split; [exact (conj H1 H2)|].
  destruct (lre_ioctl_mtu 1500 w H1) as (Hw & _ & Hok).
  destruct (lre_ioctl_mtu 1523 w H2) as (Hw' & Hbig & _).
  split.
  - rewrite (surjective_pairing (lre_ioctl (SIOCSIFMTU 1500) w)), Hw, Hok;
      [reflexivity | simpl; lia].
  - rewrite (surjective_pairing (lre_ioctl (SIOCSIFMTU 1523) w)), Hw', Hbig;
      [reflexivity | simpl; lia].
Defined.

Lemma lre_rx_thread_ends_witness :
  let w := rx_machine 0 68 1 in
  let w' := (lre_rx_thread 3 w).2 in
  (LOWRISC_NET_POLL = false /\ (lre_rx_thread 3 w).1 = Some tt)
  /\ ((exists (t : list event) (v : Z),
         trace w' = trace w ++ t ++ [EvGetReg MACHI_OFFSET v;
                                     EvSetReg MACHI_OFFSET (Z.lor MACHI_IRQ_EN v)]
         /\ if_iqdrops (sc_ifp (sc w')) = if_iqdrops (sc_ifp (sc w)))
      \/ (exists t : list event,
            trace w' = trace w ++ t ++ [EvGetcl false;
                                        EvPrintf "no memory for receive mbuf.";
                                        EvIncCounter IFCOUNTER_IQDROPS 1]
            /\ if_iqdrops (sc_ifp (sc w')) = if_iqdrops (sc_ifp (sc w)) + 1)).
Proof.
  intros w w'.
  assert (H1 : LOWRISC_NET_POLL = false) by reflexivity.
  assert (H2 : (lre_rx_thread 3 w).1 = Some tt) by (vm_compute; reflexivity).
  exact (conj (conj H1 H2) (lre_rx_thread_ends 3 w H1 H2)).
Defined.

Lemma lre_ioctl_setaddr_inet_witness :
  let w := flags_machine 0 0 0 0x1122 in
  let w' := (lre_ioctl (SIOCSIFADDR AF_INET) w).2 in
  (INET = true /\ IFF_DRV_RUNNING <> 0)
  /\ (lre_ioctl (SIOCSIFADDR AF_INET) w).1 = (0, ReplyNone)
  /\ Z.land (if_flags (sc_ifp (sc w'))) IFF_UP = IFF_UP
  /\ Z.land (if_drv_flags (sc_ifp (sc w'))) IFF_DRV_RUNNING <> 0.
Proof.
  intros w w'.
  assert (H1 : INET = true) by reflexivity.
  assert (H2 : IFF_DRV_RUNNING <> 0) by (vm_compute; discriminate).
  split; [exact (conj H1 H2)|].
  pose proof (lre_ioctl_setaddr_inet w H1 H2) as H. cbv zeta in H.
  destruct H as (Hrun & Hup & Hr & _).
  subst w'. rewrite Hrun. cbn [fst snd].
  split; [reflexivity|]. split; [exact Hup | exact Hr].
Defined.
